(** * HardwarePython: the BMP280 / BME280 calibrated decode pipeline

    A shallow embedding of [bmp280.py] and [bme280.py]: the decoding of the
    calibration registers, the temperature, pressure and humidity
    compensation formulas, and the [t_fine] attribute they share.

    Python [float] is IEEE 754 binary64; it is modelled with the
    software floats of [SpecFloat] at precision 53 and exponent bound 1024,
    so every formula below is evaluated bit for bit as CPython does. *)

From Stdlib Require Import Strings.String.
From Stdlib Require Import ZArith Lia Bool List.
From Stdlib Require Import Floats.SpecFloat.
From Stdlib Require Import Strings.Byte.
Import ListNotations.

Local Open Scope Z_scope.

(** ** Python floats *)

Module F64.

Definition prec : Z := 53.
Definition emax : Z := 1024.

Definition float := spec_float.

Definition add : float -> float -> float := SFadd prec emax.
Definition sub : float -> float -> float := SFsub prec emax.
Definition mul : float -> float -> float := SFmul prec emax.
(** IEEE division; Python's [/] is [truediv] below. *)
Definition div : float -> float -> float := SFdiv prec emax.

Definition eqb : float -> float -> bool := SFeqb.
Definition ltb : float -> float -> bool := SFltb.
Definition leb : float -> float -> bool := SFleb.

(** [float(n)] for a Python int: the nearest binary64 value. *)
Definition of_Z (n : Z) : float := binary_normalize prec emax n 0 false.

Definition is_zero (x : float) : bool :=
  match x with S754_zero _ => true | _ => false end.

Definition is_nan (x : float) : bool :=
  match x with S754_nan => true | _ => false end.

(** Round-half-even of the rational [n / d], for [0 <= n] and [0 < d]. *)
Definition round_half_even_div (n d : Z) : Z :=
  let q := n / d in
  let r := n mod d in
  match 2 * r ?= d with
  | Lt => q
  | Gt => q + 1
  | Eq => if Z.even q then q else q + 1
  end.

(** The integer nearest to [m * 2^e * 10^nd], ties to even. *)
Definition scaled_digits (m : positive) (e : Z) (nd : Z) : Z :=
  if 0 <=? e then Zpos m * 2 ^ e * 10 ^ nd
  else round_half_even_div (Zpos m * 10 ^ nd) (2 ^ (- e)).

(** The builtin [round(x, nd)] on a float, for [0 <= nd]: CPython prints
    [x] correctly rounded to [nd] decimals (ties on the exact binary value
    go to even) and reads the decimal string back as the nearest float.
    NaN and the infinities round to themselves; the sign of a zero result
    is the sign of [x]. *)
Definition round (x : float) (nd : Z) : float :=
  match x with
  | S754_finite s m e =>
      match scaled_digits m e nd with
      | Zpos k =>
          SFdiv prec emax (S754_finite s k 0)
                (S754_finite false (Z.to_pos (10 ^ nd)) 0)
      | _ => S754_zero s
      end
  | _ => x
  end.

(** A decimal literal [n / 10^nd], read as the nearest float. *)
Definition decimal (n : Z) (nd : Z) : float :=
  div (of_Z n) (of_Z (10 ^ nd)).

End F64.

Abbreviation float := F64.float.
Abbreviation Zf := F64.of_Z.

Declare Scope pyfloat_scope.
Delimit Scope pyfloat_scope with F.
Infix "+" := F64.add : pyfloat_scope.
Infix "-" := F64.sub : pyfloat_scope.
Infix "*" := F64.mul : pyfloat_scope.
Infix "/" := F64.div : pyfloat_scope.

(** ** Exceptions and the method monad *)

(** The exceptions the modelled code can raise: [I2CError] comes from the
    bus wrapper of [i2c.py], [IndexError] from indexing a block that is too
    short, [ZeroDivisionError] from float division, [TypeError] from
    arithmetic on [None]. *)
Inductive exn : Type :=
| I2CError (errno : Z)
| IndexError
| ZeroDivisionError
| TypeError.

Inductive result (A : Type) : Type :=
| Ok (a : A)
| Raise (e : exn).
Arguments Ok {A} a.
Arguments Raise {A} e.

(** A method of an object of class [S]: it runs on [self], returns a value
    or raises, and leaves [self] as mutated up to that point. *)
Definition M (S A : Type) : Type := S -> result A * S.

Definition ret {S A} (a : A) : M S A := fun s => (Ok a, s).

Definition raise {S A} (e : exn) : M S A := fun s => (Raise e, s).

Definition bind {S A B} (m : M S A) (k : A -> M S B) : M S B :=
  fun s =>
    match m s with
    | (Ok a, s') => k a s'
    | (Raise e, s') => (Raise e, s')
    end.

Definition get {S} : M S S := fun s => (Ok s, s).

Definition modify {S} (f : S -> S) : M S unit := fun s => (Ok tt, f s).

(** An expression that may raise, evaluated without touching [self]. *)
Definition lift {S A} (r : result A) : M S A := fun s => (r, s).

Notation "x <- m ;; k" := (bind m (fun x => k))
  (at level 61, m at next level, right associativity).
Notation "m ;;; k" := (bind m (fun _ => k))
  (at level 61, right associativity).

(** Python's [x / y] on floats.  Where the code divides by a nonzero
    literal the quotient is written with [F64.div]: such a division cannot
    raise, see [truediv_nonzero]. *)
Definition truediv (x y : float) : result float :=
  if F64.is_zero y then Raise ZeroDivisionError else Ok (F64.div x y).

(** ** The bus, bytes and ctypes *)

(** What the device at [addr] answers to a block read of [len] bytes at
    register [cmd]: bytes, or no answer, with the errno of the [OSError]
    that [smbus] raises.  A value of type [I2CBus] is the content of the
    device registers during one method call. *)
Inductive reply : Type :=
| Data (bytes : list byte)
| NoReply (errno : Z).

Definition I2CBus : Type := Z -> Z -> Z -> reply.

(** [I2CBus.read_i2c_block_data(addr, cmd, len)] of [i2c.py]: an
    [OSError] of the transport is re-raised as [I2CError]. *)
Definition read_i2c_block_data (bus : I2CBus) (addr cmd len : Z)
  : result (list byte) :=
  match bus addr cmd len with
  | Data bytes => Ok bytes
  | NoReply errno => Raise (I2CError errno)
  end.

Definition byte_val (b : byte) : Z := Z.of_N (Byte.to_N b).

(** [data[i]] on a list of bytes. *)
Definition item (data : list byte) (i : nat) : result Z :=
  match nth_error data i with
  | Some b => Ok (byte_val b)
  | None => Raise IndexError
  end.

Definition c_ushort (v : Z) : Z := v mod 65536.
Definition c_short (v : Z) : Z := (v + 32768) mod 65536 - 32768.
Definition c_ubyte (v : Z) : Z := v mod 256.
Definition c_byte (v : Z) : Z := (v + 128) mod 256 - 128.

(** [(data[hi] << 8) + data[lo]]; Python evaluates [data[hi]] first. *)
Definition word_at (data : list byte) (hi lo : nat) : result Z :=
  match item data hi with
  | Raise e => Raise e
  | Ok h =>
      match item data lo with
      | Raise e => Raise e
      | Ok l => Ok (Z.shiftl h 8 + l)
      end
  end.

(** ** bmp280.py *)

(** An object of class [BMP280] after [__init__]: the attributes the
    methods below use.  [self._bus] is not a field; the content of the bus
    is an argument of every method, see [I2CBus]. *)
Record BMP280 : Type := mkBMP280 {
  addr : Z;
  t_fine : option float;
  dig_T1 : float;
  dig_T2 : float;
  dig_T3 : float;
  dig_P1 : float;
  dig_P2 : float;
  dig_P3 : float;
  dig_P4 : float;
  dig_P5 : float;
  dig_P6 : float;
  dig_P7 : float;
  dig_P8 : float;
  dig_P9 : float
}.

(** Attribute assignments [self.x = v]. *)
Definition set_t_fine (v : option float) (self : BMP280) : BMP280 :=
  {| addr := addr self; t_fine := v; dig_T1 := dig_T1 self;
     dig_T2 := dig_T2 self; dig_T3 := dig_T3 self; dig_P1 := dig_P1 self;
     dig_P2 := dig_P2 self; dig_P3 := dig_P3 self; dig_P4 := dig_P4 self;
     dig_P5 := dig_P5 self; dig_P6 := dig_P6 self; dig_P7 := dig_P7 self;
     dig_P8 := dig_P8 self; dig_P9 := dig_P9 self |}.

Definition set_dig_T1 (v : float) (self : BMP280) : BMP280 :=
  {| addr := addr self; t_fine := t_fine self; dig_T1 := v;
     dig_T2 := dig_T2 self; dig_T3 := dig_T3 self; dig_P1 := dig_P1 self;
     dig_P2 := dig_P2 self; dig_P3 := dig_P3 self; dig_P4 := dig_P4 self;
     dig_P5 := dig_P5 self; dig_P6 := dig_P6 self; dig_P7 := dig_P7 self;
     dig_P8 := dig_P8 self; dig_P9 := dig_P9 self |}.

Definition set_dig_T2 (v : float) (self : BMP280) : BMP280 :=
  {| addr := addr self; t_fine := t_fine self; dig_T1 := dig_T1 self;
     dig_T2 := v; dig_T3 := dig_T3 self; dig_P1 := dig_P1 self;
     dig_P2 := dig_P2 self; dig_P3 := dig_P3 self; dig_P4 := dig_P4 self;
     dig_P5 := dig_P5 self; dig_P6 := dig_P6 self; dig_P7 := dig_P7 self;
     dig_P8 := dig_P8 self; dig_P9 := dig_P9 self |}.

Definition set_dig_T3 (v : float) (self : BMP280) : BMP280 :=
  {| addr := addr self; t_fine := t_fine self; dig_T1 := dig_T1 self;
     dig_T2 := dig_T2 self; dig_T3 := v; dig_P1 := dig_P1 self;
     dig_P2 := dig_P2 self; dig_P3 := dig_P3 self; dig_P4 := dig_P4 self;
     dig_P5 := dig_P5 self; dig_P6 := dig_P6 self; dig_P7 := dig_P7 self;
     dig_P8 := dig_P8 self; dig_P9 := dig_P9 self |}.

Definition set_dig_P1 (v : float) (self : BMP280) : BMP280 :=
  {| addr := addr self; t_fine := t_fine self; dig_T1 := dig_T1 self;
     dig_T2 := dig_T2 self; dig_T3 := dig_T3 self; dig_P1 := v;
     dig_P2 := dig_P2 self; dig_P3 := dig_P3 self; dig_P4 := dig_P4 self;
     dig_P5 := dig_P5 self; dig_P6 := dig_P6 self; dig_P7 := dig_P7 self;
     dig_P8 := dig_P8 self; dig_P9 := dig_P9 self |}.

Definition set_dig_P2 (v : float) (self : BMP280) : BMP280 :=
  {| addr := addr self; t_fine := t_fine self; dig_T1 := dig_T1 self;
     dig_T2 := dig_T2 self; dig_T3 := dig_T3 self; dig_P1 := dig_P1 self;
     dig_P2 := v; dig_P3 := dig_P3 self; dig_P4 := dig_P4 self;
     dig_P5 := dig_P5 self; dig_P6 := dig_P6 self; dig_P7 := dig_P7 self;
     dig_P8 := dig_P8 self; dig_P9 := dig_P9 self |}.

Definition set_dig_P3 (v : float) (self : BMP280) : BMP280 :=
  {| addr := addr self; t_fine := t_fine self; dig_T1 := dig_T1 self;
     dig_T2 := dig_T2 self; dig_T3 := dig_T3 self; dig_P1 := dig_P1 self;
     dig_P2 := dig_P2 self; dig_P3 := v; dig_P4 := dig_P4 self;
     dig_P5 := dig_P5 self; dig_P6 := dig_P6 self; dig_P7 := dig_P7 self;
     dig_P8 := dig_P8 self; dig_P9 := dig_P9 self |}.

Definition set_dig_P4 (v : float) (self : BMP280) : BMP280 :=
  {| addr := addr self; t_fine := t_fine self; dig_T1 := dig_T1 self;
     dig_T2 := dig_T2 self; dig_T3 := dig_T3 self; dig_P1 := dig_P1 self;
     dig_P2 := dig_P2 self; dig_P3 := dig_P3 self; dig_P4 := v;
     dig_P5 := dig_P5 self; dig_P6 := dig_P6 self; dig_P7 := dig_P7 self;
     dig_P8 := dig_P8 self; dig_P9 := dig_P9 self |}.

Definition set_dig_P5 (v : float) (self : BMP280) : BMP280 :=
  {| addr := addr self; t_fine := t_fine self; dig_T1 := dig_T1 self;
     dig_T2 := dig_T2 self; dig_T3 := dig_T3 self; dig_P1 := dig_P1 self;
     dig_P2 := dig_P2 self; dig_P3 := dig_P3 self; dig_P4 := dig_P4 self;
     dig_P5 := v; dig_P6 := dig_P6 self; dig_P7 := dig_P7 self;
     dig_P8 := dig_P8 self; dig_P9 := dig_P9 self |}.

Definition set_dig_P6 (v : float) (self : BMP280) : BMP280 :=
  {| addr := addr self; t_fine := t_fine self; dig_T1 := dig_T1 self;
     dig_T2 := dig_T2 self; dig_T3 := dig_T3 self; dig_P1 := dig_P1 self;
     dig_P2 := dig_P2 self; dig_P3 := dig_P3 self; dig_P4 := dig_P4 self;
     dig_P5 := dig_P5 self; dig_P6 := v; dig_P7 := dig_P7 self;
     dig_P8 := dig_P8 self; dig_P9 := dig_P9 self |}.

Definition set_dig_P7 (v : float) (self : BMP280) : BMP280 :=
  {| addr := addr self; t_fine := t_fine self; dig_T1 := dig_T1 self;
     dig_T2 := dig_T2 self; dig_T3 := dig_T3 self; dig_P1 := dig_P1 self;
     dig_P2 := dig_P2 self; dig_P3 := dig_P3 self; dig_P4 := dig_P4 self;
     dig_P5 := dig_P5 self; dig_P6 := dig_P6 self; dig_P7 := v;
     dig_P8 := dig_P8 self; dig_P9 := dig_P9 self |}.

Definition set_dig_P8 (v : float) (self : BMP280) : BMP280 :=
  {| addr := addr self; t_fine := t_fine self; dig_T1 := dig_T1 self;
     dig_T2 := dig_T2 self; dig_T3 := dig_T3 self; dig_P1 := dig_P1 self;
     dig_P2 := dig_P2 self; dig_P3 := dig_P3 self; dig_P4 := dig_P4 self;
     dig_P5 := dig_P5 self; dig_P6 := dig_P6 self; dig_P7 := dig_P7 self;
     dig_P8 := v; dig_P9 := dig_P9 self |}.

Definition set_dig_P9 (v : float) (self : BMP280) : BMP280 :=
  {| addr := addr self; t_fine := t_fine self; dig_T1 := dig_T1 self;
     dig_T2 := dig_T2 self; dig_T3 := dig_T3 self; dig_P1 := dig_P1 self;
     dig_P2 := dig_P2 self; dig_P3 := dig_P3 self; dig_P4 := dig_P4 self;
     dig_P5 := dig_P5 self; dig_P6 := dig_P6 self; dig_P7 := dig_P7 self;
     dig_P8 := dig_P8 self; dig_P9 := v |}.

Definition I2C_ADDRESS : Z := 0x77.
Definition I2C_ADDRESS2 : Z := 0x76.
Definition CALIBRATION : Z := 0x88.
Definition PRESS : Z := 0xf7.
Definition TEMP : Z := 0xfa.

(** [self._bus.read_i2c_block_data(self.addr, cmd, len)]. *)
Definition read_block (bus : I2CBus) (cmd len : Z) : M BMP280 (list byte) :=
  self <- get ;; lift (read_i2c_block_data bus (addr self) cmd len).

(** [BMP280.calibrate]: twelve attribute assignments in source order. *)
Definition calibrate (bus : I2CBus) : M BMP280 unit :=
  data <- read_block bus CALIBRATION 24 ;;
  w <- lift (word_at data 1 0) ;; modify (set_dig_T1 (Zf (c_ushort w))) ;;;
  w <- lift (word_at data 3 2) ;; modify (set_dig_T2 (Zf (c_short w))) ;;;
  w <- lift (word_at data 5 4) ;; modify (set_dig_T3 (Zf (c_short w))) ;;;
  w <- lift (word_at data 7 6) ;; modify (set_dig_P1 (Zf (c_ushort w))) ;;;
  w <- lift (word_at data 9 8) ;; modify (set_dig_P2 (Zf (c_short w))) ;;;
  w <- lift (word_at data 11 10) ;; modify (set_dig_P3 (Zf (c_short w))) ;;;
  w <- lift (word_at data 13 12) ;; modify (set_dig_P4 (Zf (c_short w))) ;;;
  w <- lift (word_at data 15 14) ;; modify (set_dig_P5 (Zf (c_short w))) ;;;
  w <- lift (word_at data 17 16) ;; modify (set_dig_P6 (Zf (c_short w))) ;;;
  w <- lift (word_at data 19 18) ;; modify (set_dig_P7 (Zf (c_short w))) ;;;
  w <- lift (word_at data 21 20) ;; modify (set_dig_P8 (Zf (c_short w))) ;;;
  w <- lift (word_at data 23 22) ;; modify (set_dig_P9 (Zf (c_short w))) ;;;
  ret tt.

(** The object [__init__] is about to calibrate: [addr] and [t_fine] are
    set, the [dig_*] attributes do not exist yet.  Their slots hold NaN;
    [calibrate] assigns all twelve before it returns. *)
Definition fresh (alternativeAddress : bool) : BMP280 :=
  {| addr := if alternativeAddress then I2C_ADDRESS2 else I2C_ADDRESS;
     t_fine := None;
     dig_T1 := S754_nan; dig_T2 := S754_nan; dig_T3 := S754_nan;
     dig_P1 := S754_nan; dig_P2 := S754_nan; dig_P3 := S754_nan;
     dig_P4 := S754_nan; dig_P5 := S754_nan; dig_P6 := S754_nan;
     dig_P7 := S754_nan; dig_P8 := S754_nan; dig_P9 := S754_nan |}.

(** [BMP280(bus, alternativeAddress)]: the constructed object, or the
    exception [calibrate] raised. *)
Definition BMP280_init (bus : I2CBus) (alternativeAddress : bool)
  : result BMP280 :=
  match calibrate bus (fresh alternativeAddress) with
  | (Ok _, self) => Ok self
  | (Raise e, _) => Raise e
  end.

(** [(data[0] << 12) + (data[1] << 4) + (data[2] >> 4)]. *)
Definition raw20 (data : list byte) : result Z :=
  match item data 0 with
  | Raise e => Raise e
  | Ok d0 =>
      match item data 1 with
      | Raise e => Raise e
      | Ok d1 =>
          match item data 2 with
          | Raise e => Raise e
          | Ok d2 => Ok (Z.shiftl d0 12 + Z.shiftl d1 4 + Z.shiftr d2 4)
          end
      end
  end.

Definition raw_pressure (bus : I2CBus) : M BMP280 Z :=
  data <- read_block bus PRESS 3 ;; lift (raw20 data).

Definition raw_temperature (bus : I2CBus) : M BMP280 Z :=
  data <- read_block bus TEMP 3 ;; lift (raw20 data).

(** [BMP280.temperature]. *)
Definition temperature (bus : I2CBus) : M BMP280 float :=
  raw <- raw_temperature bus ;;
  self <- get ;;
  let adc_T := Zf raw in
  let var1 := ((adc_T / Zf 16384 - dig_T1 self / Zf 1024) * dig_T2 self)%F in
  let var2 := (((adc_T / Zf 131072 - dig_T1 self / Zf 8192) *
                (adc_T / Zf 131072 - dig_T1 self / Zf 8192)) * dig_T3 self)%F in
  modify (set_t_fine (Some (var1 + var2)%F)) ;;;
  let T := ((var1 + var2) / Zf 5120)%F in
  ret (F64.round T 2).

(** Reading [self.t_fine] as an operand of float arithmetic. *)
Definition read_t_fine : M BMP280 float :=
  self <- get ;;
  match t_fine self with
  | Some t => ret t
  | None => raise TypeError
  end.

Definition is_None {A} (o : option A) : bool :=
  match o with None => true | Some _ => false end.

(** [BMP280.pressure]; [update_temperature] defaults to [True], so a call
    without argument is [pressure bus true]. *)
Definition pressure (bus : I2CBus) (update_temperature : bool)
  : M BMP280 float :=
  self <- get ;;
  (if is_None (t_fine self) || update_temperature
   then temperature bus ;;; ret tt
   else ret tt) ;;;
  raw <- raw_pressure bus ;;
  let adc_P := Zf raw in
  t <- read_t_fine ;;
  self <- get ;;
  let var1 := (t / Zf 2 - Zf 64000)%F in
  let var2 := (var1 * var1 * dig_P6 self / Zf 32768)%F in
  let var2 := (var2 + var1 * dig_P5 self * Zf 2)%F in
  let var2 := (var2 / Zf 4 + dig_P4 self * Zf 65536)%F in
  let var1 := ((dig_P3 self * var1 * var1 / Zf 524288 +
                dig_P2 self * var1) / Zf 524288)%F in
  let var1 := ((Zf 1 + var1 / Zf 32768) * dig_P1 self)%F in
  if F64.eqb var1 (Zf 0) then ret (Zf 0)
  else
    let p := (Zf 1048576 - adc_P)%F in
    q <- lift (truediv ((p - var2 / Zf 4096) * Zf 6250)%F var1) ;;
    let p := q in
    let var1 := (dig_P9 self * p * p / Zf 2147483648)%F in
    let var2 := (p * dig_P8 self / Zf 32768)%F in
    let p := (p + (var1 + var2 + dig_P7 self) / Zf 16)%F in
    ret (F64.round p 1).

(** ** bme280.py *)

(** An object of class [BME280]: the attributes inherited from [BMP280]
    and the six humidity coefficients. *)
Record BME280 : Type := mkBME280 {
  base : BMP280;
  dig_H1 : float;
  dig_H2 : float;
  dig_H3 : float;
  dig_H4 : float;
  dig_H5 : float;
  dig_H6 : float
}.

Definition set_base (v : BMP280) (self : BME280) : BME280 :=
  {| base := v; dig_H1 := dig_H1 self; dig_H2 := dig_H2 self;
     dig_H3 := dig_H3 self; dig_H4 := dig_H4 self; dig_H5 := dig_H5 self;
     dig_H6 := dig_H6 self |}.

Definition set_dig_H1 (v : float) (self : BME280) : BME280 :=
  {| base := base self; dig_H1 := v; dig_H2 := dig_H2 self;
     dig_H3 := dig_H3 self; dig_H4 := dig_H4 self; dig_H5 := dig_H5 self;
     dig_H6 := dig_H6 self |}.

Definition set_dig_H2 (v : float) (self : BME280) : BME280 :=
  {| base := base self; dig_H1 := dig_H1 self; dig_H2 := v;
     dig_H3 := dig_H3 self; dig_H4 := dig_H4 self; dig_H5 := dig_H5 self;
     dig_H6 := dig_H6 self |}.

Definition set_dig_H3 (v : float) (self : BME280) : BME280 :=
  {| base := base self; dig_H1 := dig_H1 self; dig_H2 := dig_H2 self;
     dig_H3 := v; dig_H4 := dig_H4 self; dig_H5 := dig_H5 self;
     dig_H6 := dig_H6 self |}.

Definition set_dig_H4 (v : float) (self : BME280) : BME280 :=
  {| base := base self; dig_H1 := dig_H1 self; dig_H2 := dig_H2 self;
     dig_H3 := dig_H3 self; dig_H4 := v; dig_H5 := dig_H5 self;
     dig_H6 := dig_H6 self |}.

Definition set_dig_H5 (v : float) (self : BME280) : BME280 :=
  {| base := base self; dig_H1 := dig_H1 self; dig_H2 := dig_H2 self;
     dig_H3 := dig_H3 self; dig_H4 := dig_H4 self; dig_H5 := v;
     dig_H6 := dig_H6 self |}.

Definition set_dig_H6 (v : float) (self : BME280) : BME280 :=
  {| base := base self; dig_H1 := dig_H1 self; dig_H2 := dig_H2 self;
     dig_H3 := dig_H3 self; dig_H4 := dig_H4 self; dig_H5 := dig_H5 self;
     dig_H6 := v |}.

Definition CALIBRATION_H1 : Z := 0xa1.
Definition CALIBRATION_HX : Z := 0xe1.
Definition HUM : Z := 0xfd.

(** A method inherited from [BMP280], run on a [BME280] object. *)
Definition super {A} (m : M BMP280 A) : M BME280 A :=
  fun self =>
    let '(r, b) := m (base self) in (r, set_base b self).

Definition item2 (data : list byte) (i j : nat) (f : Z -> Z -> Z)
  : result Z :=
  match item data i with
  | Raise e => Raise e
  | Ok x =>
      match item data j with
      | Raise e => Raise e
      | Ok y => Ok (f x y)
      end
  end.

(** [BME280.calibrate]. *)
Definition calibrateH (bus : I2CBus) : M BME280 unit :=
  super (calibrate bus) ;;;
  dataH1 <- super (read_block bus CALIBRATION_H1 1) ;;
  dataHX <- super (read_block bus CALIBRATION_HX 7) ;;
  v <- lift (item dataH1 0) ;; modify (set_dig_H1 (Zf (c_ubyte v))) ;;;
  w <- lift (word_at dataHX 1 0) ;; modify (set_dig_H2 (Zf (c_short w))) ;;;
  v <- lift (item dataHX 2) ;; modify (set_dig_H3 (Zf (c_ubyte v))) ;;;
  w <- lift (item2 dataHX 3 4 (fun x y => Z.shiftl x 4 + Z.land y 0xf)) ;;
  modify (set_dig_H4 (Zf (c_short w))) ;;;
  w <- lift (item2 dataHX 5 4
               (fun x y => Z.shiftl x 4 + Z.shiftr (Z.land y 0xf0) 4)) ;;
  modify (set_dig_H5 (Zf (c_short w))) ;;;
  v <- lift (item dataHX 6) ;; modify (set_dig_H6 (Zf (c_byte v))) ;;;
  ret tt.

Definition freshH (alternativeAddress : bool) : BME280 :=
  {| base := fresh alternativeAddress;
     dig_H1 := S754_nan; dig_H2 := S754_nan; dig_H3 := S754_nan;
     dig_H4 := S754_nan; dig_H5 := S754_nan; dig_H6 := S754_nan |}.

(** [BME280(bus, alternativeAddress)]: [BMP280.__init__] runs and its call
    [self.calibrate()] dispatches to [BME280.calibrate]. *)
Definition BME280_init (bus : I2CBus) (alternativeAddress : bool)
  : result BME280 :=
  match calibrateH bus (freshH alternativeAddress) with
  | (Ok _, self) => Ok self
  | (Raise e, _) => Raise e
  end.

Definition raw_humidity (bus : I2CBus) : M BME280 Z :=
  data <- super (read_block bus HUM 2) ;;
  lift (item2 data 0 1 (fun x y => Z.shiftl x 8 + y)).

(** [BME280.humidity]; [update_temperature] defaults to [True]. *)
Definition humidity (bus : I2CBus) (update_temperature : bool)
  : M BME280 float :=
  self <- get ;;
  (if is_None (t_fine (base self)) || update_temperature
   then super (temperature bus) ;;; ret tt
   else ret tt) ;;;
  raw <- raw_humidity bus ;;
  let adc_H := Zf raw in
  t <- super read_t_fine ;;
  self <- get ;;
  let var_H := (t - Zf 76800)%F in
  let var_H :=
    ((adc_H - (dig_H4 self * Zf 64 + dig_H5 self / Zf 16384 * var_H)) *
     (dig_H2 self / Zf 65536 *
      (Zf 1 + dig_H6 self / Zf 67108864 * var_H *
              (Zf 1 + dig_H3 self / Zf 67108864 * var_H))))%F in
  let var_H := (var_H * (Zf 1 - dig_H1 self * var_H / Zf 524288))%F in
  let var_H :=
    if F64.ltb (Zf 100) var_H then Zf 100
    else if F64.ltb var_H (Zf 0) then Zf 0
    else var_H in
  ret (F64.round var_H 3).

(** ** The byte layout of the calibration block *)

(** The twelve coefficients of registers 0x88 to 0x9f as integers. *)
Record coeffs : Type := mkCoeffs {
  T1 : Z; T2 : Z; T3 : Z;
  P1 : Z; P2 : Z; P3 : Z; P4 : Z; P5 : Z; P6 : Z; P7 : Z; P8 : Z; P9 : Z
}.

Definition is_u16 (v : Z) : Prop := 0 <= v < 65536.
Definition is_s16 (v : Z) : Prop := -32768 <= v < 32768.

(** The ranges of the device: [T1] and [P1] unsigned, the others signed. *)
Definition coeffs_in_range (c : coeffs) : Prop :=
  is_u16 (T1 c) /\ is_s16 (T2 c) /\ is_s16 (T3 c) /\
  is_u16 (P1 c) /\ is_s16 (P2 c) /\ is_s16 (P3 c) /\ is_s16 (P4 c) /\
  is_s16 (P5 c) /\ is_s16 (P6 c) /\ is_s16 (P7 c) /\ is_s16 (P8 c) /\
  is_s16 (P9 c).

Definition byte_of_Z (z : Z) : byte :=
  match Byte.of_N (Z.to_N (z mod 256)) with
  | Some b => b
  | None => x00
  end.

(** A 16-bit word, two's complement when negative, low byte first. *)
Definition le16 (v : Z) : list byte :=
  [byte_of_Z v; byte_of_Z (Z.shiftr v 8)].

Definition encode (c : coeffs) : list byte :=
  le16 (T1 c) ++ le16 (T2 c) ++ le16 (T3 c) ++
  le16 (P1 c) ++ le16 (P2 c) ++ le16 (P3 c) ++ le16 (P4 c) ++
  le16 (P5 c) ++ le16 (P6 c) ++ le16 (P7 c) ++ le16 (P8 c) ++
  le16 (P9 c).

(** Little-endian words read from a block; a missing byte reads as 0. *)
Definition u16le (data : list byte) (i : nat) : Z :=
  byte_val (nth i data x00) + 256 * byte_val (nth (S i) data x00).

Definition s16le (data : list byte) (i : nat) : Z :=
  let u := u16le data i in if u <? 32768 then u else u - 65536.

(** The layout the device documents: words 0 and 3 unsigned. *)
Definition decode (data : list byte) : coeffs :=
  {| T1 := u16le data 0; T2 := s16le data 2; T3 := s16le data 4;
     P1 := u16le data 6; P2 := s16le data 8; P3 := s16le data 10;
     P4 := s16le data 12; P5 := s16le data 14; P6 := s16le data 16;
     P7 := s16le data 18; P8 := s16le data 20; P9 := s16le data 22 |}.

(** The layout with only the first word unsigned. *)
Definition decode_first_unsigned (data : list byte) : coeffs :=
  {| T1 := u16le data 0; T2 := s16le data 2; T3 := s16le data 4;
     P1 := s16le data 6; P2 := s16le data 8; P3 := s16le data 10;
     P4 := s16le data 12; P5 := s16le data 14; P6 := s16le data 16;
     P7 := s16le data 18; P8 := s16le data 20; P9 := s16le data 22 |}.

(** [self] with the twelve [dig_*] attributes holding [float] of [c]. *)
Definition with_coeffs (c : coeffs) (self : BMP280) : BMP280 :=
  {| addr := addr self; t_fine := t_fine self;
     dig_T1 := Zf (T1 c); dig_T2 := Zf (T2 c); dig_T3 := Zf (T3 c);
     dig_P1 := Zf (P1 c); dig_P2 := Zf (P2 c); dig_P3 := Zf (P3 c);
     dig_P4 := Zf (P4 c); dig_P5 := Zf (P5 c); dig_P6 := Zf (P6 c);
     dig_P7 := Zf (P7 c); dig_P8 := Zf (P8 c); dig_P9 := Zf (P9 c) |}.

(** ** The compensation formulas as functions of the raw samples *)

(** The value of [(data[0] << 12) + (data[1] << 4) + (data[2] >> 4)] when
    the block has its three bytes. *)
Definition raw20_val (data : list byte) : Z :=
  Z.shiftl (byte_val (nth 0 data x00)) 12 +
  Z.shiftl (byte_val (nth 1 data x00)) 4 +
  Z.shiftr (byte_val (nth 2 data x00)) 4.

Definition sq (x : float) : float := (x * x)%F.

(** The temperature formula in the words of the reference:
    var1 = (raw/16384 - T1/1024) * T2,
    var2 = ((raw/131072 - T1/8192)^2) * T3. *)
Definition spec_var1 (raw : Z) (self : BMP280) : float :=
  ((Zf raw / Zf 16384 - dig_T1 self / Zf 1024) * dig_T2 self)%F.

Definition spec_var2 (raw : Z) (self : BMP280) : float :=
  (sq (Zf raw / Zf 131072 - dig_T1 self / Zf 8192) * dig_T3 self)%F.

Definition fine_temperature (raw : Z) (self : BMP280) : float :=
  (spec_var1 raw self + spec_var2 raw self)%F.

Definition celsius (raw : Z) (self : BMP280) : float :=
  F64.round (fine_temperature raw self / Zf 5120)%F 2.

(** The value [pressure] compares with [0.0]: its [var1] after the
    normalisation by P1, as a function of the fine temperature [t]. *)
Definition pressure_denominator (t : float) (self : BMP280) : float :=
  let var1 := (t / Zf 2 - Zf 64000)%F in
  let var1 := ((dig_P3 self * var1 * var1 / Zf 524288 +
                dig_P2 self * var1) / Zf 524288)%F in
  ((Zf 1 + var1 / Zf 32768) * dig_P1 self)%F.

(** The pressure [pressure] rounds when the denominator is not zero. *)
Definition pressure_pascal (raw : Z) (t : float) (self : BMP280) : float :=
  let adc_P := Zf raw in
  let var1 := (t / Zf 2 - Zf 64000)%F in
  let var2 := (var1 * var1 * dig_P6 self / Zf 32768)%F in
  let var2 := (var2 + var1 * dig_P5 self * Zf 2)%F in
  let var2 := (var2 / Zf 4 + dig_P4 self * Zf 65536)%F in
  let p := (Zf 1048576 - adc_P)%F in
  let p := ((p - var2 / Zf 4096) * Zf 6250 /
            pressure_denominator t self)%F in
  let var1 := (dig_P9 self * p * p / Zf 2147483648)%F in
  let var2 := (p * dig_P8 self / Zf 32768)%F in
  (p + (var1 + var2 + dig_P7 self) / Zf 16)%F.

(** What [pressure] returns once [t_fine] holds [t]. *)
Definition pressure_result (raw : Z) (t : float) (self : BMP280) : float :=
  if F64.eqb (pressure_denominator t self) (Zf 0) then Zf 0
  else F64.round (pressure_pascal raw t self) 1.

(** [b] is [a] except, possibly, for [t_fine]. *)
Definition only_t_fine_changed (a b : BMP280) : Prop :=
  b = set_t_fine (t_fine b) a.


(** The six humidity coefficients as integers. *)
Record hcoeffs : Type := mkHcoeffs {
  H1 : Z; H2 : Z; H3 : Z; H4 : Z; H5 : Z; H6 : Z
}.

Definition s8 (b : byte) : Z :=
  if byte_val b <? 128 then byte_val b else byte_val b - 256.

(** What [BME280.calibrate] computes from the block at 0xa1 and the block
    at 0xe1: H4 and H5 are the assembled 12-bit patterns themselves. *)
Definition decodeH (dataH1 dataHX : list byte) : hcoeffs :=
  {| H1 := byte_val (nth 0 dataH1 x00);
     H2 := s16le dataHX 0;
     H3 := byte_val (nth 2 dataHX x00);
     H4 := 16 * byte_val (nth 3 dataHX x00) + byte_val (nth 4 dataHX x00) mod 16;
     H5 := 16 * byte_val (nth 5 dataHX x00) + byte_val (nth 4 dataHX x00) / 16;
     H6 := s8 (nth 6 dataHX x00) |}.

(** A 12-bit pattern read as two's complement. *)
Definition signed12 (v : Z) : Z := if v <? 2048 then v else v - 4096.

Definition with_hcoeffs (h : hcoeffs) (b : BMP280) : BME280 :=
  {| base := b;
     dig_H1 := Zf (H1 h); dig_H2 := Zf (H2 h); dig_H3 := Zf (H3 h);
     dig_H4 := Zf (H4 h); dig_H5 := Zf (H5 h); dig_H6 := Zf (H6 h) |}.

(** The value of [(data[0] << 8) + data[1]] when the block has its two
    bytes. *)
Definition raw16_val (data : list byte) : Z :=
  Z.shiftl (byte_val (nth 0 data x00)) 8 + byte_val (nth 1 data x00).

(** The humidity [humidity] computes before clamping, as a function of
    the raw sample and of the fine temperature [t]. *)
Definition humidity_percent (raw : Z) (t : float) (self : BME280) : float :=
  let adc_H := Zf raw in
  let var_H := (t - Zf 76800)%F in
  let var_H :=
    ((adc_H - (dig_H4 self * Zf 64 + dig_H5 self / Zf 16384 * var_H)) *
     (dig_H2 self / Zf 65536 *
      (Zf 1 + dig_H6 self / Zf 67108864 * var_H *
              (Zf 1 + dig_H3 self / Zf 67108864 * var_H))))%F in
  (var_H * (Zf 1 - dig_H1 self * var_H / Zf 524288))%F.

(** The [if var_H > 100.0 ... elif var_H < 0.0 ...] of [humidity]. *)
Definition clamp (var_H : float) : float :=
  if F64.ltb (Zf 100) var_H then Zf 100
  else if F64.ltb var_H (Zf 0) then Zf 0
  else var_H.

(** What [humidity] returns once [t_fine] holds [t]. *)
Definition humidity_result (raw : Z) (t : float) (self : BME280) : float :=
  F64.round (clamp (humidity_percent raw t self)) 3.

(** ** Devices used in the examples *)

(** A device that answers every block read with [data]. *)
Definition const_bus (data : list byte) : I2CBus := fun _ _ _ => Data data.

(** A device given by the content of its register blocks. *)
Definition device (cal temp press : list byte) : I2CBus :=
  fun _ cmd _ =>
    if cmd =? CALIBRATION then Data cal
    else if cmd =? TEMP then Data temp
    else if cmd =? PRESS then Data press
    else NoReply 5.

(** The calibration block of the vendor's worked example:
    T1 = 27504, T2 = 26435, T3 = -1000, P1 = 36477, P2 = -10685, P3 = 3024,
    P4 = 2855, P5 = 140, P6 = -7, P7 = 15500, P8 = -14600, P9 = 6000. *)
Definition datasheet_cal : list byte :=
  [x70; x6b; x43; x67; x18; xfc; x7d; x8e; x43; xd6; xd0; x0b;
   x27; x0b; x8c; x00; xf9; xff; x8c; x3c; xf8; xc6; x70; x17].

(** Raw temperature 519888 and raw pressure 415148. *)
Definition datasheet_bus : I2CBus :=
  device datasheet_cal [x7e; xed; x00] [x65; x5a; xc0].

(** A calibration block whose fourth word, P1, has its top bit set. *)
Definition p1_high_cal : list byte :=
  [x70; x6b; x43; x67; x18; xfc; x00; x80; x43; xd6; xd0; x0b;
   x27; x0b; x8c; x00; xf9; xff; x8c; x3c; xf8; xc6; x70; x17].

(** A BME280 given by the content of its register blocks. *)
Definition deviceH (cal h1 hx temp press hum : list byte) : I2CBus :=
  fun _ cmd _ =>
    if cmd =? CALIBRATION then Data cal
    else if cmd =? CALIBRATION_H1 then Data h1
    else if cmd =? CALIBRATION_HX then Data hx
    else if cmd =? TEMP then Data temp
    else if cmd =? PRESS then Data press
    else if cmd =? HUM then Data hum
    else NoReply 5.

(** Humidity registers whose H4 pattern is 0xfff and H5 pattern 0xff0. *)
Definition h4_top_bit_bus : I2CBus :=
  deviceH datasheet_cal [x4b] [x6e; x01; x00; xff; x0f; xff; x1e]
          [x7e; xed; x00] [x65; x5a; xc0] [x80; x00].

(** The vendor's calibration block with P1 = 0. *)
Definition p1_zero_cal : list byte :=
  [x70; x6b; x43; x67; x18; xfc; x00; x00; x43; xd6; xd0; x0b;
   x27; x0b; x8c; x00; xf9; xff; x8c; x3c; xf8; xc6; x70; x17].

Definition p1_zero_bus : I2CBus :=
  device p1_zero_cal [x7e; xed; x00] [x65; x5a; xc0].

(** A BME280 with the vendor's calibration block and typical humidity
    registers. *)
Definition humid_bus : I2CBus :=
  deviceH datasheet_cal [x4b] [x6e; x01; x00; x13; x2d; x03; x1e]
          [x7e; xed; x00] [x65; x5a; xc0] [x80; x00].

(** ** Magnitude bounds and reachable objects *)

(** [x] is a zero or a finite float whose mantissa has at most 53 bits and
    whose magnitude is below [2^k]: neither NaN nor an infinity. *)
Definition fbnd (k : Z) (x : float) : Prop :=
  match x with
  | S754_zero _ => True
  | S754_finite _ m e =>
      Zpos (digits2_pos m) <= 53 /\ Zpos (digits2_pos m) + e <= k
  | _ => False
  end.

(** The binary exponent of a finite nonzero float: [2^(c-1) <= |y| < 2^c]. *)
Definition exponent_of (y : float) : option Z :=
  match y with
  | S754_finite _ m e => Some (Zpos (digits2_pos m) + e)
  | _ => None
  end.

(** [0.0 <= r <= 100.0]; false on NaN. *)
Definition percent_ok (r : float) : bool :=
  F64.leb (Zf 0) r && F64.leb r (Zf 100).

(** The float nearest to [k / 1000], as [F64.round _ 3] produces it. *)
Definition thousandth (k : positive) : float :=
  SFdiv F64.prec F64.emax (S754_finite false k 0)
        (S754_finite false (Z.to_pos (10 ^ 3)) 0).

(** [f] holds on the [n] positives from [k] on. *)
Fixpoint all_upto (f : positive -> bool) (n : nat) (k : positive) : bool :=
  match n with
  | O => true
  | S n' => f k && all_upto f n' (Pos.succ k)
  end.

(** The temperature coefficients are floats of 16-bit integers and
    [t_fine], when set, is within the range [temperature] can produce. *)
Definition bounded_base (b : BMP280) : Prop :=
  fbnd 17 (dig_T1 b) /\ fbnd 17 (dig_T2 b) /\ fbnd 17 (dig_T3 b) /\
  forall t, t_fine b = Some t -> fbnd 37 t.

Definition bounded_state (self : BME280) : Prop :=
  bounded_base (base self) /\
  fbnd 17 (dig_H1 self) /\ fbnd 17 (dig_H2 self) /\ fbnd 17 (dig_H3 self) /\
  fbnd 17 (dig_H4 self) /\ fbnd 17 (dig_H5 self) /\ fbnd 17 (dig_H6 self).

(** The BME280 objects a program can hold: constructed by [BME280(...)],
    then used through [calibrate], [temperature], [pressure] and
    [humidity], on any content of the bus and whatever each call returns
    or raises. *)
Inductive reachable : BME280 -> Prop :=
| reach_init (bus : I2CBus) (alt : bool) (self : BME280) :
    BME280_init bus alt = Ok self -> reachable self
| reach_calibrate (bus : I2CBus) (self : BME280) :
    reachable self -> reachable (snd (calibrateH bus self))
| reach_temperature (bus : I2CBus) (self : BME280) :
    reachable self -> reachable (snd (super (temperature bus) self))
| reach_pressure (bus : I2CBus) (upd : bool) (self : BME280) :
    reachable self -> reachable (snd (super (pressure bus upd) self))
| reach_humidity (bus : I2CBus) (upd : bool) (self : BME280) :
    reachable self -> reachable (snd (humidity bus upd self)).

(** [m] keeps [P], whether it returns or raises. *)
Definition preserves {S A} (P : S -> Prop) (m : M S A) : Prop :=
  forall s, P s -> P (snd (m s)).

Definition all_H_zero (self : BME280) : Prop :=
  dig_H1 self = Zf 0 /\ dig_H2 self = Zf 0 /\ dig_H3 self = Zf 0 /\
  dig_H4 self = Zf 0 /\ dig_H5 self = Zf 0 /\ dig_H6 self = Zf 0.

(** A BME280 whose humidity coefficients and raw humidity are all zero. *)
Definition zero_h_bus : I2CBus :=
  deviceH datasheet_cal [x00] [x00; x00; x00; x00; x00; x00; x00]
          [x7e; xed; x00] [x65; x5a; xc0] [x00; x00].

(** ** i2c.py: byte order *)

(** [I2CBus.reverseByteOrder]: the loop [for i in range(2)] on the pair
    of [val] and [data]. *)
Definition reverseByteOrder (data : Z) : Z :=
  fst (fold_left
         (fun '(val, data) (_ : nat) =>
            (Z.lor (Z.shiftl val 8) (Z.land data 0xff), Z.shiftr data 8))
         (seq 0 2) (0, data)).

(** ** Register access and configuration *)

(** What the configuration methods can raise: a builtin exception or
    [BMP280Error(msg)]; [BME280Error] is the same class. *)
Inductive raised : Type :=
| Builtin (e : exn)
| BMP280Error (msg : string).

Inductive outcome (A : Type) : Type :=
| Done (a : A)
| Fail (r : raised).
Arguments Done {A} a.
Arguments Fail {A} r.

(** A byte written to a device: address, register, value. *)
Definition write : Type := (Z * Z * Z)%type.

(** The device during one method call: what a byte read of a register
    answers, and whether a byte write is acknowledged ([Some errno] is the
    [OSError] of a device that does not). *)
Inductive byte_reply : Type :=
| Value (b : byte)
| NoValue (errno : Z).

Record SMBus : Type := mkSMBus {
  byte_at : Z -> Z -> byte_reply;
  refuses : Z -> Z -> Z -> option Z
}.

(** A method that talks to the registers: it runs on the list of the
    writes done so far, oldest first. *)
Definition R (A : Type) : Type := list write -> outcome A * list write.

Definition retR {A} (a : A) : R A := fun w => (Done a, w).

Definition raiseR {A} (r : raised) : R A := fun w => (Fail r, w).

Definition bindR {A B} (m : R A) (k : A -> R B) : R B :=
  fun w =>
    match m w with
    | (Done a, w') => k a w'
    | (Fail r, w') => (Fail r, w')
    end.

Notation "x <~ m ;; k" := (bindR m (fun x => k))
  (at level 61, m at next level, right associativity).
Notation "m ;;~ k" := (bindR m (fun _ => k))
  (at level 61, right associativity).

(** [I2CBus.read_byte_data(addr, cmd)] of [i2c.py]. *)
Definition read_byte_data (dev : SMBus) (addr cmd : Z) : R Z :=
  fun w =>
    match byte_at dev addr cmd with
    | Value b => (Done (byte_val b), w)
    | NoValue errno => (Fail (Builtin (I2CError errno)), w)
    end.

(** [I2CBus.write_byte_data(addr, cmd, val)] of [i2c.py]. *)
Definition write_byte_data (dev : SMBus) (addr cmd val : Z) : R unit :=
  fun w =>
    match refuses dev addr cmd val with
    | None => (Done tt, w ++ [(addr, cmd, val)])
    | Some errno => (Fail (Builtin (I2CError errno)), w)
    end.

Definition ID : Z := 0xd0.
Definition RESET : Z := 0xe0.
Definition STATUS : Z := 0xf3.
Definition CTRL_MEAS : Z := 0xf4.
Definition CONFIG : Z := 0xf5.
Definition CTRL_HUM : Z := 0xf2.

Definition SLEEP_MODE : Z := 0x00.
Definition FORCED_MODE : Z := 0x01.
Definition NORMAL_MODE : Z := 0x03.
Definition SOFT_RESET : Z := 0xb6.

Definition STANDBY_1_MS : Z := 0x00.
Definition STANDBY_63_MS : Z := 0x01.
Definition STANDBY_125_MS : Z := 0x02.
Definition STANDBY_250_MS : Z := 0x03.
Definition STANDBY_500_MS : Z := 0x04.
Definition STANDBY_1000_MS : Z := 0x05.
Definition STANDBY_2000_MS : Z := 0x06.
Definition STANDBY_4000_MS : Z := 0x07.

Definition OVERSAMPLING_SKIPPED : Z := 0x00.
Definition OVERSAMPLING_1X : Z := 0x01.
Definition OVERSAMPLING_2X : Z := 0x02.
Definition OVERSAMPLING_4X : Z := 0x03.
Definition OVERSAMPLING_8X : Z := 0x04.
Definition OVERSAMPLING_16X : Z := 0x05.

Definition FILTER_OFF : Z := 0x00.
Definition FILTER_2 : Z := 0x01.
Definition FILTER_4 : Z := 0x02.
Definition FILTER_8 : Z := 0x03.
Definition FILTER_16 : Z := 0x04.

(** The [mode] argument of [set_acquisition_options]: [None], an int or
    a string. *)
Inductive mode_arg : Type :=
| ModeNone
| ModeInt (n : Z)
| ModeStr (s : string).

(** [mode == n] and [mode == s] in Python. *)
Definition mode_is_int (mode : mode_arg) (n : Z) : bool :=
  match mode with ModeInt k => k =? n | _ => false end.

Definition mode_is_str (mode : mode_arg) (s : string) : bool :=
  match mode with ModeStr t => String.eqb t s | _ => false end.

Definition mode_is_None (mode : mode_arg) : bool :=
  match mode with ModeNone => true | _ => false end.

(** *** Calls *)

(** A positional argument of a call: an int or a bool.  In Python a bool
    is an int ([True == 1], [False == 0]) and an int is true when it is not
    zero. *)
Inductive value : Type :=
| VInt (n : Z)
| VBool (b : bool).

Definition int_of (v : value) : Z :=
  match v with
  | VInt n => n
  | VBool b => if b then 1 else 0
  end.

Definition truth (v : value) : bool :=
  match v with
  | VInt n => negb (n =? 0)
  | VBool b => b
  end.

(** What a call expression [f(...)] applies here: an int, or a bound
    method with three positional parameters and no default values. *)
Inductive callee (A : Type) : Type :=
| IntObject (n : Z)
| Method3 (f : value -> value -> value -> R A).
Arguments IntObject {A} n.
Arguments Method3 {A} f.

(** [f(args)]: an int is not callable; a method has its positional
    arguments bound to its parameters before its body runs, and a number
    of arguments other than the number of parameters raises TypeError. *)
Definition call {A} (f : callee A) (args : list value) : R A :=
  match f with
  | IntObject _ => raiseR (Builtin TypeError)
  | Method3 g =>
      match args with
      | [a; b; c] => g a b c
      | _ => raiseR (Builtin TypeError)
      end
  end.

(** *** Methods of [BMP280] *)

Module Bmp.

(** [BMP280.status]. *)
Definition status (dev : SMBus) (self : BMP280) : R (bool * bool) :=
  data <~ read_byte_data dev (addr self) STATUS ;;
  let measuring := negb (Z.shiftr data 3 mod 2 =? 0) in
  let im_update := negb (data mod 2 =? 0) in
  retR (measuring, im_update).

(** The properties [BMP280.id], [BMP280.ctrl_meas] and [BMP280.config],
    and [BMP280.reset]. *)
Definition id (dev : SMBus) (self : BMP280) : R Z :=
  read_byte_data dev (addr self) ID.

Definition ctrl_meas (dev : SMBus) (self : BMP280) : R Z :=
  read_byte_data dev (addr self) CTRL_MEAS.

Definition config (dev : SMBus) (self : BMP280) : R Z :=
  read_byte_data dev (addr self) CONFIG.

Definition reset (dev : SMBus) (self : BMP280) : R unit :=
  write_byte_data dev (addr self) RESET SOFT_RESET.

(** [BMP280._ctrl_meas_set]. *)
Definition _ctrl_meas_set (dev : SMBus) (self : BMP280)
  (osrs_t osrs_p mode : Z) : R unit :=
  let data := Z.shiftl osrs_t 5 + Z.shiftl osrs_p 2 + mode in
  write_byte_data dev (addr self) CTRL_MEAS data.

(** [BMP280.set_acquisition_options], for int oversampling arguments. *)
Definition set_acquisition_options (dev : SMBus) (self : BMP280)
  (temperature_oversampling pressure_oversampling : Z) (mode : mode_arg)
  : R unit :=
  let to := temperature_oversampling in
  let po := pressure_oversampling in
  osrs_t <~ (if to =? 0 then retR OVERSAMPLING_SKIPPED
             else if to =? 1 then retR OVERSAMPLING_1X
             else if to =? 2 then retR OVERSAMPLING_2X
             else if to =? 4 then retR OVERSAMPLING_4X
             else if to =? 8 then retR OVERSAMPLING_8X
             else if to =? 16 then retR OVERSAMPLING_16X
             else raiseR (BMP280Error "Unsupported temperature oversampling")) ;;
  osrs_p <~ (if po =? 0 then retR OVERSAMPLING_SKIPPED
             else if po =? 1 then retR OVERSAMPLING_1X
             else if po =? 2 then retR OVERSAMPLING_2X
             else if po =? 4 then retR OVERSAMPLING_4X
             else if po =? 8 then retR OVERSAMPLING_8X
             else if po =? 16 then retR OVERSAMPLING_16X
             else raiseR (BMP280Error "Unsupported pressure oversampling")) ;;
  mode <~ (if mode_is_None mode || mode_is_int mode 0
              || mode_is_str mode "sleep"
           then retR SLEEP_MODE
           else if mode_is_int mode 1 || mode_is_str mode "forced"
           then retR FORCED_MODE
           else if mode_is_int mode 2 || mode_is_int mode 3
                   || mode_is_str mode "normal"
           then retR NORMAL_MODE
           else raiseR (BMP280Error "Unknown device mode")) ;;
  _ctrl_meas_set dev self osrs_t osrs_p mode.

(** [BMP280._config_set]. *)
Definition _config_set (dev : SMBus) (self : BMP280)
  (t_sb _filter spi3w_en : Z) : R unit :=
  let data := Z.shiftl t_sb 5 + Z.shiftl _filter 2 + spi3w_en in
  write_byte_data dev (addr self) CONFIG data.

(** [BMP280._set_config_internal]; [spi_3wire] is the truth value of the
    argument. *)
Definition _set_config_internal (dev : SMBus) (self : BMP280)
  (t_sb filter_constant : Z) (spi_3wire : bool) : R unit :=
  let fc := filter_constant in
  _filter <~ (if (fc =? 0) || (fc =? 1) then retR FILTER_OFF
              else if fc =? 2 then retR FILTER_2
              else if fc =? 4 then retR FILTER_4
              else if fc =? 8 then retR FILTER_8
              else if fc =? 16 then retR FILTER_16
              else raiseR (BMP280Error "Unsupported filter constant")) ;;
  let spi3w_en := if spi_3wire then 0x01 else 0x00 in
  _config_set dev self t_sb _filter spi3w_en.

(** The bound method [self._set_config_internal], with the parameters
    [t_sb], [filter_constant] and [spi_3wire]. *)
Definition _set_config_internal_method (dev : SMBus) (self : BMP280)
  : callee unit :=
  Method3 (fun t_sb filter_constant spi_3wire =>
             _set_config_internal dev self
               (int_of t_sb) (int_of filter_constant) (truth spi_3wire)).

(** [BMP280.set_config]: the standby code is selected, then
    [self._set_config_internal(t_sb, inactive_time, filter_constant,
    spi_3wire)] is called. *)
Definition set_config (dev : SMBus) (self : BMP280)
  (inactive_time filter_constant : Z) (spi_3wire : bool) : R unit :=
  let it := inactive_time in
  t_sb <~ (if (it =? 0) || (it =? 1) then retR STANDBY_1_MS
           else if it =? 63 then retR STANDBY_63_MS
           else if it =? 125 then retR STANDBY_125_MS
           else if it =? 250 then retR STANDBY_250_MS
           else if it =? 500 then retR STANDBY_500_MS
           else if it =? 1000 then retR STANDBY_1000_MS
           else if it =? 2000 then retR STANDBY_2000_MS
           else if it =? 4000 then retR STANDBY_4000_MS
           else raiseR (BMP280Error "Unsupported inactive time")) ;;
  call (_set_config_internal_method dev self)
       [VInt t_sb; VInt inactive_time; VInt filter_constant; VBool spi_3wire].

End Bmp.

(** *** Methods of [BME280] *)

Module Bme.

(** The property [BME280.ctrl_hum] and [BME280._ctrl_hum_set]. *)
Definition ctrl_hum (dev : SMBus) (self : BME280) : R Z :=
  read_byte_data dev (addr (base self)) CTRL_HUM.

Definition _ctrl_hum_set (dev : SMBus) (self : BME280) (osrs_h : Z) : R unit :=
  let data := Z.land osrs_h 0x7 in
  write_byte_data dev (addr (base self)) CTRL_HUM data.

(** [BME280.set_acquisition_options]; [humidity_oversampling] is [None]
    or an int. *)
Definition set_acquisition_options (dev : SMBus) (self : BME280)
  (temperature_oversampling pressure_oversampling : Z) (mode : mode_arg)
  (humidity_oversampling : option Z) : R unit :=
  (match humidity_oversampling with
   | Some ho =>
       osrs_h <~ (if ho =? 0 then retR OVERSAMPLING_SKIPPED
                  else if ho =? 1 then retR OVERSAMPLING_1X
                  else if ho =? 2 then retR OVERSAMPLING_2X
                  else if ho =? 4 then retR OVERSAMPLING_4X
                  else if ho =? 8 then retR OVERSAMPLING_8X
                  else if ho =? 16 then retR OVERSAMPLING_16X
                  else raiseR
                         (BMP280Error "Unsupported humidity oversampling")) ;;
       _ctrl_hum_set dev self osrs_h
   | None => retR tt
   end) ;;~
  Bmp.set_acquisition_options dev (base self)
    temperature_oversampling pressure_oversampling mode.

(** [BME280.set_config]. *)
Definition set_config (dev : SMBus) (self : BME280)
  (inactive_time filter_constant : Z) (spi_3wire : bool) : R unit :=
  let it := inactive_time in
  t_sb <~ (if (it =? 0) || (it =? 1) then retR STANDBY_1_MS
           else if it =? 63 then retR STANDBY_63_MS
           else if it =? 125 then retR STANDBY_125_MS
           else if it =? 250 then retR STANDBY_250_MS
           else if it =? 500 then retR STANDBY_500_MS
           else if it =? 1000 then retR STANDBY_1000_MS
           else if it =? 2000
           then raiseR (BMP280Error
                          "Inactive time 2000ms not supported on BME280")
           else if it =? 4000
           then raiseR (BMP280Error
                          "Inactive time 4000ms not supported on BME280")
           else if it =? 10 then retR STANDBY_2000_MS
           else if it =? 20 then retR STANDBY_4000_MS
           else raiseR (BMP280Error "Unsupported inactive time")) ;;
  call (Bmp._set_config_internal_method dev (base self))
       [VInt t_sb; VInt inactive_time; VInt filter_constant; VBool spi_3wire].

(** [BME280.id]: [return super().id()].  [super().id] is the inherited
    property, so it evaluates to the int read; [()] then calls that int. *)
Definition id (dev : SMBus) (self : BME280) : R Z :=
  n <~ Bmp.id dev (base self) ;; call (IntObject n) [].

End Bme.

(** ** Codes and ranges of the configuration registers *)

(** The oversampling factors the chip supports. *)
Definition supported (v : Z) : Prop :=
  v = 0 \/ v = 1 \/ v = 2 \/ v = 4 \/ v = 8 \/ v = 16.

(** The 3-bit register code of a supported oversampling factor. *)
Definition osrs (v : Z) : Z := if v =? 0 then 0 else Z.log2 v + 1.

(** The 2-bit register code of an accepted [mode] argument. *)
Definition mode_code (mode : mode_arg) : option Z :=
  match mode with
  | ModeNone => Some 0
  | ModeInt n =>
      if n =? 0 then Some 0 else if n =? 1 then Some 1
      else if (n =? 2) || (n =? 3) then Some 3 else None
  | ModeStr s =>
      if String.eqb s "sleep" then Some 0
      else if String.eqb s "forced" then Some 1
      else if String.eqb s "normal" then Some 3 else None
  end.

(** The 3-bit register code of a supported filter constant. *)
Definition filter_code (fc : Z) : Z := if fc <=? 1 then 0 else Z.log2 fc.

(** The inactive times [BMP280.set_config] and [BME280.set_config] find
    in their tables. *)
Definition standby_supported (it : Z) : Prop :=
  In it [0; 1; 63; 125; 250; 500; 1000; 2000; 4000].

Definition standby_supportedH (it : Z) : Prop :=
  In it [0; 1; 63; 125; 250; 500; 1000; 10; 20].

(** A device that answers every byte read with 0x0c and acknowledges
    every write. *)
Definition willing_dev : SMBus :=
  {| byte_at := fun _ _ => Value x0c; refuses := fun _ _ _ => None |}.

(** ** Further notions on the compensation pipeline *)

(** Neither NaN nor an infinity. *)
Definition is_finite (x : float) : bool :=
  match x with
  | S754_zero _ | S754_finite _ _ _ => true
  | _ => false
  end.

(** The ranges of the humidity coefficients as [BME280.calibrate] stores
    them. *)
Definition hcoeffs_in_range (h : hcoeffs) : Prop :=
  0 <= H1 h < 256 /\ is_s16 (H2 h) /\ 0 <= H3 h < 256 /\
  0 <= H4 h < 4096 /\ 0 <= H5 h < 4096 /\ -128 <= H6 h < 128.

(** The seven bytes at 0xe1: H2 low byte first, H3, the high eight bits
    of H4, one byte shared by the low nibbles of H4 and H5, the high eight
    bits of H5, H6. *)
Definition encodeHX (h : hcoeffs) : list byte :=
  le16 (H2 h) ++
  [byte_of_Z (H3 h); byte_of_Z (H4 h / 16);
   byte_of_Z (H4 h mod 16 + 16 * (H5 h mod 16));
   byte_of_Z (H5 h / 16); byte_of_Z (H6 h)].

(** [addr] is [a] and [t_fine] is [t]. *)
Definition keeps (a : Z) (t : option float) (s : BMP280) : Prop :=
  addr s = a /\ t_fine s = t.

(** The content of a three-byte sample register block, as
    [raw_temperature] and [raw_pressure] return it in [out]. *)
Definition sample20 (out : result Z * BMP280) (self : BMP280)
  (data : list byte) : Prop :=
  ((length data < 3)%nat -> out = (Raise IndexError, self)) /\
  ((3 <= length data)%nat ->
   exists raw : Z,
     out = (Ok raw, self) /\
     0 <= raw < 2 ^ 20 /\
     raw / 4096 = byte_val (nth 0 data x00) /\
     (raw / 16) mod 256 = byte_val (nth 1 data x00) /\
     raw mod 16 = byte_val (nth 2 data x00) / 16).

(** The vendor's device with the pressure registers unreadable. *)
Definition deaf_press_bus : I2CBus :=
  fun _ cmd _ =>
    if cmd =? CALIBRATION then Data datasheet_cal
    else if cmd =? TEMP then Data [x7e; xed; x00]
    else NoReply 5.

(** ** Further invariants and example devices *)

(** The two coefficients of the pressure denominator are floats of 16-bit
    integers. *)
Definition bounded_P (b : BMP280) : Prop :=
  fbnd 17 (dig_P2 b) /\ fbnd 17 (dig_P3 b).

(** The exceptions that come from the bus: the [I2CError] of a refused
    transfer and the [IndexError] of indexing a block that is too short. *)
Definition bus_error (e : exn) : Prop :=
  e = IndexError \/ exists errno, e = I2CError errno.

(** A BME280 whose calibration block has P1 = 0. *)
Definition p1_zero_busH : I2CBus :=
  deviceH p1_zero_cal [x4b] [x6e; x01; x00; x13; x2d; x03; x1e]
          [x7e; xed; x00] [x65; x5a; xc0] [x80; x00].

(** * Properties *)

(** ** Bytes and words *)

Lemma byte_val_range (b : byte) : 0 <= byte_val b < 256.
Proof.
  unfold byte_val. pose proof (Byte.to_N_bounded b). lia.
Qed.

Lemma byte_val_of_Z (z : Z) : byte_val (byte_of_Z z) = z mod 256.
Proof.
  unfold byte_val, byte_of_Z.
  assert (Hr : 0 <= z mod 256 < 256) by (apply Z.mod_pos_bound; lia).
  destruct (Byte.of_N (Z.to_N (z mod 256))) as [b|] eqn:E.
  - apply Byte.to_of_N in E. rewrite E. lia.
  - apply Byte.of_N_None_iff in E. lia.
Qed.

Lemma byte_of_Z_val (b : byte) : byte_of_Z (byte_val b) = b.
Proof.
  unfold byte_of_Z, byte_val.
  pose proof (Byte.to_N_bounded b) as Hb.
  rewrite Z.mod_small by lia.
  rewrite N2Z.id. now rewrite Byte.of_to_N.
Qed.

Lemma c_ushort_word (h l : Z) :
  0 <= h < 256 -> 0 <= l < 256 ->
  c_ushort (Z.shiftl h 8 + l) = l + 256 * h.
Proof.
  intros Hh Hl. unfold c_ushort. rewrite Z.shiftl_mul_pow2 by lia.
  change (2 ^ 8) with 256. rewrite Z.mod_small; lia.
Qed.

Lemma c_short_word (h l : Z) :
  0 <= h < 256 -> 0 <= l < 256 ->
  c_short (Z.shiftl h 8 + l) =
  if l + 256 * h <? 32768 then l + 256 * h else l + 256 * h - 65536.
Proof.
  intros Hh Hl. unfold c_short. rewrite Z.shiftl_mul_pow2 by lia.
  change (2 ^ 8) with 256.
  destruct (l + 256 * h <? 32768) eqn:E.
  - apply Z.ltb_lt in E. rewrite Z.mod_small; lia.
  - apply Z.ltb_ge in E.
    replace (h * 256 + l + 32768) with (h * 256 + l - 32768 + 1 * 65536) by lia.
    rewrite Z.mod_add by lia. rewrite Z.mod_small; lia.
Qed.

Lemma item_nth (data : list byte) (i : nat) :
  (i < length data)%nat -> item data i = Ok (byte_val (nth i data x00)).
Proof.
  intros Hi. unfold item.
  destruct (nth_error data i) as [b|] eqn:E.
  - now rewrite (nth_error_nth _ _ x00 E).
  - apply nth_error_None in E. lia.
Qed.

Lemma item_short (data : list byte) (i : nat) :
  (length data <= i)%nat -> item data i = Raise IndexError.
Proof.
  intros Hi. unfold item.
  apply nth_error_None in Hi. now rewrite Hi.
Qed.

Lemma word_at_nth (data : list byte) (hi lo : nat) :
  (hi < length data)%nat -> (lo < length data)%nat ->
  word_at data hi lo =
  Ok (Z.shiftl (byte_val (nth hi data x00)) 8 + byte_val (nth lo data x00)).
Proof.
  intros Hh Hl. unfold word_at. now rewrite !item_nth by assumption.
Qed.

Lemma c_ushort_at (data : list byte) (i : nat) :
  c_ushort (Z.shiftl (byte_val (nth (S i) data x00)) 8 +
            byte_val (nth i data x00)) = u16le data i.
Proof.
  unfold u16le. apply c_ushort_word; apply byte_val_range.
Qed.

Lemma c_short_at (data : list byte) (i : nat) :
  c_short (Z.shiftl (byte_val (nth (S i) data x00)) 8 +
           byte_val (nth i data x00)) = s16le data i.
Proof.
  unfold s16le, u16le. apply c_short_word; apply byte_val_range.
Qed.

(** ** Calibration *)

(** Unfolds the monadic plumbing of a method body. *)
Ltac run_method :=
  unfold bind, get, lift, modify, ret, raise, read_i2c_block_data;
  cbv beta iota.

Lemma calibrate_decode_prefix
  (bus : I2CBus) (self : BMP280) (data : list byte) :
  (24 <= length data)%nat ->
  bus (addr self) CALIBRATION 24 = Data data ->
  calibrate bus self = (Ok tt, with_coeffs (decode data) self).
Proof.
  intros Hlen Hbus.
  unfold calibrate, read_block. run_method.
  rewrite Hbus. cbv beta iota.
  rewrite !word_at_nth by lia.
  cbv beta iota.
  rewrite !c_ushort_at, !c_short_at.
  reflexivity.
Qed.

Lemma calibrate_decode (bus : I2CBus) (self : BMP280) (data : list byte) :
  length data = 24%nat ->
  bus (addr self) CALIBRATION 24 = Data data ->
  calibrate bus self = (Ok tt, with_coeffs (decode data) self).
Proof.
  intros Hlen. apply calibrate_decode_prefix. lia.
Qed.

Lemma calibrate_short (bus : I2CBus) (self : BMP280) (data : list byte) :
  (length data < 24)%nat ->
  bus (addr self) CALIBRATION 24 = Data data ->
  fst (calibrate bus self) = Raise IndexError.
Proof.
  intros Hlen Hbus.
  unfold calibrate, read_block. run_method.
  rewrite Hbus. cbv beta iota.
  do 24 (destruct data as [|? data];
         [cbn [word_at item nth_error fst]; reflexivity|]).
  cbn [length] in Hlen. lia.
Qed.

Lemma calibrate_bus_error (bus : I2CBus) (self : BMP280) (errno : Z) :
  bus (addr self) CALIBRATION 24 = NoReply errno ->
  calibrate bus self = (Raise (I2CError errno), self).
Proof.
  intros Hbus. unfold calibrate, read_block. run_method. now rewrite Hbus.
Qed.

Lemma le16_value (v : Z) :
  byte_val (byte_of_Z v) + 256 * byte_val (byte_of_Z (Z.shiftr v 8)) =
  v mod 65536.
Proof.
  rewrite !byte_val_of_Z, Z.shiftr_div_pow2 by lia.
  change (2 ^ 8) with 256. change 65536 with (256 * 256).
  now rewrite Z.rem_mul_r by lia.
Qed.

Lemma le16_u16 (v : Z) (tl : list byte) :
  is_u16 v -> u16le (le16 v ++ tl) 0 = v.
Proof.
  intros Hv. unfold u16le, le16. cbn [app nth].
  rewrite le16_value. apply Z.mod_small. exact Hv.
Qed.

Lemma le16_s16 (v : Z) (tl : list byte) :
  is_s16 v -> s16le (le16 v ++ tl) 0 = v.
Proof.
  intros Hv. unfold s16le, u16le, le16. cbn [app nth].
  rewrite le16_value. unfold is_s16 in Hv.
  destruct (Z_lt_le_dec v 0) as [Hneg|Hpos].
  - replace (v mod 65536) with (v + 65536).
    + destruct (v + 65536 <? 32768) eqn:E; [apply Z.ltb_lt in E|]; lia.
    + symmetry. rewrite <- (Z.mod_add v 1 65536) by lia.
      apply Z.mod_small. lia.
  - rewrite Z.mod_small by lia.
    destruct (v <? 32768) eqn:E; [|apply Z.ltb_ge in E]; lia.
Qed.

Lemma u16le_skip (a b : byte) (tl : list byte) (i : nat) :
  u16le (a :: b :: tl) (S (S i)) = u16le tl i.
Proof. reflexivity. Qed.

Lemma s16le_skip (a b : byte) (tl : list byte) (i : nat) :
  s16le (a :: b :: tl) (S (S i)) = s16le tl i.
Proof. reflexivity. Qed.

Lemma encode_length (c : coeffs) : length (encode c) = 24%nat.
Proof. reflexivity. Qed.

Lemma decode_encode (c : coeffs) : coeffs_in_range c -> decode (encode c) = c.
Proof.
  intros (H1 & H2 & H3 & H4 & H5 & H6 & H7 & H8 & H9 & H10 & H11 & H12).
  destruct c as [t1 t2 t3 p1 p2 p3 p4 p5 p6 p7 p8 p9]. cbn [T1 T2 T3 P1 P2 P3 P4 P5 P6 P7 P8 P9] in *.
  unfold decode, encode. cbn [T1 T2 T3 P1 P2 P3 P4 P5 P6 P7 P8 P9].
  f_equal;
    repeat (change (le16 ?v ++ ?tl) with
              (byte_of_Z v :: byte_of_Z (Z.shiftr v 8) :: tl);
            rewrite ?u16le_skip, ?s16le_skip);
    change (byte_of_Z ?v :: byte_of_Z (Z.shiftr ?v 8) :: ?tl) with (le16 v ++ tl);
    first [ now apply le16_u16 | now apply le16_s16 | idtac ].
Qed.

(** C4, as amended: for every 24-byte calibration block, [calibrate]
    decodes twelve little-endian 16-bit words, the first (T1) and the fourth
    (P1) as unsigned, the other ten (T2, T3, P2..P9) as signed two's
    complement, and leaves [addr] and [t_fine] alone; every coefficient set
    within those ranges, encoded to bytes and loaded, comes back as the
    original values. *)
Theorem calibrate_roundtrip
  (bus : I2CBus) (self : BMP280) (data : list byte) (c : coeffs) :
  length data = 24%nat ->
  bus (addr self) CALIBRATION 24 = Data data ->
  coeffs_in_range c ->
  calibrate bus self = (Ok tt, with_coeffs (decode data) self) /\
  length (encode c) = 24%nat /\ decode (encode c) = c /\
  (data = encode c -> calibrate bus self = (Ok tt, with_coeffs c self)).
Proof.
  intros Hlen Hbus Hc.
  pose proof (calibrate_decode bus self data Hlen Hbus) as Hdec.
  split; [exact Hdec|]. split; [apply encode_length|].
  split; [now apply decode_encode|].
  intros ->. rewrite Hdec. now rewrite decode_encode.
Qed.

Lemma calibrate_roundtrip_witness :
  calibrate datasheet_bus (fresh false) =
  (Ok tt,
   with_coeffs (mkCoeffs 27504 26435 (-1000) 36477 (-10685) 3024 2855 140
                         (-7) 15500 (-14600) 6000) (fresh false)).
Proof.
  refine (proj2 (proj2 (proj2 (calibrate_roundtrip datasheet_bus (fresh false)
            datasheet_cal
            (mkCoeffs 27504 26435 (-1000) 36477 (-10685) 3024 2855 140
                      (-7) 15500 (-14600) 6000) _ _ _))) _).
  - reflexivity.
  - reflexivity.
  - unfold coeffs_in_range, is_u16, is_s16; cbn; lia.
  - reflexivity.
Defined.

(** C4 as stated fails: a block whose fourth word has the top bit set
    loads P1 = 32768, not the signed reading -32768. *)
Lemma calibrate_P1_not_signed :
  calibrate (const_bus p1_high_cal) (fresh false) <>
  (Ok tt, with_coeffs (decode_first_unsigned p1_high_cal) (fresh false)).
Proof.
  vm_compute. intros H. discriminate H.
Qed.

(** ** Humidity calibration *)

Lemma c_ubyte_val (b : byte) : c_ubyte (byte_val b) = byte_val b.
Proof. unfold c_ubyte. apply Z.mod_small, byte_val_range. Qed.

Lemma c_byte_val (b : byte) : c_byte (byte_val b) = s8 b.
Proof.
  unfold c_byte, s8. pose proof (byte_val_range b) as Hb.
  destruct (byte_val b <? 128) eqn:E.
  - apply Z.ltb_lt in E. rewrite Z.mod_small; lia.
  - apply Z.ltb_ge in E.
    replace (byte_val b + 128) with (byte_val b - 128 + 1 * 256) by lia.
    rewrite Z.mod_add by lia. rewrite Z.mod_small; lia.
Qed.

Lemma low_nibble (b : byte) : Z.land (byte_val b) 0xf = byte_val b mod 16.
Proof. change 0xf with (Z.ones 4). now rewrite Z.land_ones by lia. Qed.

Lemma high_nibble (b : byte) :
  Z.shiftr (Z.land (byte_val b) 0xf0) 4 = byte_val b / 16.
Proof. destruct b; reflexivity. Qed.

Lemma c_short_small (v : Z) : 0 <= v < 32768 -> c_short v = v.
Proof. intros Hv. unfold c_short. rewrite Z.mod_small; lia. Qed.

Lemma c_short_H4 (b3 b4 : byte) :
  c_short (Z.shiftl (byte_val b3) 4 + Z.land (byte_val b4) 0xf) =
  16 * byte_val b3 + byte_val b4 mod 16.
Proof.
  rewrite low_nibble, Z.shiftl_mul_pow2 by lia. change (2 ^ 4) with 16.
  pose proof (byte_val_range b3). pose proof (Z.mod_pos_bound (byte_val b4) 16).
  rewrite c_short_small; lia.
Qed.

Lemma c_short_H5 (b5 b4 : byte) :
  c_short (Z.shiftl (byte_val b5) 4 + Z.shiftr (Z.land (byte_val b4) 0xf0) 4) =
  16 * byte_val b5 + byte_val b4 / 16.
Proof.
  rewrite high_nibble, Z.shiftl_mul_pow2 by lia. change (2 ^ 4) with 16.
  pose proof (byte_val_range b5). pose proof (byte_val_range b4).
  assert (0 <= byte_val b4 / 16 < 16).
  { split; [apply Z.div_pos; lia | apply Z.div_lt_upper_bound; lia]. }
  rewrite c_short_small; lia.
Qed.

Lemma item2_nth (data : list byte) (i j : nat) (f : Z -> Z -> Z) :
  (i < length data)%nat -> (j < length data)%nat ->
  item2 data i j f =
  Ok (f (byte_val (nth i data x00)) (byte_val (nth j data x00))).
Proof.
  intros Hi Hj. unfold item2. now rewrite !item_nth by assumption.
Qed.

Lemma super_run {A} (m : M BMP280 A) (self : BME280) :
  super m self = (fst (m (base self)), set_base (snd (m (base self))) self).
Proof. unfold super. now destruct (m (base self)). Qed.

Lemma set_base_base (self : BME280) : set_base (base self) self = self.
Proof. now destruct self. Qed.

Lemma calibrateH_decode
  (bus : I2CBus) (self : BME280) (data dataH1 dataHX : list byte) :
  (24 <= length data)%nat -> (1 <= length dataH1)%nat ->
  (7 <= length dataHX)%nat ->
  bus (addr (base self)) CALIBRATION 24 = Data data ->
  bus (addr (base self)) CALIBRATION_H1 1 = Data dataH1 ->
  bus (addr (base self)) CALIBRATION_HX 7 = Data dataHX ->
  calibrateH bus self =
  (Ok tt, with_hcoeffs (decodeH dataH1 dataHX)
            (with_coeffs (decode data) (base self))).
Proof.
  intros Hlen Hlen1 HlenX Hbus Hbus1 HbusX.
  unfold calibrateH. unfold bind at 1.
  rewrite super_run, (calibrate_decode_prefix bus _ data Hlen Hbus).
  cbn [fst snd].
  unfold read_block. run_method. rewrite !super_run. cbn [fst snd base set_base addr with_coeffs].
  rewrite Hbus1. cbv beta iota. cbn [fst snd base set_base addr with_coeffs].
  rewrite HbusX. cbv beta iota.
  rewrite !item_nth, !word_at_nth, !item2_nth by lia.
  cbv beta iota.
  rewrite !c_ubyte_val, c_byte_val, c_short_at, c_short_H4, c_short_H5.
  reflexivity.
Qed.

Lemma calibrateH_short_base
  (bus : I2CBus) (self : BME280) (data : list byte) :
  (length data < 24)%nat ->
  bus (addr (base self)) CALIBRATION 24 = Data data ->
  fst (calibrateH bus self) = Raise IndexError.
Proof.
  intros Hlen Hbus.
  pose proof (calibrate_short bus (base self) data Hlen Hbus) as Hs.
  unfold calibrateH. unfold bind at 1. rewrite super_run, Hs.
  reflexivity.
Qed.

Lemma calibrateH_short
  (bus : I2CBus) (self : BME280) (data dataH1 dataHX : list byte) :
  (24 <= length data)%nat ->
  (length dataH1 < 1)%nat \/ (length dataHX < 7)%nat ->
  bus (addr (base self)) CALIBRATION 24 = Data data ->
  bus (addr (base self)) CALIBRATION_H1 1 = Data dataH1 ->
  bus (addr (base self)) CALIBRATION_HX 7 = Data dataHX ->
  fst (calibrateH bus self) = Raise IndexError.
Proof.
  intros Hlen Hshort Hbus Hbus1 HbusX.
  unfold calibrateH. unfold bind at 1.
  rewrite super_run, (calibrate_decode_prefix bus _ data Hlen Hbus).
  cbn [fst snd].
  unfold read_block. run_method. rewrite !super_run.
  cbn [fst snd base set_base addr with_coeffs].
  rewrite Hbus1. cbv beta iota. cbn [fst snd base set_base addr with_coeffs].
  rewrite HbusX. cbv beta iota.
  destruct dataH1 as [|h dataH1]; [reflexivity|].
  destruct Hshort as [H1|HX]; [cbn [length] in H1; lia|].
  cbn [item nth_error]. cbv beta iota.
  do 7 (destruct dataHX as [|? dataHX];
        [cbn [word_at item2 item nth_error fst]; reflexivity|]).
  cbn [length] in HX. lia.
Qed.




(** C5, the code at the failing input: with the assembled patterns 0xfff
    and 0xff0, whose top bits are set, [calibrate] stores H4 = 4095 and
    H5 = 4080, where the signed 12-bit readings are -1 and -16. *)
Theorem H4_H5_top_bit_decode_positive :
  match BME280_init h4_top_bit_bus false with
  | Ok self =>
      dig_H4 self = Zf 4095 /\ dig_H5 self = Zf 4080 /\
      dig_H4 self <> Zf (signed12 4095) /\ dig_H5 self <> Zf (signed12 4080)
  | Raise _ => False
  end.
Proof.
  vm_compute. repeat split; discriminate.
Qed.

(** On every block the stored H4 and H5 are the 12-bit patterns
    themselves, between 0 and 4095. *)
Lemma decodeH_H4_H5_range (dataH1 dataHX : list byte) :
  0 <= H4 (decodeH dataH1 dataHX) < 4096 /\
  0 <= H5 (decodeH dataH1 dataHX) < 4096.
Proof.
  unfold decodeH; cbn [H4 H5].
  pose proof (byte_val_range (nth 3 dataHX x00)).
  pose proof (byte_val_range (nth 5 dataHX x00)).
  pose proof (byte_val_range (nth 4 dataHX x00)).
  pose proof (Z.mod_pos_bound (byte_val (nth 4 dataHX x00)) 16).
  assert (0 <= byte_val (nth 4 dataHX x00) / 16 < 16).
  { split; [apply Z.div_pos; lia | apply Z.div_lt_upper_bound; lia]. }
  lia.
Qed.

(** ** Temperature *)

Lemma raw20_nth (data : list byte) :
  (3 <= length data)%nat -> raw20 data = Ok (raw20_val data).
Proof.
  intros Hlen. unfold raw20. now rewrite !item_nth by lia.
Qed.

Lemma raw20_val_range (data : list byte) : 0 <= raw20_val data < 2 ^ 20.
Proof.
  unfold raw20_val.
  pose proof (byte_val_range (nth 0 data x00)) as H0.
  pose proof (byte_val_range (nth 1 data x00)) as H1.
  pose proof (byte_val_range (nth 2 data x00)) as H2.
  rewrite !Z.shiftl_mul_pow2, Z.shiftr_div_pow2 by lia.
  change (2 ^ 12) with 4096. change (2 ^ 4) with 16.
  change (2 ^ 20) with 1048576.
  assert (0 <= byte_val (nth 2 data x00) / 16 < 16).
  { split; [apply Z.div_pos; lia | apply Z.div_lt_upper_bound; lia]. }
  lia.
Qed.

(** [temperature] on every outcome of the bus read. *)
Lemma temperature_cases (bus : I2CBus) (self : BMP280) :
  temperature bus self =
  match bus (addr self) TEMP 3 with
  | NoReply errno => (Raise (I2CError errno), self)
  | Data data =>
      match raw20 data with
      | Raise e => (Raise e, self)
      | Ok raw =>
          (Ok (celsius raw self),
           set_t_fine (Some (fine_temperature raw self)) self)
      end
  end.
Proof.
  unfold temperature, raw_temperature, read_block. run_method.
  destruct (bus (addr self) TEMP 3) as [data|e]; [|reflexivity].
  destruct (raw20 data) as [raw|e]; reflexivity.
Qed.

Lemma temperature_run (bus : I2CBus) (self : BMP280) (data : list byte) :
  (3 <= length data)%nat ->
  bus (addr self) TEMP 3 = Data data ->
  temperature bus self =
  (Ok (celsius (raw20_val data) self),
   set_t_fine (Some (fine_temperature (raw20_val data) self)) self).
Proof.
  intros Hlen Hbus. now rewrite temperature_cases, Hbus, raw20_nth.
Qed.

(** C1, as amended: for every raw sample read from the three bytes of the
    temperature registers and every calibration, [temperature] computes
    var1 = (raw/16384 - T1/1024) * T2 and
    var2 = ((raw/131072 - T1/8192)^2) * T3 in binary64, stores var1 + var2
    in [t_fine] and returns (var1 + var2) / 5120 rounded to 2 decimals; with
    T1 = 27504, T2 = 26435, T3 = -1000 and raw = 519888 the result is 25.08
    and the stored [t_fine], rounded to 2 decimals, is 128422.29. *)
Theorem temperature_formula :
  (forall (bus : I2CBus) (self : BMP280) (data : list byte),
      (3 <= length data)%nat ->
      bus (addr self) TEMP 3 = Data data ->
      let raw := raw20_val data in
      let var1 := spec_var1 raw self in
      let var2 := spec_var2 raw self in
      0 <= raw /\
      temperature bus self =
      (Ok (F64.round ((var1 + var2) / Zf 5120)%F 2),
       set_t_fine (Some (var1 + var2)%F) self)) /\
  (exists self : BMP280,
      BMP280_init datasheet_bus false = Ok self /\
      dig_T1 self = Zf 27504 /\ dig_T2 self = Zf 26435 /\
      dig_T3 self = Zf (-1000) /\
      raw_temperature datasheet_bus self = (Ok 519888, self) /\
      exists t : float,
        temperature datasheet_bus self =
        (Ok (F64.decimal 2508 2), set_t_fine (Some t) self) /\
        F64.round t 2 = F64.decimal 12842229 2).
Proof.
  split.
  - intros bus self data Hlen Hbus raw var1 var2. split.
    + apply raw20_val_range.
    + now rewrite (temperature_run bus self data Hlen Hbus).
  - eexists. split; [reflexivity|].
    repeat (split; [reflexivity|]).
    eexists. split; vm_compute; reflexivity.
Qed.

Lemma temperature_formula_witness :
  let self := with_coeffs (decode datasheet_cal) (fresh false) in
  temperature datasheet_bus self =
  (Ok (celsius 519888 self),
   set_t_fine (Some (fine_temperature 519888 self)) self).
Proof.
  refine (proj2 (proj1 temperature_formula datasheet_bus
                   (with_coeffs (decode datasheet_cal) (fresh false))
                   [x7e; xed; x00] _ _)).
  - cbn. lia.
  - reflexivity.
Defined.

(** C1 as stated fails on its number: in the worked example the stored
    [t_fine] is 128422.287..., which rounds to 128422.29 and lies more than
    0.34 below 128422.63. *)
Lemma fine_temperature_not_128422_63 :
  exists self t,
    BMP280_init datasheet_bus false = Ok self /\
    t_fine (snd (temperature datasheet_bus self)) = Some t /\
    F64.round t 2 <> F64.decimal 12842263 2 /\
    F64.ltb (F64.decimal 34 2) (F64.decimal 12842263 2 - t)%F = true.
Proof.
  eexists. eexists. split; [reflexivity|]. split; [reflexivity|].
  split; [vm_compute; discriminate | vm_compute; reflexivity].
Qed.

(** C9: [temperature] is idempotent.  On one and the same content of the
    bus, a second call returns what the first returned and leaves the
    object, [t_fine] included, as the first call left it. *)
Theorem temperature_idempotent (bus : I2CBus) (self : BMP280) :
  temperature bus (snd (temperature bus self)) = temperature bus self.
Proof.
  rewrite (temperature_cases bus self).
  destruct (bus (addr self) TEMP 3) as [data|e] eqn:Hbus.
  - destruct (raw20 data) as [raw|e] eqn:Hraw; cbn [snd].
    + rewrite temperature_cases. cbn [addr set_t_fine].
      now rewrite Hbus, Hraw.
    + now rewrite temperature_cases, Hbus, Hraw.
  - cbn [snd]. now rewrite temperature_cases, Hbus.
Qed.

(** ** Pressure *)

Lemma eqb_zero_is_zero (x : float) :
  F64.eqb x (Zf 0) = false -> F64.is_zero x = false.
Proof. destruct x as [s|s| |s m e]; cbn; congruence. Qed.

(** Python's [/] does not raise on a divisor that compared unequal to
    [0.0], nor on a nonzero literal. *)
Lemma truediv_nonzero (x y : float) :
  F64.eqb y (Zf 0) = false -> truediv x y = Ok (x / y)%F.
Proof.
  intros Hy. unfold truediv. now rewrite (eqb_zero_is_zero y Hy).
Qed.

(** [pressure] when the stored [t_fine] is reused. *)
Lemma pressure_reuse (bus : I2CBus) (self : BMP280) (t : float) :
  t_fine self = Some t ->
  pressure bus false self =
  match bus (addr self) PRESS 3 with
  | NoReply errno => (Raise (I2CError errno), self)
  | Data data =>
      match raw20 data with
      | Raise e => (Raise e, self)
      | Ok raw => (Ok (pressure_result raw t self), self)
      end
  end.
Proof.
  intros Ht.
  unfold pressure, raw_pressure, read_block, read_t_fine. run_method.
  rewrite Ht. cbn [is_None orb]. cbv beta iota.
  destruct (bus (addr self) PRESS 3) as [data|e]; [|reflexivity].
  destruct (raw20 data) as [raw|e]; [|reflexivity].
  rewrite Ht. unfold ret.
  unfold pressure_result, pressure_pascal, pressure_denominator.
  cbv beta iota zeta.
  match goal with
  | |- context [F64.eqb ?d (Zf 0)] => destruct (F64.eqb d (Zf 0)) eqn:Hden
  end; [reflexivity|].
  rewrite (truediv_nonzero _ _ Hden). reflexivity.
Qed.

(** [pressure] when it refreshes: [temperature], then the reuse path. *)
Lemma pressure_refresh (bus : I2CBus) (upd : bool) (self : BMP280) :
  is_None (t_fine self) || upd = true ->
  pressure bus upd self = (temperature bus ;;; pressure bus false) self.
Proof.
  intros Hc. unfold pressure. run_method. rewrite Hc.
  rewrite !temperature_cases.
  destruct (bus (addr self) TEMP 3) as [data|e]; [|reflexivity].
  destruct (raw20 data) as [raw|e]; [|reflexivity].
  cbn [t_fine set_t_fine is_None orb]. reflexivity.
Qed.

(** ** Humidity *)

Lemma raw16_nth (data : list byte) :
  (2 <= length data)%nat ->
  item2 data 0 1 (fun x y => Z.shiftl x 8 + y) = Ok (raw16_val data).
Proof.
  intros Hlen. now rewrite item2_nth by lia.
Qed.

(** [humidity] when the stored [t_fine] is reused. *)
Lemma humidity_reuse (bus : I2CBus) (self : BME280) (t : float) :
  t_fine (base self) = Some t ->
  humidity bus false self =
  match bus (addr (base self)) HUM 2 with
  | NoReply errno => (Raise (I2CError errno), self)
  | Data data =>
      match item2 data 0 1 (fun x y => Z.shiftl x 8 + y) with
      | Raise e => (Raise e, self)
      | Ok raw => (Ok (humidity_result raw t self), self)
      end
  end.
Proof.
  intros Ht.
  unfold humidity, raw_humidity, read_block, read_t_fine. run_method.
  rewrite Ht. cbn [is_None orb]. cbv beta iota.
  rewrite super_run. run_method. cbn [fst snd]. rewrite set_base_base.
  destruct (bus (addr (base self)) HUM 2) as [data|e]; [|reflexivity].
  destruct (item2 data 0 1 _) as [raw|e]; [|reflexivity].
  rewrite super_run. run_method. rewrite Ht. cbn [fst snd].
  rewrite set_base_base. reflexivity.
Qed.

(** [humidity] when it refreshes: [temperature], then the reuse path. *)
Lemma humidity_refresh (bus : I2CBus) (upd : bool) (self : BME280) :
  is_None (t_fine (base self)) || upd = true ->
  humidity bus upd self =
  (super (temperature bus) ;;; humidity bus false) self.
Proof.
  intros Hc. unfold humidity. run_method. rewrite Hc.
  rewrite !(super_run (temperature bus)), !temperature_cases.
  destruct (bus (addr (base self)) TEMP 3) as [data|e]; [|reflexivity].
  destruct (raw20 data) as [raw|e]; [|reflexivity].
  cbn [fst snd base set_base t_fine set_t_fine is_None orb]. reflexivity.
Qed.

(** ** Whole calls *)

Lemma pressure_result_frame (raw : Z) (t : float) (o : option float)
  (self : BMP280) :
  pressure_result raw t (set_t_fine o self) = pressure_result raw t self.
Proof. reflexivity. Qed.

Lemma humidity_result_frame (raw : Z) (t : float) (b : BMP280)
  (self : BME280) :
  humidity_result raw t (set_base b self) = humidity_result raw t self.
Proof. reflexivity. Qed.

(** [pressure] with both samples readable, on the refresh path. *)
Lemma pressure_run_refresh
  (bus : I2CBus) (upd : bool) (self : BMP280) (dataT dataP : list byte) :
  (3 <= length dataT)%nat -> (3 <= length dataP)%nat ->
  bus (addr self) TEMP 3 = Data dataT ->
  bus (addr self) PRESS 3 = Data dataP ->
  is_None (t_fine self) || upd = true ->
  pressure bus upd self =
  (Ok (pressure_result (raw20_val dataP)
         (fine_temperature (raw20_val dataT) self) self),
   set_t_fine (Some (fine_temperature (raw20_val dataT) self)) self).
Proof.
  intros HlT HlP HT HP Hc.
  rewrite (pressure_refresh bus upd self Hc). unfold bind.
  rewrite (temperature_run bus self dataT HlT HT).
  rewrite (pressure_reuse bus _ (fine_temperature (raw20_val dataT) self))
    by reflexivity.
  cbn [addr set_t_fine]. rewrite HP, (raw20_nth dataP HlP).
  now rewrite pressure_result_frame.
Qed.

(** [pressure] with the pressure sample readable, on the reuse path. *)
Lemma pressure_run_reuse
  (bus : I2CBus) (self : BMP280) (dataP : list byte) (t : float) :
  (3 <= length dataP)%nat ->
  bus (addr self) PRESS 3 = Data dataP ->
  t_fine self = Some t ->
  pressure bus false self =
  (Ok (pressure_result (raw20_val dataP) t self), self).
Proof.
  intros HlP HP Ht.
  now rewrite (pressure_reuse bus self t Ht), HP, (raw20_nth dataP HlP).
Qed.

Lemma humidity_run_refresh
  (bus : I2CBus) (upd : bool) (self : BME280) (dataT dataH : list byte) :
  (3 <= length dataT)%nat -> (2 <= length dataH)%nat ->
  bus (addr (base self)) TEMP 3 = Data dataT ->
  bus (addr (base self)) HUM 2 = Data dataH ->
  is_None (t_fine (base self)) || upd = true ->
  humidity bus upd self =
  (Ok (humidity_result (raw16_val dataH)
         (fine_temperature (raw20_val dataT) (base self)) self),
   set_base
     (set_t_fine (Some (fine_temperature (raw20_val dataT) (base self)))
        (base self)) self).
Proof.
  intros HlT HlH HT HH Hc.
  rewrite (humidity_refresh bus upd self Hc). unfold bind.
  rewrite super_run, (temperature_run bus (base self) dataT HlT HT).
  cbn [fst snd].
  rewrite (humidity_reuse bus _
             (fine_temperature (raw20_val dataT) (base self)))
    by reflexivity.
  cbn [addr set_t_fine base set_base]. rewrite HH, (raw16_nth dataH HlH).
  now rewrite humidity_result_frame.
Qed.

Lemma humidity_run_reuse
  (bus : I2CBus) (self : BME280) (dataH : list byte) (t : float) :
  (2 <= length dataH)%nat ->
  bus (addr (base self)) HUM 2 = Data dataH ->
  t_fine (base self) = Some t ->
  humidity bus false self =
  (Ok (humidity_result (raw16_val dataH) t self), self).
Proof.
  intros HlH HH Ht.
  now rewrite (humidity_reuse bus self t Ht), HH, (raw16_nth dataH HlH).
Qed.

Lemma refresh_or_reuse (o : option float) (upd : bool) :
  is_None o || upd = true \/ (upd = false /\ exists t, o = Some t).
Proof.
  destruct o as [t|]; destruct upd; cbn; eauto.
Qed.

Lemma raw20_raises (data : list byte) (e : exn) :
  raw20 data = Raise e -> e = IndexError.
Proof.
  unfold raw20, item.
  destruct (nth_error data 0); [|congruence].
  destruct (nth_error data 1); [|congruence].
  destruct (nth_error data 2); congruence.
Qed.

Lemma item2_raises (data : list byte) (i j : nat) (f : Z -> Z -> Z) (e : exn) :
  item2 data i j f = Raise e -> e = IndexError.
Proof.
  unfold item2, item.
  destruct (nth_error data i); [|congruence].
  destruct (nth_error data j); congruence.
Qed.

Lemma temperature_raises (bus : I2CBus) (self : BMP280) (e : exn) :
  fst (temperature bus self) = Raise e ->
  snd (temperature bus self) = self /\
  (e = IndexError \/ exists errno, e = I2CError errno).
Proof.
  rewrite temperature_cases.
  destruct (bus (addr self) TEMP 3) as [data|errno].
  - destruct (raw20 data) as [raw|e'] eqn:Hraw; cbn [fst snd].
    + discriminate.
    + intros [= <-]. split; [reflexivity|].
      left. exact (raw20_raises data e' Hraw).
  - cbn [fst snd]. intros [= <-]. split; [reflexivity|]. right. now exists errno.
Qed.

Lemma pressure_reuse_no_TypeError (bus : I2CBus) (self : BMP280) (t : float) :
  t_fine self = Some t ->
  snd (pressure bus false self) = self /\
  fst (pressure bus false self) <> Raise TypeError.
Proof.
  intros Ht. rewrite (pressure_reuse bus self t Ht).
  destruct (bus (addr self) PRESS 3) as [data|errno]; [|now split].
  destruct (raw20 data) as [raw|e] eqn:Hraw; [now split|].
  split; [reflexivity|]. cbn [fst]. intros [= ->].
  now apply raw20_raises in Hraw.
Qed.

Lemma humidity_reuse_no_TypeError (bus : I2CBus) (self : BME280) (t : float) :
  t_fine (base self) = Some t ->
  snd (humidity bus false self) = self /\
  fst (humidity bus false self) <> Raise TypeError.
Proof.
  intros Ht. rewrite (humidity_reuse bus self t Ht).
  destruct (bus (addr (base self)) HUM 2) as [data|errno]; [|now split].
  destruct (item2 data 0 1 _) as [raw|e] eqn:Hraw; [now split|].
  split; [reflexivity|]. cbn [fst]. intros [= ->].
  now apply item2_raises in Hraw.
Qed.







(** C3: with the samples it reads available, [pressure] raises nothing
    and returns what the guard prescribes: exactly [0.0] when the
    P1-normalised denominator [(1.0 + var1/32768.0) * P1] compares equal to
    [0.0], and the compensated pressure rounded to 1 decimal otherwise.  On
    the refresh path the fine temperature used is that of the temperature
    sample just read, and it is left in [t_fine]; on the reuse path it is
    the stored one, the temperature registers are not read and the object
    is as before. *)
Theorem pressure_never_raises
  (bus : I2CBus) (upd : bool) (self : BMP280) (dataT dataP : list byte) :
  (3 <= length dataP)%nat ->
  bus (addr self) PRESS 3 = Data dataP ->
  (is_None (t_fine self) || upd = true ->
   (3 <= length dataT)%nat ->
   bus (addr self) TEMP 3 = Data dataT ->
   let t := fine_temperature (raw20_val dataT) self in
   pressure bus upd self =
   (Ok (if F64.eqb (pressure_denominator t self) (Zf 0) then Zf 0
        else F64.round (pressure_pascal (raw20_val dataP) t self) 1),
    set_t_fine (Some t) self)) /\
  (forall t : float,
      upd = false -> t_fine self = Some t ->
      pressure bus upd self =
      (Ok (if F64.eqb (pressure_denominator t self) (Zf 0) then Zf 0
           else F64.round (pressure_pascal (raw20_val dataP) t self) 1),
       self)).
Proof.
  intros HlP HP. split.
  - intros Hc HlT HT t.
    exact (pressure_run_refresh bus upd self dataT dataP HlT HlP HT HP Hc).
  - intros t -> Ht.
    exact (pressure_run_reuse bus self dataP t HlP HP Ht).
Qed.

Lemma pressure_never_raises_witness :
  let self := with_coeffs (decode datasheet_cal) (fresh false) in
  let t := fine_temperature 519888 self in
  pressure datasheet_bus true self =
  (Ok (if F64.eqb (pressure_denominator t self) (Zf 0) then Zf 0
       else F64.round (pressure_pascal 415148 t self) 1),
   set_t_fine (Some t) self).
Proof.
  refine (proj1 (pressure_never_raises datasheet_bus true
                   (with_coeffs (decode datasheet_cal) (fresh false))
                   [x7e; xed; x00] [x65; x5a; xc0] _ _) _ _ _).
  - cbn. lia.
  - reflexivity.
  - reflexivity.
  - cbn. lia.
  - reflexivity.
Defined.

Lemma temperature_frame (bus : I2CBus) (self : BMP280) :
  only_t_fine_changed self (snd (temperature bus self)).
Proof.
  unfold only_t_fine_changed. rewrite temperature_cases.
  destruct (bus (addr self) TEMP 3) as [data|errno];
    [destruct (raw20 data) as [raw|e]|]; cbn [snd]; now destruct self.
Qed.

Lemma only_t_fine_changed_trans (a b c : BMP280) :
  only_t_fine_changed a b -> only_t_fine_changed b c ->
  only_t_fine_changed a c.
Proof.
  unfold only_t_fine_changed. intros Hab Hbc.
  rewrite Hbc at 1. rewrite Hab at 1. reflexivity.
Qed.

Lemma only_t_fine_changed_refl (a : BMP280) : only_t_fine_changed a a.
Proof. unfold only_t_fine_changed. now destruct a. Qed.

Lemma pressure_frame (bus : I2CBus) (upd : bool) (self : BMP280) :
  only_t_fine_changed self (snd (pressure bus upd self)).
Proof.
  destruct (refresh_or_reuse (t_fine self) upd) as [Hc|[-> [t Ht]]].
  - rewrite (pressure_refresh bus upd self Hc). unfold bind.
    pose proof (temperature_frame bus self) as Hf.
    destruct (temperature bus self) as [[T|e] s'] eqn:Htemp; cbn [snd] in *;
      [|exact Hf].
    apply only_t_fine_changed_trans with s'; [exact Hf|].
    assert (Hs : exists t, t_fine s' = Some t).
    { rewrite temperature_cases in Htemp.
      destruct (bus (addr self) TEMP 3) as [data|errno]; [|discriminate].
      destruct (raw20 data) as [raw|e]; [|discriminate].
      injection Htemp as _ <-. cbn. eauto. }
    destruct Hs as [t Ht].
    rewrite (proj1 (pressure_reuse_no_TypeError bus s' t Ht)).
    apply only_t_fine_changed_refl.
  - rewrite (proj1 (pressure_reuse_no_TypeError bus self t Ht)).
    apply only_t_fine_changed_refl.
Qed.

Lemma humidity_frame (bus : I2CBus) (upd : bool) (self : BME280) :
  snd (humidity bus upd self) =
  set_base (base (snd (humidity bus upd self))) self /\
  only_t_fine_changed (base self) (base (snd (humidity bus upd self))).
Proof.
  destruct (refresh_or_reuse (t_fine (base self)) upd) as [Hc|[-> [t Ht]]].
  - rewrite (humidity_refresh bus upd self Hc). unfold bind.
    rewrite super_run.
    pose proof (temperature_frame bus (base self)) as Hf.
    destruct (temperature bus (base self)) as [[T|e] s'] eqn:Htemp;
      cbn [fst snd] in *; [|now split].
    assert (Hs : exists t, t_fine s' = Some t).
    { rewrite temperature_cases in Htemp.
      destruct (bus (addr (base self)) TEMP 3) as [data|errno];
        [|discriminate].
      destruct (raw20 data) as [raw|e]; [|discriminate].
      injection Htemp as _ <-. cbn. eauto. }
    destruct Hs as [t Ht].
    rewrite (proj1 (humidity_reuse_no_TypeError bus (set_base s' self) t Ht)).
    now split.
  - rewrite (proj1 (humidity_reuse_no_TypeError bus self t Ht)).
    split; [now destruct self | apply only_t_fine_changed_refl].
Qed.

(** C8: a call of [temperature], [pressure] or [humidity] leaves every
    calibration coefficient (and [addr]) as it was: the object afterwards is
    the object before with, at most, another [t_fine]; on a BME280 the six
    humidity coefficients are untouched as well, by [humidity] and by the
    two inherited methods.  [temperature] overwrites
    [t_fine] whatever it held: with the sample readable, the new value is
    var1 + var2 of that sample for every previous content [old]. *)
Theorem coefficients_frame
  (bus : I2CBus) (upd : bool) (self : BMP280) (selfH : BME280) :
  only_t_fine_changed self (snd (temperature bus self)) /\
  only_t_fine_changed self (snd (pressure bus upd self)) /\
  (snd (humidity bus upd selfH) =
   set_base (base (snd (humidity bus upd selfH))) selfH /\
   only_t_fine_changed (base selfH) (base (snd (humidity bus upd selfH)))) /\
  snd (super (temperature bus) selfH) =
  set_base (snd (temperature bus (base selfH))) selfH /\
  snd (super (pressure bus upd) selfH) =
  set_base (snd (pressure bus upd (base selfH))) selfH /\
  (forall (data : list byte) (old : option float),
      (3 <= length data)%nat ->
      bus (addr self) TEMP 3 = Data data ->
      t_fine (snd (temperature bus (set_t_fine old self))) =
      Some (fine_temperature (raw20_val data) self)).
Proof.
  split; [apply temperature_frame|].
  split; [apply pressure_frame|].
  split; [apply humidity_frame|].
  split; [now rewrite super_run|].
  split; [now rewrite super_run|].
  intros data old Hlen Hbus.
  now rewrite (temperature_run bus (set_t_fine old self) data Hlen Hbus).
Qed.

Lemma coefficients_frame_witness :
  let self := with_coeffs (decode datasheet_cal) (fresh false) in
  t_fine (snd (temperature datasheet_bus (set_t_fine (Some (Zf 1)) self))) =
  Some (fine_temperature 519888 self).
Proof.
  refine (proj2 (proj2 (proj2 (proj2 (proj2
            (coefficients_frame datasheet_bus true
               (with_coeffs (decode datasheet_cal) (fresh false))
               (freshH false)))))) [x7e; xed; x00] (Some (Zf 1)) _ _).
  - cbn. lia.
  - reflexivity.
Defined.

(** C10: when [pressure] refreshes (flag true or [t_fine] unset) and then
    takes the degenerate branch, it returns [0.0] with [t_fine] already
    overwritten by the fine temperature of the sample just read; unless
    [t_fine] held that very value, the object is not what it was before the
    call. *)
Theorem degenerate_pressure_refreshes
  (bus : I2CBus) (upd : bool) (self : BMP280) (dataT dataP : list byte) :
  (3 <= length dataT)%nat -> (3 <= length dataP)%nat ->
  bus (addr self) TEMP 3 = Data dataT ->
  bus (addr self) PRESS 3 = Data dataP ->
  is_None (t_fine self) || upd = true ->
  F64.eqb (pressure_denominator
             (fine_temperature (raw20_val dataT) self) self) (Zf 0) = true ->
  pressure bus upd self =
  (Ok (Zf 0),
   set_t_fine (Some (fine_temperature (raw20_val dataT) self)) self) /\
  (t_fine self <> Some (fine_temperature (raw20_val dataT) self) ->
   snd (pressure bus upd self) <> self).
Proof.
  intros HlT HlP HT HP Hc Hden.
  rewrite (pressure_run_refresh bus upd self dataT dataP HlT HlP HT HP Hc).
  unfold pressure_result. rewrite Hden. split; [reflexivity|].
  cbn [snd]. intros Hne Heq. apply Hne. rewrite <- Heq at 1. reflexivity.
Qed.

Lemma degenerate_pressure_refreshes_witness :
  let self := with_coeffs (decode p1_zero_cal) (fresh false) in
  pressure p1_zero_bus true self =
  (Ok (Zf 0), set_t_fine (Some (fine_temperature 519888 self)) self) /\
  snd (pressure p1_zero_bus true self) <> self.
Proof.
  assert (H3 : (3 <= 3)%nat) by lia.
  pose proof (degenerate_pressure_refreshes p1_zero_bus true
                (with_coeffs (decode p1_zero_cal) (fresh false))
                [x7e; xed; x00] [x65; x5a; xc0] H3 H3
                eq_refl eq_refl eq_refl) as H.
  assert (Hden : F64.eqb
                   (pressure_denominator
                      (fine_temperature (raw20_val [x7e; xed; x00])
                         (with_coeffs (decode p1_zero_cal) (fresh false)))
                      (with_coeffs (decode p1_zero_cal) (fresh false)))
                   (Zf 0) = true) by (vm_compute; reflexivity).
  destruct (H Hden) as [Hrun Hstate].
  split; [exact Hrun|].
  apply Hstate. vm_compute. discriminate.
Defined.

(** ** Binary digits and right shifts *)

Lemma digits2_pos_size (p : positive) : digits2_pos p = Pos.size p.
Proof. induction p; cbn; congruence. Qed.

Lemma Zdigits2_log2 (m : Z) : 0 < m -> Zdigits2 m = Z.log2 m + 1.
Proof.
  destruct m as [|p|p]; try lia. intros _. cbn [Zdigits2].
  rewrite digits2_pos_size. destruct p; cbn; lia.
Qed.

Lemma Zdigits2_nonneg (m : Z) : 0 <= Zdigits2 m.
Proof. destruct m; cbn; lia. Qed.

(** The number of binary digits of [m] is at most [d] exactly when
    [m < 2^d]. *)
Lemma Zdigits2_le_iff (m d : Z) :
  0 <= m -> 0 <= d -> Zdigits2 m <= d <-> m < 2 ^ d.
Proof.
  intros Hm Hd. destruct (Z.eq_dec m 0) as [->|Hne].
  - cbn. split; intros _; [apply Z.pow_pos_nonneg|]; lia.
  - rewrite Zdigits2_log2 by lia.
    rewrite (Z.log2_lt_pow2 m d) by lia. lia.
Qed.

Lemma Zdigits2_lt_pow (m : Z) : 0 <= m -> m < 2 ^ Zdigits2 m.
Proof.
  intros Hm. apply Zdigits2_le_iff; [assumption|apply Zdigits2_nonneg|lia].
Qed.

Lemma Zdigits2_ge_pow (m : Z) : 0 < m -> 2 ^ (Zdigits2 m - 1) <= m.
Proof.
  intros Hm. rewrite Zdigits2_log2 by lia.
  replace (Z.log2 m + 1 - 1) with (Z.log2 m) by lia.
  apply Z.log2_spec. lia.
Qed.

Lemma Zdigits2_pos (m : Z) : 0 < m -> 1 <= Zdigits2 m.
Proof. destruct m; cbn; lia. Qed.

Lemma shr_1_m (mrs : shr_record) :
  0 <= shr_m mrs -> shr_m (shr_1 mrs) = shr_m mrs / 2.
Proof.
  destruct mrs as [m r s]. cbn [shr_m]. intros Hm.
  destruct m as [|p|p]; [reflexivity| |lia].
  destruct p as [p|p|]; cbn [shr_1 shr_m].
  - apply Z.div_unique with (r := 1); lia.
  - apply Z.div_unique with (r := 0); lia.
  - reflexivity.
Qed.

(** Shifting the mantissa right by [p] bits divides it by [2^p]. *)
Lemma iter_shr_1_m (p : positive) (mrs : shr_record) :
  0 <= shr_m mrs ->
  shr_m (iter_pos shr_1 p mrs) = shr_m mrs / 2 ^ Zpos p.
Proof.
  revert mrs. induction p as [p IH|p IH|]; intros mrs Hm; cbn [iter_pos].
  - assert (H1 : 0 <= shr_m (shr_1 mrs)).
    { rewrite shr_1_m by assumption. apply Z.div_pos; lia. }
    assert (H2 : 0 <= shr_m (iter_pos shr_1 p (shr_1 mrs))).
    { rewrite IH by assumption. apply Z.div_pos; [lia|].
      apply Z.pow_pos_nonneg; lia. }
    rewrite IH, IH, shr_1_m by assumption.
    assert (Hp : 0 < 2 ^ Zpos p) by (apply Z.pow_pos_nonneg; lia).
    rewrite !Z.div_div by lia.
    f_equal.
    replace (Z.pos p~1) with (1 + Z.pos p + Z.pos p) by lia.
    rewrite !Z.pow_add_r by lia. change (2 ^ 1) with 2. lia.
  - assert (H2 : 0 <= shr_m (iter_pos shr_1 p mrs)).
    { rewrite IH by assumption. apply Z.div_pos; [lia|].
      apply Z.pow_pos_nonneg; lia. }
    rewrite IH, IH by assumption.
    assert (Hp : 0 < 2 ^ Zpos p) by (apply Z.pow_pos_nonneg; lia).
    rewrite !Z.div_div by lia.
    f_equal.
    replace (Z.pos p~0) with (Z.pos p + Z.pos p) by lia.
    now rewrite Z.pow_add_r by lia.
  - rewrite shr_1_m by assumption. reflexivity.
Qed.

Lemma shr_record_of_loc_m (m : Z) (l : location) :
  shr_m (shr_record_of_loc m l) = m.
Proof. destruct l as [|[| |]]; reflexivity. Qed.

Lemma Zdigits2_div_pow (m n : Z) :
  0 <= m -> 0 < n -> Zdigits2 (m / 2 ^ n) <= Z.max 0 (Zdigits2 m - n).
Proof.
  intros Hm Hn.
  assert (Hp : 0 < 2 ^ n) by (apply Z.pow_pos_nonneg; lia).
  assert (Hq : 0 <= m / 2 ^ n) by (apply Z.div_pos; lia).
  apply Zdigits2_le_iff; [assumption|lia|].
  pose proof (Zdigits2_lt_pow m Hm) as Hlt.
  pose proof (Zdigits2_nonneg m) as Hd.
  apply Z.div_lt_upper_bound; [assumption|].
  destruct (Z_le_gt_dec n (Zdigits2 m)) as [Hle|Hgt].
  - rewrite Z.max_r by lia. rewrite <- Z.pow_add_r by lia.
    now replace (n + (Zdigits2 m - n)) with (Zdigits2 m) by lia.
  - rewrite Z.max_l by lia. rewrite Z.pow_0_r, Z.mul_1_r.
    eapply Z.lt_le_trans; [exact Hlt|]. apply Z.pow_le_mono_r; lia.
Qed.

(** ** Rounding keeps the magnitude bound *)

(** Aligning a mantissa on the exponent of its binade leaves at most 53
    digits and does not raise [digits + exponent]. *)
Lemma shr_fexp_bound (m e k : Z) (l : location) :
  0 <= m -> Zdigits2 m + e <= k -> -1074 <= k ->
  0 <= shr_m (fst (shr_fexp 53 1024 m e l)) /\
  Zdigits2 (shr_m (fst (shr_fexp 53 1024 m e l))) <= 53 /\
  Zdigits2 (shr_m (fst (shr_fexp 53 1024 m e l))) +
  snd (shr_fexp 53 1024 m e l) <= k.
Proof.
  intros Hm Hk Hmin. unfold shr_fexp, shr, fexp, emin.
  pose proof (Zdigits2_nonneg m) as Hd.
  destruct (Z.max (Zdigits2 m + e - 53) (3 - 1024 - 53) - e) as [|n|n] eqn:En;
    cbn [fst snd]; rewrite ?shr_record_of_loc_m.
  - lia.
  - rewrite iter_shr_1_m by (rewrite shr_record_of_loc_m; exact Hm).
    rewrite shr_record_of_loc_m.
    pose proof (Zdigits2_div_pow m (Zpos n) Hm ltac:(lia)) as Hq.
    assert (0 <= m / 2 ^ Zpos n).
    { apply Z.div_pos; [lia|]. apply Z.pow_pos_nonneg; lia. }
    lia.
  - lia.
Qed.

Lemma round_nearest_even_bound (m : Z) (l : location) :
  0 <= m ->
  0 <= round_nearest_even m l /\
  Zdigits2 (round_nearest_even m l) <= Zdigits2 m + 1.
Proof.
  intros Hm.
  assert (Hs : 0 <= m + 1 /\ Zdigits2 (m + 1) <= Zdigits2 m + 1).
  { split; [lia|].
    pose proof (Zdigits2_nonneg m).
    apply Zdigits2_le_iff; [lia|lia|].
    pose proof (Zdigits2_lt_pow m Hm).
    rewrite Z.pow_add_r by lia. change (2 ^ 1) with 2. lia. }
  unfold round_nearest_even.
  destruct l as [|[| |]]; try (split; [assumption|lia]); try exact Hs.
  destruct (Z.even m); [split; [assumption|lia] | exact Hs].
Qed.

(** Rounding to nearest even: a value below [2^k], with [k] well inside
    the exponent range, rounds to a zero or to a finite float of at most
    [2^k]; it never overflows. *)
Lemma binary_round_aux_bound (sx : bool) (mx ex k : Z) (lx : location) :
  0 <= mx -> Zdigits2 mx + ex <= k -> -1074 <= k <= 971 ->
  fbnd (k + 1) (binary_round_aux 53 1024 sx mx ex lx).
Proof.
  intros Hm Hk Hr. unfold binary_round_aux.
  pose proof (shr_fexp_bound mx ex k lx Hm Hk ltac:(lia)) as H1.
  destruct (shr_fexp 53 1024 mx ex lx) as [mrs' e']. cbn [fst snd] in H1.
  destruct H1 as (H1a & H1b & H1c).
  pose proof (round_nearest_even_bound (shr_m mrs') (loc_of_shr_record mrs') H1a)
    as [H2a H2b].
  pose proof (shr_fexp_bound (round_nearest_even (shr_m mrs') (loc_of_shr_record mrs'))
                e' (k + 1) loc_Exact H2a ltac:(lia) ltac:(lia)) as H3.
  destruct (shr_fexp 53 1024 _ e' loc_Exact) as [mrs'' e'']. cbn [fst snd] in H3.
  destruct H3 as (H3a & H3b & H3c).
  destruct (shr_m mrs'') as [|m|m] eqn:Em; [exact I| |lia].
  cbn [Zdigits2] in H3b, H3c.
  assert (He : e'' <= 1024 - 53) by lia.
  apply Z.leb_le in He. rewrite He. cbn [fbnd]. lia.
Qed.

Lemma fbnd_weaken (k k' : Z) (x : spec_float) :
  fbnd k x -> k <= k' -> fbnd k' x.
Proof. destruct x; cbn; intuition lia. Qed.

Lemma Zdigits2_abs (m : Z) : Zdigits2 (Z.abs m) = Zdigits2 m.
Proof. now destruct m. Qed.

Lemma Zdigits2_abs_le (m d : Z) :
  0 <= d -> Z.abs m < 2 ^ d -> Zdigits2 m <= d.
Proof.
  intros Hd Hm. rewrite <- Zdigits2_abs.
  apply Zdigits2_le_iff; [lia|assumption|assumption].
Qed.

Lemma iter_xO_pow (d mx : positive) :
  Zpos (Pos.iter xO mx d) = Zpos mx * 2 ^ Zpos d.
Proof.
  induction d as [|d IH] using Pos.peano_ind.
  - cbn. lia.
  - rewrite Pos.iter_succ, Pos2Z.inj_xO, IH, Pos2Z.inj_succ, Z.pow_succ_r by lia.
    lia.
Qed.

Lemma Zdigits2_mul_pow (m d : Z) :
  0 <= m -> 0 <= d -> Zdigits2 (m * 2 ^ d) <= Zdigits2 m + d.
Proof.
  intros Hm Hd. pose proof (Zdigits2_nonneg m) as Hn.
  assert (Hp : 0 < 2 ^ d) by (apply Z.pow_pos_nonneg; lia).
  apply Zdigits2_le_iff; [nia|lia|].
  rewrite Z.pow_add_r by lia.
  pose proof (Zdigits2_lt_pow m Hm). nia.
Qed.

Lemma shl_align_bound (mx : positive) (ex ez : Z) :
  ez <= ex ->
  Zdigits2 (Zpos (fst (shl_align mx ex ez))) + ez <= Zdigits2 (Zpos mx) + ex.
Proof.
  intros Hle. unfold shl_align.
  destruct (ez - ex) as [|d|d] eqn:Ed; cbn [fst]; try lia.
  rewrite iter_xO_pow.
  pose proof (Zdigits2_mul_pow (Zpos mx) (Zpos d) ltac:(lia) ltac:(lia)).
  lia.
Qed.

Lemma shl_align_snd (mx : positive) (ex ez : Z) :
  Zdigits2 (Zpos (fst (shl_align mx ex ez))) + snd (shl_align mx ex ez)
  <= Zdigits2 (Zpos mx) + ex.
Proof.
  unfold shl_align.
  destruct (ez - ex) as [|d|d] eqn:Ed; cbn [fst snd]; try lia.
  rewrite iter_xO_pow.
  pose proof (Zdigits2_mul_pow (Zpos mx) (Zpos d) ltac:(lia) ltac:(lia)).
  lia.
Qed.

Lemma binary_round_bound (sx : bool) (mx : positive) (ex k : Z) :
  Zdigits2 (Zpos mx) + ex <= k -> -1074 <= k <= 971 ->
  fbnd (k + 1) (binary_round 53 1024 sx mx ex).
Proof.
  intros Hk Hr. unfold binary_round.
  pose proof (shl_align_snd mx ex (fexp 53 1024 (Zpos (digits2_pos mx) + ex)))
    as Hs.
  destruct (shl_align mx ex _) as [mz ez]. cbn [fst snd] in Hs.
  apply binary_round_aux_bound; lia.
Qed.

Lemma binary_normalize_bound (m e k : Z) (sz : bool) :
  Zdigits2 m + e <= k -> -1074 <= k <= 971 ->
  fbnd (k + 1) (binary_normalize 53 1024 m e sz).
Proof.
  intros Hk Hr. destruct m as [|p|p]; cbn [binary_normalize];
    [exact I| |]; now apply binary_round_bound.
Qed.

(** The four operations on bounded operands: the result is finite and its
    bound follows from those of the operands. *)
Lemma fbnd_mul (a b : Z) (x y : spec_float) :
  fbnd a x -> fbnd b y -> -1074 <= a + b <= 971 ->
  fbnd (a + b + 1) (SFmul 53 1024 x y).
Proof.
  intros Hx Hy Hr.
  destruct x as [sx|sx| |sx mx ex]; destruct y as [sy|sy| |sy my ey];
    cbn [fbnd SFmul] in *; try contradiction; try exact I.
  apply binary_round_aux_bound; [lia| |lia].
  destruct Hx as [Hx1 Hx2]. destruct Hy as [Hy1 Hy2].
  assert (Hd : Zdigits2 (Zpos (mx * my)) <=
               Zpos (digits2_pos mx) + Zpos (digits2_pos my)).
  { apply Zdigits2_le_iff; [lia|lia|].
    rewrite Pos2Z.inj_mul, Z.pow_add_r by lia.
    pose proof (Zdigits2_lt_pow (Zpos mx) ltac:(lia)).
    pose proof (Zdigits2_lt_pow (Zpos my) ltac:(lia)).
    cbn [Zdigits2] in *. nia. }
  lia.
Qed.

Lemma cond_Zopp_abs (s : bool) (m : Z) : Z.abs (cond_Zopp s m) = Z.abs m.
Proof. destruct s; cbn; lia. Qed.

Lemma aligned_sum_bound (a b : Z) (sx sy : bool) (mx my : positive)
  (ex ey : Z) (op : Z -> Z -> Z) :
  (forall u v, Z.abs (op u v) <= Z.abs u + Z.abs v) ->
  Zpos (digits2_pos mx) + ex <= a -> Zpos (digits2_pos my) + ey <= b ->
  Zdigits2 (op (cond_Zopp sx (Zpos (fst (shl_align mx ex (Z.min ex ey)))))
               (cond_Zopp sy (Zpos (fst (shl_align my ey (Z.min ex ey))))))
  + Z.min ex ey <= Z.max a b + 1.
Proof.
  intros Hop Hx Hy.
  pose proof (shl_align_bound mx ex (Z.min ex ey) ltac:(lia)) as HA.
  pose proof (shl_align_bound my ey (Z.min ex ey) ltac:(lia)) as HB.
  set (A := Zpos (fst (shl_align mx ex (Z.min ex ey)))) in *.
  set (B := Zpos (fst (shl_align my ey (Z.min ex ey)))) in *.
  cbn [Zdigits2] in HA, HB.
  pose proof (Zdigits2_lt_pow A ltac:(unfold A; lia)) as HAl.
  pose proof (Zdigits2_lt_pow B ltac:(unfold B; lia)) as HBl.
  pose proof (Zdigits2_pos A ltac:(unfold A; lia)) as HAp.
  pose proof (Zdigits2_pos B ltac:(unfold B; lia)) as HBp.
  set (d := Z.max (Zdigits2 A) (Zdigits2 B)).
  assert (Hd : Zdigits2 (op (cond_Zopp sx A) (cond_Zopp sy B)) <= d + 1).
  { apply Zdigits2_abs_le; [lia|].
    eapply Z.le_lt_trans; [apply Hop|].
    rewrite !cond_Zopp_abs.
    assert (2 ^ Zdigits2 A <= 2 ^ d) by (apply Z.pow_le_mono_r; lia).
    assert (2 ^ Zdigits2 B <= 2 ^ d) by (apply Z.pow_le_mono_r; lia).
    rewrite Z.pow_add_r by lia. change (2 ^ 1) with 2. lia. }
  lia.
Qed.

Lemma fbnd_add (a b : Z) (x y : spec_float) :
  fbnd a x -> fbnd b y -> -1074 <= Z.max a b + 1 <= 971 ->
  fbnd (Z.max a b + 2) (SFadd 53 1024 x y).
Proof.
  intros Hx Hy Hr.
  destruct x as [sx|sx| |sx mx ex]; destruct y as [sy|sy| |sy my ey];
    cbn [fbnd SFadd] in *; try contradiction.
  - destruct sx, sy; exact I.
  - cbn [fbnd]. lia.
  - cbn [fbnd]. lia.
  - replace (Z.max a b + 2) with (Z.max a b + 1 + 1) by lia.
    apply binary_normalize_bound; [|lia].
    apply aligned_sum_bound; [intros; lia|lia|lia].
Qed.

Lemma fbnd_sub (a b : Z) (x y : spec_float) :
  fbnd a x -> fbnd b y -> -1074 <= Z.max a b + 1 <= 971 ->
  fbnd (Z.max a b + 2) (SFsub 53 1024 x y).
Proof.
  intros Hx Hy Hr.
  destruct x as [sx|sx| |sx mx ex]; destruct y as [sy|sy| |sy my ey];
    cbn [fbnd SFsub] in *; try contradiction.
  - destruct sx, sy; exact I.
  - cbn [fbnd]. lia.
  - cbn [fbnd]. lia.
  - replace (Z.max a b + 2) with (Z.max a b + 1 + 1) by lia.
    apply binary_normalize_bound; [|lia].
    apply aligned_sum_bound; [intros; lia|lia|lia].
Qed.

(** The quotient of the mantissas that [SFdiv] rounds. *)
Lemma div_core_bound (mx my : positive) (ex ey : Z) :
  let D := Zpos (digits2_pos mx) + ex - (Zpos (digits2_pos my) + ey) in
  let '(q, e', _) := SFdiv_core_binary 53 1024 (Zpos mx) ex (Zpos my) ey in
  0 <= q /\ Zdigits2 q + e' <= Z.max (D + 1) (-1074).
Proof.
  intros D. unfold SFdiv_core_binary. cbn [Zdigits2]. fold D.
  set (e' := Z.min (fexp 53 1024 D) (ex - ey)).
  set (s := ex - ey - e').
  assert (Hs : 0 <= s) by (unfold s, e'; lia).
  assert (He' : e' <= Z.max (D - 53) (-1074))
    by (unfold e', fexp, emin; lia).
  set (m' := match s with
             | 0 => Zpos mx
             | Zpos _ => Z.shiftl (Zpos mx) s
             | Zneg _ => 0
             end).
  assert (Hm' : m' = Zpos mx * 2 ^ s).
  { unfold m'. destruct s as [|p|p] eqn:Es; [cbn; lia| |lia].
    now rewrite Z.shiftl_mul_pow2 by lia. }
  pose proof (Z_div_mod m' (Zpos my) ltac:(lia)) as Hdm.
  destruct (Z.div_eucl m' (Zpos my)) as [q r].
  destruct Hdm as [Heq Hr].
  assert (Hp : 0 < 2 ^ s) by (apply Z.pow_pos_nonneg; lia).
  assert (Hq : 0 <= q) by nia.
  split; [exact Hq|].
  pose proof (Zdigits2_lt_pow (Zpos mx) ltac:(lia)) as Hx.
  pose proof (Zdigits2_ge_pow (Zpos my) ltac:(lia)) as Hy.
  cbn [Zdigits2] in Hx, Hy.
  set (dx := Zpos (digits2_pos mx)) in *.
  set (dy := Zpos (digits2_pos my)) in *.
  assert (Hdx : 1 <= dx) by (unfold dx; lia).
  assert (Hdy : 1 <= dy) by (unfold dy; lia).
  assert (Hqm : q * 2 ^ (dy - 1) < 2 ^ (dx + s)).
  { rewrite (Z.pow_add_r 2 dx s) by lia.
    assert (0 < 2 ^ (dy - 1)) by (apply Z.pow_pos_nonneg; lia).
    nia. }
  destruct (Z_le_gt_dec 0 (dx + s - dy + 1)) as [Hge|Hlt].
  - assert (Hd : Zdigits2 q <= dx + s - dy + 1).
    { apply Zdigits2_le_iff; [assumption|assumption|].
      replace (dx + s) with ((dx + s - dy + 1) + (dy - 1)) in Hqm by lia.
      rewrite Z.pow_add_r in Hqm by lia.
      assert (0 < 2 ^ (dy - 1)) by (apply Z.pow_pos_nonneg; lia).
      nia. }
    unfold s in Hd. unfold D. lia.
  - assert (Hq0 : q = 0).
    { assert (2 ^ (dx + s) <= 2 ^ (dy - 1)) by (apply Z.pow_le_mono_r; lia).
      assert (0 < 2 ^ (dy - 1)) by (apply Z.pow_pos_nonneg; lia).
      nia. }
    subst q. cbn [Zdigits2]. lia.
Qed.

Lemma fbnd_div (a c : Z) (x : spec_float) (sy : bool) (my : positive) (ey : Z) :
  fbnd a x -> c <= Zpos (digits2_pos my) + ey ->
  -1074 <= a - c + 1 <= 971 ->
  fbnd (a - c + 2) (SFdiv 53 1024 x (S754_finite sy my ey)).
Proof.
  intros Hx Hc Hr.
  destruct x as [sx|sx| |sx mx ex]; cbn [fbnd SFdiv] in *;
    try contradiction; try exact I.
  pose proof (div_core_bound mx my ex ey) as Hcore. cbv zeta in Hcore.
  destruct (SFdiv_core_binary 53 1024 (Zpos mx) ex (Zpos my) ey)
    as [[q e'] l].
  destruct Hcore as [Hq Hd].
  replace (a - c + 2) with (a - c + 1 + 1) by lia.
  apply binary_round_aux_bound; lia.
Qed.

(** [float(n)] for an integer below [2^j]. *)
Lemma fbnd_of_Z (n j : Z) :
  Z.abs n < 2 ^ j -> 0 <= j <= 971 ->
  fbnd (j + 1) (binary_normalize 53 1024 n 0 false).
Proof.
  intros Hn Hj. apply binary_normalize_bound; [|lia].
  pose proof (Zdigits2_abs_le n j ltac:(lia) Hn). lia.
Qed.

(** ** Bounds of the compensation formulas *)

Lemma fbnd_div_by (a c : Z) (x y : float) :
  fbnd a x -> exponent_of y = Some c -> -1074 <= a - c + 1 <= 971 ->
  fbnd (a - c + 2) (x / y)%F.
Proof.
  intros Hx Hy Hr. destruct y as [s|s| |s m e]; try discriminate.
  injection Hy as <-. now apply fbnd_div.
Qed.

(** Derives [fbnd ?k e] for an expression [e] built with the float
    operations from literals and from operands bounded in the context. *)
Ltac closed_range := vm_compute; split; discriminate.

Ltac fbnd_leaf :=
  match goal with
  | H : fbnd _ ?x |- fbnd _ ?x => exact H
  | |- fbnd _ (Zf ?n) =>
      let j := eval vm_compute in (Z.log2 (Z.abs n) + 1) in
      apply (fbnd_of_Z n j); [vm_compute; reflexivity | lia]
  end.

Ltac fbnd_expr :=
  lazymatch goal with
  | |- fbnd _ (F64.add _ _) =>
      eapply fbnd_add; [fbnd_expr | fbnd_expr | closed_range]
  | |- fbnd _ (F64.sub _ _) =>
      eapply fbnd_sub; [fbnd_expr | fbnd_expr | closed_range]
  | |- fbnd _ (F64.mul _ _) =>
      eapply fbnd_mul; [fbnd_expr | fbnd_expr | closed_range]
  | |- fbnd _ (F64.div _ _) =>
      eapply fbnd_div_by;
      [fbnd_expr | vm_compute; reflexivity | closed_range]
  | |- _ => fbnd_leaf
  end.

Lemma fine_temperature_bound (raw : Z) (self : BMP280) :
  0 <= raw < 2 ^ 20 ->
  fbnd 17 (dig_T1 self) -> fbnd 17 (dig_T2 self) -> fbnd 17 (dig_T3 self) ->
  fbnd 37 (fine_temperature raw self).
Proof.
  intros Hraw H1 H2 H3.
  assert (Hr : fbnd 21 (Zf raw)).
  { apply (fbnd_of_Z raw 20); lia. }
  eapply fbnd_weaken.
  - unfold fine_temperature, spec_var1, spec_var2, sq. fbnd_expr.
  - vm_compute. discriminate.
Qed.

Lemma humidity_percent_bound (raw : Z) (t : float) (self : BME280) :
  0 <= raw < 2 ^ 16 -> fbnd 37 t ->
  fbnd 17 (dig_H1 self) -> fbnd 17 (dig_H2 self) -> fbnd 17 (dig_H3 self) ->
  fbnd 17 (dig_H4 self) -> fbnd 17 (dig_H5 self) -> fbnd 17 (dig_H6 self) ->
  fbnd 300 (humidity_percent raw t self).
Proof.
  intros Hraw Ht H1 H2 H3 H4 H5 H6.
  assert (Hr : fbnd 17 (Zf raw)).
  { apply (fbnd_of_Z raw 16); lia. }
  eapply fbnd_weaken.
  - unfold humidity_percent. cbv zeta. fbnd_expr.
  - vm_compute. discriminate.
Qed.

Lemma humidity_percent_zero (t : float) (self : BME280) :
  fbnd 37 t ->
  dig_H1 self = Zf 0 -> dig_H2 self = Zf 0 -> dig_H3 self = Zf 0 ->
  dig_H4 self = Zf 0 -> dig_H5 self = Zf 0 -> dig_H6 self = Zf 0 ->
  humidity_percent 0 t self = Zf 0.
Proof.
  intros Ht H1 H2 H3 H4 H5 H6.
  assert (Hv : fbnd 39 (t - Zf 76800)%F).
  { eapply fbnd_weaken; [fbnd_expr|vm_compute; discriminate]. }
  unfold humidity_percent. cbv zeta. rewrite H1, H2, H3, H4, H5, H6.
  destruct (t - Zf 76800)%F as [s|s| |s m e]; try contradiction.
  - destruct s; vm_compute; reflexivity.
  - destruct s; cbv; reflexivity.
Qed.

(** ** Rounding a percentage to 3 decimals *)

Lemma all_upto_spec (f : positive -> bool) (n : nat) (k : positive) :
  all_upto f n k = true ->
  forall j : positive, (k <= j)%positive -> (Zpos j < Zpos k + Z.of_nat n) ->
  f j = true.
Proof.
  revert k. induction n as [|n IH]; intros k H j Hkj Hj.
  - lia.
  - cbn [all_upto] in H. apply andb_prop in H. destruct H as [Hk Hrest].
    destruct (Pos.eq_dec j k) as [->|Hne]; [exact Hk|].
    apply (IH (Pos.succ k) Hrest); lia.
Qed.

(** Every [k / 1000] with [1 <= k <= 100000], read as the nearest float,
    lies in [0.0, 100.0]: checked value by value. *)
Lemma thousandths_ok :
  all_upto (fun k => percent_ok (thousandth k)) (Z.to_nat 100000) 1 = true.
Proof. vm_compute. reflexivity. Qed.


(** Rounding [n / d] to an integer does not pass an integer bound. *)
Lemma round_half_even_div_le (n d B : Z) :
  0 <= n -> 0 < d -> 0 <= B -> n <= B * d ->
  0 <= F64.round_half_even_div n d <= B.
Proof.
  intros Hn Hd HB Hle. unfold F64.round_half_even_div.
  pose proof (Z.div_mod n d ltac:(lia)) as Hdm.
  pose proof (Z.mod_pos_bound n d Hd) as Hr.
  assert (Hq0 : 0 <= n / d) by (apply Z.div_pos; lia).
  assert (HqB : n / d <= B) by nia.
  assert (Hlast : n / d = B -> n mod d = 0) by nia.
  destruct (Z.compare_spec (2 * (n mod d)) d) as [He|Hl|Hg].
  - destruct (Z.even (n / d)); [lia|].
    destruct (Z.eq_dec (n / d) B) as [HeqB|]; [|lia].
    specialize (Hlast HeqB). lia.
  - lia.
  - destruct (Z.eq_dec (n / d) B) as [HeqB|]; [|lia].
    specialize (Hlast HeqB). lia.
Qed.


Lemma thousandth_ok (k : positive) :
  Zpos k <= 100000 -> percent_ok (thousandth k) = true.
Proof.
  intros Hk.
  pose proof (all_upto_spec (fun k => percent_ok (thousandth k))
                (Z.to_nat 100000) 1 thousandths_ok k) as H.
  cbv beta in H. apply H.
  - lia.
  - rewrite Z2Nat.id; lia.
Qed.

(** A positive float that is not above [100.0] has the exponent of
    [100.0] and a smaller mantissa, or a smaller exponent. *)
Lemma ltb_100_false (m : positive) (e : Z) :
  F64.ltb (Zf 100) (S754_finite false m e) = false ->
  e < -46 \/ (e = -46 /\ Zpos m <= 7036874417766400).
Proof.
  intros Hlt.
  change (Zf 100) with (S754_finite false 7036874417766400 (-46)) in Hlt.
  unfold F64.ltb, SFltb in Hlt. cbn [SFcompare] in Hlt.
  destruct (Z.compare_spec (-46) e) as [Heq|Hl|Hg].
  - right. split; [lia|].
    change (Pos.compare_cont Eq 7036874417766400 m)
      with (Pos.compare 7036874417766400 m) in Hlt.
    destruct (Pos.compare_spec 7036874417766400 m) as [E|L|G].
    + rewrite <- E. apply Z.le_refl.
    + discriminate.
    + apply Z.lt_le_incl. exact G.
  - discriminate.
  - left. lia.
Qed.

Lemma scaled_digits_percent (m : positive) (e : Z) :
  Zpos (digits2_pos m) <= 53 ->
  F64.ltb (Zf 100) (S754_finite false m e) = false ->
  0 <= F64.scaled_digits m e 3 <= 100000.
Proof.
  intros Hd Hlt.
  assert (Hm : Zpos m < 2 ^ 53).
  { apply (Zdigits2_le_iff (Zpos m) 53); cbn [Zdigits2]; lia. }
  pose proof (ltb_100_false m e Hlt) as He. clear Hlt.
  unfold F64.scaled_digits.
  destruct (0 <=? e) eqn:E0; [apply Z.leb_le in E0; lia|]. clear E0.
  change (10 ^ 3) with 1000.
  assert (Hpp : 0 < 2 ^ (- e)) by (apply Z.pow_pos_nonneg; lia).
  apply round_half_even_div_le; [lia|exact Hpp|lia|].
  destruct He as [He|[-> Hm100]].
  - assert (Hp2 : 2 ^ 47 <= 2 ^ (- e)) by (apply Z.pow_le_mono_r; lia).
    change (2 ^ 53) with (64 * 2 ^ 47) in Hm.
    revert Hp2 Hm. generalize (2 ^ (- e)). generalize (2 ^ 47).
    intros a b. nia.
  - change (2 ^ (- -46)) with 70368744177664.
    revert Hm100. generalize (Zpos m). intros a Ha.
    apply Z.le_trans with (7036874417766400 * 1000); [|vm_compute; discriminate].
    apply Z.mul_le_mono_nonneg_r; [vm_compute; discriminate|exact Ha].
Qed.

Lemma round3_percent (m : positive) (e : Z) :
  Zpos (digits2_pos m) <= 53 ->
  F64.ltb (Zf 100) (S754_finite false m e) = false ->
  percent_ok (F64.round (S754_finite false m e) 3) = true.
Proof.
  intros Hd Hlt. pose proof (scaled_digits_percent m e Hd Hlt) as Hk.
  unfold F64.round.
  destruct (F64.scaled_digits m e 3) as [|k|k]; [reflexivity| |lia].
  apply thousandth_ok. lia.
Qed.

(** The last two steps of [humidity] on a finite value. *)
Lemma clamp_round_percent (k : Z) (v : float) :
  fbnd k v -> percent_ok (F64.round (clamp v) 3) = true.
Proof.
  intros Hv. destruct v as [s|s| |s m e]; try contradiction.
  - destruct s; reflexivity.
  - destruct Hv as [Hd _]. unfold clamp.
    destruct (F64.ltb (Zf 100) (S754_finite s m e)) eqn:Hhi;
      [reflexivity|].
    destruct (F64.ltb (S754_finite s m e) (Zf 0)) eqn:Hlo;
      [reflexivity|].
    destruct s; [discriminate Hlo|].
    now apply round3_percent.
Qed.

(** ** Reachable objects are bounded *)

Lemma preserves_bind {S A B} (P : S -> Prop) (m : M S A) (k : A -> M S B) :
  preserves P m -> (forall a, preserves P (k a)) -> preserves P (bind m k).
Proof.
  intros Hm Hk s Hs. unfold bind. specialize (Hm s Hs).
  destruct (m s) as [[a|e] s']; cbn [snd] in *; [now apply Hk|exact Hm].
Qed.

Lemma preserves_ret {S A} (P : S -> Prop) (a : A) : preserves P (ret a).
Proof. intros s Hs. exact Hs. Qed.

Lemma preserves_lift {S A} (P : S -> Prop) (r : result A) :
  preserves P (lift r).
Proof. intros s Hs. exact Hs. Qed.

Lemma preserves_get {S} (P : S -> Prop) : preserves P (@get S).
Proof. intros s Hs. exact Hs. Qed.

Lemma preserves_modify {S} (P : S -> Prop) (f : S -> S) :
  (forall s, P s -> P (f s)) -> preserves P (modify f).
Proof. intros Hf s Hs. now apply Hf. Qed.

Lemma preserves_read_block (P : BMP280 -> Prop) bus cmd len :
  preserves P (read_block bus cmd len).
Proof.
  unfold read_block. apply preserves_bind; [apply preserves_get|].
  intros a. apply preserves_lift.
Qed.

Lemma preserves_super {A} (P : BMP280 -> Prop) (Q : BME280 -> Prop)
  (m : M BMP280 A) :
  preserves P m ->
  (forall self, Q self -> P (base self)) ->
  (forall self b, Q self -> P b -> Q (set_base b self)) ->
  preserves Q (super m).
Proof.
  intros Hm H1 H2 self Hq. rewrite super_run. cbn [snd].
  apply H2; [exact Hq|]. apply Hm. now apply H1.
Qed.

Lemma c_ushort_range (v : Z) : 0 <= c_ushort v < 65536.
Proof. unfold c_ushort. apply Z.mod_pos_bound. lia. Qed.

Lemma c_short_range (v : Z) : -32768 <= c_short v < 32768.
Proof.
  unfold c_short. pose proof (Z.mod_pos_bound (v + 32768) 65536). lia.
Qed.

Lemma c_ubyte_range (v : Z) : 0 <= c_ubyte v < 256.
Proof. unfold c_ubyte. apply Z.mod_pos_bound. lia. Qed.

Lemma c_byte_range (v : Z) : -128 <= c_byte v < 128.
Proof.
  unfold c_byte. pose proof (Z.mod_pos_bound (v + 128) 256). lia.
Qed.

Lemma fbnd_Zf16 (v : Z) : -65536 < v < 65536 -> fbnd 17 (Zf v).
Proof. intros Hv. apply (fbnd_of_Z v 16); lia. Qed.

Lemma fbnd_c_ushort (v : Z) : fbnd 17 (Zf (c_ushort v)).
Proof. pose proof (c_ushort_range v). apply fbnd_Zf16. lia. Qed.

Lemma fbnd_c_short (v : Z) : fbnd 17 (Zf (c_short v)).
Proof. pose proof (c_short_range v). apply fbnd_Zf16. lia. Qed.

Lemma fbnd_c_ubyte (v : Z) : fbnd 17 (Zf (c_ubyte v)).
Proof. pose proof (c_ubyte_range v). apply fbnd_Zf16. lia. Qed.

Lemma fbnd_c_byte (v : Z) : fbnd 17 (Zf (c_byte v)).
Proof. pose proof (c_byte_range v). apply fbnd_Zf16. lia. Qed.

Ltac assigns_bounded :=
  let s := fresh "s" in
  let H := fresh "H" in
  intros s H; unfold bounded_state, bounded_base in *; cbn;
  repeat split; try apply H;
  first [apply fbnd_c_ushort | apply fbnd_c_short
        | apply fbnd_c_ubyte | apply fbnd_c_byte].

Ltac steps_preserve :=
  repeat first
    [ apply preserves_ret
    | apply preserves_lift
    | apply preserves_read_block
    | apply preserves_modify; assigns_bounded
    | apply preserves_modify; intros ? ?; assumption
    | apply preserves_bind; [|intro] ].

(** [calibrate] stores floats of 16-bit integers, also when it raises
    half way. *)
Lemma calibrate_bounded (bus : I2CBus) :
  preserves bounded_base (calibrate bus).
Proof.
  unfold calibrate. steps_preserve.
Qed.

Lemma calibrateH_bounded (bus : I2CBus) :
  preserves bounded_state (calibrateH bus).
Proof.
  unfold calibrateH.
  assert (Hsup : forall A (m : M BMP280 A),
             preserves bounded_base m -> preserves bounded_state (super m)).
  { intros A m Hm. apply (preserves_super bounded_base); [exact Hm| |].
    - intros self H. apply H.
    - intros self b H Hb. unfold bounded_state in *. cbn. tauto. }
  apply preserves_bind; [apply Hsup, calibrate_bounded|intro].
  apply preserves_bind; [apply Hsup, preserves_read_block|intro].
  apply preserves_bind; [apply Hsup, preserves_read_block|intro].
  steps_preserve.
Qed.

Lemma u16le_range (data : list byte) (i : nat) : 0 <= u16le data i < 65536.
Proof.
  unfold u16le. pose proof (byte_val_range (nth i data x00)).
  pose proof (byte_val_range (nth (S i) data x00)). lia.
Qed.

Lemma s16le_range (data : list byte) (i : nat) :
  -32768 <= s16le data i < 32768.
Proof.
  unfold s16le. pose proof (u16le_range data i).
  destruct (u16le data i <? 32768) eqn:E;
    [apply Z.ltb_lt in E | apply Z.ltb_ge in E]; lia.
Qed.

Lemma s8_range (b : byte) : -128 <= s8 b < 128.
Proof.
  unfold s8. pose proof (byte_val_range b).
  destruct (byte_val b <? 128) eqn:E;
    [apply Z.ltb_lt in E | apply Z.ltb_ge in E]; lia.
Qed.

Lemma decoded_bounded (alt : bool) (data dataH1 dataHX : list byte) :
  bounded_state (with_hcoeffs (decodeH dataH1 dataHX)
                   (with_coeffs (decode data) (fresh alt))).
Proof.
  unfold bounded_state, bounded_base. cbn.
  pose proof (decodeH_H4_H5_range dataH1 dataHX) as [H4r H5r].
  cbn in H4r, H5r.
  repeat split; try discriminate; apply fbnd_Zf16;
    first [ pose proof (u16le_range data 0); lia
          | pose proof (s16le_range data 2); lia
          | pose proof (s16le_range data 4); lia
          | pose proof (s16le_range dataHX 0); lia
          | pose proof (byte_val_range (nth 0 dataH1 x00)); lia
          | pose proof (byte_val_range (nth 2 dataHX x00)); lia
          | pose proof (s8_range (nth 6 dataHX x00)); lia
          | lia ].
Qed.

Lemma calibrateH_bus_error_H1 (bus : I2CBus) (self : BME280)
  (data : list byte) (errno : Z) :
  (24 <= length data)%nat ->
  bus (addr (base self)) CALIBRATION 24 = Data data ->
  bus (addr (base self)) CALIBRATION_H1 1 = NoReply errno ->
  fst (calibrateH bus self) = Raise (I2CError errno).
Proof.
  intros Hlen Hbus Hbus1.
  unfold calibrateH. unfold bind at 1.
  rewrite super_run, (calibrate_decode_prefix bus _ data Hlen Hbus).
  cbn [fst snd].
  unfold read_block. run_method. rewrite !super_run.
  cbn [fst snd base set_base addr with_coeffs].
  rewrite Hbus1. reflexivity.
Qed.

Lemma calibrateH_bus_error_HX (bus : I2CBus) (self : BME280)
  (data dataH1 : list byte) (errno : Z) :
  (24 <= length data)%nat ->
  bus (addr (base self)) CALIBRATION 24 = Data data ->
  bus (addr (base self)) CALIBRATION_H1 1 = Data dataH1 ->
  bus (addr (base self)) CALIBRATION_HX 7 = NoReply errno ->
  fst (calibrateH bus self) = Raise (I2CError errno).
Proof.
  intros Hlen Hbus Hbus1 HbusX.
  unfold calibrateH. unfold bind at 1.
  rewrite super_run, (calibrate_decode_prefix bus _ data Hlen Hbus).
  cbn [fst snd].
  unfold read_block. run_method. rewrite !super_run.
  cbn [fst snd base set_base addr with_coeffs].
  rewrite Hbus1. cbv beta iota. cbn [fst snd base set_base addr with_coeffs].
  rewrite HbusX. reflexivity.
Qed.

Lemma calibrateH_bus_error (bus : I2CBus) (self : BME280) (errno : Z) :
  bus (addr (base self)) CALIBRATION 24 = NoReply errno ->
  fst (calibrateH bus self) = Raise (I2CError errno).
Proof.
  intros Hbus. unfold calibrateH. unfold bind at 1.
  rewrite super_run, (calibrate_bus_error bus _ errno Hbus). reflexivity.
Qed.

(** A successful construction has decoded all three blocks. *)
Lemma BME280_init_inv (bus : I2CBus) (alt : bool) (self : BME280) :
  BME280_init bus alt = Ok self ->
  exists data dataH1 dataHX,
    self = with_hcoeffs (decodeH dataH1 dataHX)
             (with_coeffs (decode data) (fresh alt)).
Proof.
  unfold BME280_init. intros Hinit.
  assert (Hok : forall e, fst (calibrateH bus (freshH alt)) <> Raise e).
  { intros e He. destruct (calibrateH bus (freshH alt)) as [[u|e'] s];
      [discriminate He|discriminate Hinit]. }
  destruct (bus (addr (base (freshH alt))) CALIBRATION 24)
    as [data|errno] eqn:Hbus.
  2:{ exfalso. exact (Hok _ (calibrateH_bus_error bus _ errno Hbus)). }
  destruct (le_lt_dec 24 (length data)) as [Hlen|Hlen].
  2:{ exfalso. exact (Hok _ (calibrateH_short_base bus _ data Hlen Hbus)). }
  destruct (bus (addr (base (freshH alt))) CALIBRATION_H1 1)
    as [dataH1|errno] eqn:Hbus1.
  2:{ exfalso.
      exact (Hok _ (calibrateH_bus_error_H1 bus _ data errno Hlen Hbus Hbus1)). }
  destruct (bus (addr (base (freshH alt))) CALIBRATION_HX 7)
    as [dataHX|errno] eqn:HbusX.
  2:{ exfalso.
      exact (Hok _ (calibrateH_bus_error_HX bus _ data dataH1 errno
                      Hlen Hbus Hbus1 HbusX)). }
  destruct (le_lt_dec 1 (length dataH1)) as [Hlen1|Hlen1].
  2:{ exfalso.
      exact (Hok _ (calibrateH_short bus _ data dataH1 dataHX Hlen
                      (or_introl Hlen1) Hbus Hbus1 HbusX)). }
  destruct (le_lt_dec 7 (length dataHX)) as [HlenX|HlenX].
  2:{ exfalso.
      exact (Hok _ (calibrateH_short bus _ data dataH1 dataHX Hlen
                      (or_intror HlenX) Hbus Hbus1 HbusX)). }
  rewrite (calibrateH_decode bus _ data dataH1 dataHX
             Hlen Hlen1 HlenX Hbus Hbus1 HbusX) in Hinit.
  injection Hinit as <-. now exists data, dataH1, dataHX.
Qed.

Lemma raw20_inv (data : list byte) (raw : Z) :
  raw20 data = Ok raw -> 0 <= raw < 2 ^ 20.
Proof.
  intros Hraw.
  destruct (le_lt_dec 3 (length data)) as [Hlen|Hlen].
  - rewrite (raw20_nth data Hlen) in Hraw. injection Hraw as <-.
    apply raw20_val_range.
  - exfalso. unfold raw20 in Hraw.
    destruct data as [|b0 [|b1 [|b2 data]]]; cbn in Hraw, Hlen;
      try discriminate. lia.
Qed.

Lemma temperature_bounded (bus : I2CBus) :
  preserves bounded_base (temperature bus).
Proof.
  intros s Hs. rewrite temperature_cases.
  destruct (bus (addr s) TEMP 3) as [data|errno]; [|exact Hs].
  destruct (raw20 data) as [raw|e] eqn:Hraw; [|exact Hs].
  cbn [snd]. destruct Hs as (H1 & H2 & H3 & Ht).
  unfold bounded_base. cbn [dig_T1 dig_T2 dig_T3 t_fine set_t_fine].
  repeat split; try assumption.
  intros t [= <-].
  apply fine_temperature_bound; try assumption.
  exact (raw20_inv data raw Hraw).
Qed.

Lemma temperature_sets_t_fine (bus : I2CBus) (s : BMP280) (T : float) :
  fst (temperature bus s) = Ok T ->
  exists t, t_fine (snd (temperature bus s)) = Some t.
Proof.
  rewrite temperature_cases.
  destruct (bus (addr s) TEMP 3) as [data|errno]; [|discriminate].
  destruct (raw20 data) as [raw|e]; [|discriminate].
  intros _. cbn. eauto.
Qed.

(** [pressure] and [humidity] leave the object as it was or as
    [temperature] leaves it. *)
Lemma pressure_state (bus : I2CBus) (upd : bool) (s : BMP280) :
  snd (pressure bus upd s) = s \/
  snd (pressure bus upd s) = snd (temperature bus s).
Proof.
  destruct (refresh_or_reuse (t_fine s) upd) as [Hc|[-> [t Ht]]].
  - right. rewrite (pressure_refresh bus upd s Hc). unfold bind.
    pose proof (temperature_sets_t_fine bus s) as Hset.
    destruct (temperature bus s) as [[T|e] s']; cbn [fst snd] in *;
      [|reflexivity].
    destruct (Hset T eq_refl) as [t Ht].
    exact (proj1 (pressure_reuse_no_TypeError bus s' t Ht)).
  - left. exact (proj1 (pressure_reuse_no_TypeError bus s t Ht)).
Qed.

Lemma humidity_state (bus : I2CBus) (upd : bool) (s : BME280) :
  snd (humidity bus upd s) = s \/
  snd (humidity bus upd s) = snd (super (temperature bus) s).
Proof.
  destruct (refresh_or_reuse (t_fine (base s)) upd) as [Hc|[-> [t Ht]]].
  - right. rewrite (humidity_refresh bus upd s Hc). unfold bind.
    rewrite super_run.
    pose proof (temperature_sets_t_fine bus (base s)) as Hset.
    destruct (temperature bus (base s)) as [[T|e] s']; cbn [fst snd] in *;
      [|reflexivity].
    destruct (Hset T eq_refl) as [t Ht].
    exact (proj1 (humidity_reuse_no_TypeError bus (set_base s' s) t Ht)).
  - left. exact (proj1 (humidity_reuse_no_TypeError bus s t Ht)).
Qed.

Lemma super_bounded {A} (m : M BMP280 A) :
  preserves bounded_base m -> preserves bounded_state (super m).
Proof.
  intros Hm. apply (preserves_super bounded_base); [exact Hm| |].
  - intros self H. apply H.
  - intros self b H Hb. unfold bounded_state in *. cbn. tauto.
Qed.

Lemma pressure_bounded (bus : I2CBus) (upd : bool) :
  preserves bounded_base (pressure bus upd).
Proof.
  intros s Hs. destruct (pressure_state bus upd s) as [->| ->];
    [exact Hs | now apply temperature_bounded].
Qed.

Lemma humidity_bounded (bus : I2CBus) (upd : bool) :
  preserves bounded_state (humidity bus upd).
Proof.
  intros s Hs. destruct (humidity_state bus upd s) as [->| ->];
    [exact Hs | exact (super_bounded _ (temperature_bounded bus) s Hs)].
Qed.

(** The invariant of the reachable objects. *)
Lemma reachable_bounded (self : BME280) : reachable self -> bounded_state self.
Proof.
  induction 1 as [bus alt self Hinit|bus self _ IH|bus self _ IH
                 |bus upd self _ IH|bus upd self _ IH].
  - destruct (BME280_init_inv bus alt self Hinit) as (d & d1 & dx & ->).
    apply decoded_bounded.
  - now apply calibrateH_bounded.
  - exact (super_bounded _ (temperature_bounded bus) self IH).
  - exact (super_bounded _ (pressure_bounded bus upd) self IH).
  - now apply humidity_bounded.
Qed.

Lemma humidity_result_percent (raw : Z) (t : float) (self : BME280) :
  bounded_state self -> fbnd 37 t -> 0 <= raw < 2 ^ 16 ->
  percent_ok (humidity_result raw t self) = true.
Proof.
  intros (_ & H1 & H2 & H3 & H4 & H5 & H6) Ht Hraw.
  unfold humidity_result.
  apply (clamp_round_percent 300).
  now apply humidity_percent_bound.
Qed.

Lemma humidity_result_zero (t : float) (self : BME280) :
  fbnd 37 t ->
  dig_H1 self = Zf 0 -> dig_H2 self = Zf 0 -> dig_H3 self = Zf 0 ->
  dig_H4 self = Zf 0 -> dig_H5 self = Zf 0 -> dig_H6 self = Zf 0 ->
  humidity_result 0 t self = Zf 0.
Proof.
  intros Ht H1 H2 H3 H4 H5 H6. unfold humidity_result.
  now rewrite humidity_percent_zero.
Qed.

Lemma raw16_val_range (data : list byte) : 0 <= raw16_val data < 2 ^ 16.
Proof.
  unfold raw16_val.
  pose proof (byte_val_range (nth 0 data x00)).
  pose proof (byte_val_range (nth 1 data x00)).
  rewrite Z.shiftl_mul_pow2 by lia. change (2 ^ 8) with 256.
  change (2 ^ 16) with 65536. lia.
Qed.

(** C2: on every reachable BME280 object, with the samples it reads
    available, [humidity] returns the compensated value clamped to
    [0.0, 100.0] and then rounded to 3 decimals, and that value [r]
    satisfies [0.0 <= r <= 100.0] (so it is not NaN): the compensated value
    is finite and the rounding stays within the range.  On the refresh path
    the fine temperature used is that of the temperature sample just read
    and it is left in [t_fine]; on the reuse path it is the stored one, the
    temperature registers are not read and the object is as before.  With
    raw = 0 and H1..H6 all zero the result is [0.0]. *)
Theorem humidity_in_range
  (bus : I2CBus) (upd : bool) (self : BME280) (dataT dataH : list byte) :
  reachable self ->
  (2 <= length dataH)%nat ->
  bus (addr (base self)) HUM 2 = Data dataH ->
  (is_None (t_fine (base self)) || upd = true ->
   (3 <= length dataT)%nat ->
   bus (addr (base self)) TEMP 3 = Data dataT ->
   let t := fine_temperature (raw20_val dataT) (base self) in
   let r := F64.round (clamp (humidity_percent (raw16_val dataH) t self)) 3 in
   humidity bus upd self =
   (Ok r, set_base (set_t_fine (Some t) (base self)) self) /\
   F64.leb (Zf 0) r = true /\ F64.leb r (Zf 100) = true /\
   (all_H_zero self -> raw16_val dataH = 0 -> r = Zf 0)) /\
  (forall t : float,
      upd = false -> t_fine (base self) = Some t ->
      let r :=
        F64.round (clamp (humidity_percent (raw16_val dataH) t self)) 3 in
      humidity bus upd self = (Ok r, self) /\
      F64.leb (Zf 0) r = true /\ F64.leb r (Zf 100) = true /\
      (all_H_zero self -> raw16_val dataH = 0 -> r = Zf 0)).
Proof.
  intros Hreach HlH HH.
  pose proof (reachable_bounded self Hreach) as Hb.
  assert (Hrange : forall t, fbnd 37 t ->
            let r := humidity_result (raw16_val dataH) t self in
            F64.leb (Zf 0) r = true /\ F64.leb r (Zf 100) = true /\
            (all_H_zero self -> raw16_val dataH = 0 -> r = Zf 0)).
  { intros t Ht r.
    pose proof (humidity_result_percent (raw16_val dataH) t self Hb Ht
                  (raw16_val_range dataH)) as Hok.
    unfold percent_ok in Hok. apply andb_prop in Hok.
    destruct Hok as [H0 H100].
    split; [exact H0|]. split; [exact H100|].
    intros (H1 & H2 & H3 & H4 & H5 & H6) E. unfold r. rewrite E.
    now apply humidity_result_zero. }
  split.
  - intros Hc HlT HT t r. split.
    + exact (humidity_run_refresh bus upd self dataT dataH HlT HlH HT HH Hc).
    + apply Hrange.
      destruct Hb as ((H1 & H2 & H3 & _) & _).
      apply fine_temperature_bound; try assumption.
      apply raw20_val_range.
  - intros t -> Ht r. split.
    + exact (humidity_run_reuse bus self dataH t HlH HH Ht).
    + apply Hrange.
      destruct Hb as ((_ & _ & _ & Hfine) & _). now apply Hfine.
Qed.

Lemma humidity_in_range_witness :
  let self := with_hcoeffs (decodeH [x00] [x00; x00; x00; x00; x00; x00; x00])
                (with_coeffs (decode datasheet_cal) (fresh false)) in
  let t := fine_temperature (raw20_val [x7e; xed; x00]) (base self) in
  let r := F64.round
             (clamp (humidity_percent (raw16_val [x00; x00]) t self)) 3 in
  humidity zero_h_bus true self =
  (Ok r, set_base (set_t_fine (Some t) (base self)) self) /\
  F64.leb (Zf 0) r = true /\ F64.leb r (Zf 100) = true /\
  (all_H_zero self -> raw16_val [x00; x00] = 0 -> r = Zf 0).
Proof.
  intros self.
  assert (Hinit : BME280_init zero_h_bus false = Ok self)
    by (vm_compute; reflexivity).
  assert (HlH : (2 <= length [x00; x00])%nat) by (cbn; lia).
  assert (HlT : (3 <= length [x7e; xed; x00])%nat) by (cbn; lia).
  exact (proj1 (humidity_in_range zero_h_bus true self
                  [x7e; xed; x00] [x00; x00]
                  (reach_init zero_h_bus false self Hinit) HlH eq_refl)
           eq_refl HlT eq_refl).
Defined.

(** * Further properties *)

(** ** Raw samples *)

Lemma raw20_val_fields (data : list byte) :
  raw20_val data / 4096 = byte_val (nth 0 data x00) /\
  (raw20_val data / 16) mod 256 = byte_val (nth 1 data x00) /\
  raw20_val data mod 16 = byte_val (nth 2 data x00) / 16.
Proof.
  unfold raw20_val.
  pose proof (byte_val_range (nth 0 data x00)) as H0.
  pose proof (byte_val_range (nth 1 data x00)) as H1.
  pose proof (byte_val_range (nth 2 data x00)) as H2.
  rewrite !Z.shiftl_mul_pow2, Z.shiftr_div_pow2 by lia.
  change (2 ^ 12) with 4096. change (2 ^ 4) with 16.
  set (a := byte_val (nth 0 data x00)) in *.
  set (b := byte_val (nth 1 data x00)) in *.
  set (c := byte_val (nth 2 data x00)) in *.
  assert (Hc : 0 <= c / 16 < 16).
  { split; [apply Z.div_pos; lia | apply Z.div_lt_upper_bound; lia]. }
  set (n := c / 16) in *.
  repeat split.
  - symmetry. apply (Z.div_unique _ _ _ (b * 16 + n)); lia.
  - replace (a * 4096 + b * 16 + n) with (n + (a * 256 + b) * 16) by lia.
    rewrite Z.div_add by lia. rewrite (Z.div_small n 16) by lia.
    replace (0 + (a * 256 + b)) with (b + a * 256) by lia.
    rewrite Z.mod_add by lia. apply Z.mod_small. lia.
  - replace (a * 4096 + b * 16 + n) with (n + (a * 256 + b) * 16) by lia.
    rewrite Z.mod_add by lia. apply Z.mod_small. lia.
Qed.

Lemma raw20_sample (bus : I2CBus) (self : BMP280) (cmd : Z)
  (data : list byte) :
  bus (addr self) cmd 3 = Data data ->
  sample20 ((data <- read_block bus cmd 3 ;; lift (raw20 data)) self)
    self data.
Proof.
  intros Hbus. split; intros Hlen.
  - unfold read_block. run_method. rewrite Hbus.
    destruct data as [|b0 [|b1 [|b2 data]]]; try reflexivity.
    cbn [length] in Hlen. lia.
  - exists (raw20_val data). split.
    + unfold read_block. run_method. rewrite Hbus. now rewrite raw20_nth.
    + split; [apply raw20_val_range | apply raw20_val_fields].
Qed.

(** X1: with the register block readable, [raw_temperature] and
    [raw_pressure] leave the object alone; on a block of fewer than three
    bytes they raise IndexError, otherwise they return a 20-bit value whose
    bits 19..12 are the first byte, bits 11..4 the second and bits 3..0 the
    high nibble of the third: the low nibble of the third byte is ignored
    and the three fields can be read back from the sample. *)
Theorem raw_sample_fields
  (bus : I2CBus) (self : BMP280) (dataT dataP : list byte) :
  bus (addr self) TEMP 3 = Data dataT ->
  bus (addr self) PRESS 3 = Data dataP ->
  sample20 (raw_temperature bus self) self dataT /\
  sample20 (raw_pressure bus self) self dataP.
Proof.
  intros HT HP. split;
    [exact (raw20_sample bus self TEMP dataT HT)
    |exact (raw20_sample bus self PRESS dataP HP)].
Qed.

Lemma raw_sample_fields_witness :
  sample20 (raw_temperature datasheet_bus (fresh false)) (fresh false)
    [x7e; xed; x00] /\
  sample20 (raw_pressure datasheet_bus (fresh false)) (fresh false)
    [x65; x5a; xc0].
Proof.
  exact (raw_sample_fields datasheet_bus (fresh false)
           [x7e; xed; x00] [x65; x5a; xc0] eq_refl eq_refl).
Defined.

(** X2: with the block readable, [raw_humidity] leaves the object alone;
    on fewer than two bytes it raises IndexError, otherwise it returns the
    16-bit big-endian value of the first two bytes. *)
Theorem raw_humidity_fields
  (bus : I2CBus) (self : BME280) (data : list byte) :
  bus (addr (base self)) HUM 2 = Data data ->
  ((length data < 2)%nat ->
   raw_humidity bus self = (Raise IndexError, self)) /\
  ((2 <= length data)%nat ->
   exists raw : Z,
     raw_humidity bus self = (Ok raw, self) /\
     0 <= raw < 2 ^ 16 /\
     raw / 256 = byte_val (nth 0 data x00) /\
     raw mod 256 = byte_val (nth 1 data x00)).
Proof.
  intros Hbus.
  assert (Hrun : raw_humidity bus self =
                 (item2 data 0 1 (fun x y => Z.shiftl x 8 + y), self)).
  { unfold raw_humidity, read_block. run_method. rewrite super_run.
    run_method. rewrite Hbus. cbn [fst snd]. now rewrite set_base_base. }
  rewrite Hrun. split; intros Hlen.
  - destruct data as [|b0 [|b1 data]]; try reflexivity.
    cbn [length] in Hlen. lia.
  - exists (raw16_val data). rewrite (raw16_nth data Hlen).
    split; [reflexivity|]. split; [apply raw16_val_range|].
    unfold raw16_val.
    pose proof (byte_val_range (nth 0 data x00)).
    pose proof (byte_val_range (nth 1 data x00)).
    rewrite Z.shiftl_mul_pow2 by lia. change (2 ^ 8) with 256.
    split.
    + symmetry. apply (Z.div_unique _ _ _ (byte_val (nth 1 data x00))); lia.
    + rewrite Z.add_comm, Z.mod_add by lia. apply Z.mod_small. lia.
Qed.

Lemma raw_humidity_fields_witness :
  exists raw : Z,
    raw_humidity humid_bus (freshH false) = (Ok raw, freshH false) /\
    0 <= raw < 2 ^ 16 /\
    raw / 256 = byte_val (nth 0 [x80; x00] x00) /\
    raw mod 256 = byte_val (nth 1 [x80; x00] x00).
Proof.
  refine (proj2 (raw_humidity_fields humid_bus (freshH false) [x80; x00]
                   eq_refl) _).
  cbn. lia.
Defined.

(** ** Calls that compose, calls that fail *)

Lemma temperature_again (bus : I2CBus) (self : BMP280) :
  temperature bus (snd (temperature bus self)) = temperature bus self.
Proof.
  rewrite (temperature_cases bus self).
  destruct (bus (addr self) TEMP 3) as [data|e] eqn:Hbus.
  - destruct (raw20 data) as [raw|e] eqn:Hraw; cbn [snd].
    + rewrite temperature_cases. cbn [addr set_t_fine].
      now rewrite Hbus, Hraw.
    + now rewrite temperature_cases, Hbus, Hraw.
  - cbn [snd]. now rewrite temperature_cases, Hbus.
Qed.

(** X3: once [temperature] has returned, a refresh on the same content
    of the bus is redundant: [pressure] and [humidity] with the flag true
    return the same value and leave the same object as with the flag
    false. *)
Theorem refresh_redundant_after_temperature
  (bus : I2CBus) (self : BMP280) (selfH : BME280) (T : float) :
  (fst (temperature bus self) = Ok T ->
   pressure bus true (snd (temperature bus self)) =
   pressure bus false (snd (temperature bus self))) /\
  (fst (super (temperature bus) selfH) = Ok T ->
   humidity bus true (snd (super (temperature bus) selfH)) =
   humidity bus false (snd (super (temperature bus) selfH))).
Proof.
  split.
  - intros HT.
    rewrite (pressure_refresh bus true _ (orb_true_r _)). unfold bind.
    rewrite temperature_again.
    destruct (temperature bus self) as [[T'|e] s1]; [reflexivity|discriminate].
  - intros HT.
    rewrite (humidity_refresh bus true _ (orb_true_r _)). unfold bind.
    rewrite !super_run in *. cbn [fst snd base set_base] in *.
    rewrite temperature_again.
    destruct (temperature bus (base selfH)) as [[T'|e] s1];
      [|discriminate].
    cbn [fst snd]. now destruct selfH.
Qed.

Lemma refresh_redundant_after_temperature_witness :
  let self := with_coeffs (decode datasheet_cal) (fresh false) in
  pressure datasheet_bus true (snd (temperature datasheet_bus self)) =
  pressure datasheet_bus false (snd (temperature datasheet_bus self)).
Proof.
  refine (proj1 (refresh_redundant_after_temperature datasheet_bus
                   (with_coeffs (decode datasheet_cal) (fresh false))
                   (freshH false) (celsius 519888
                      (with_coeffs (decode datasheet_cal) (fresh false)))) _).
  reflexivity.
Defined.

(** X4: how [pressure] fails on the refresh path.  When the temperature
    registers do not answer, it raises the I2CError and the object is as
    before.  When they answer and the pressure registers do not, it raises
    the I2CError with [t_fine] already overwritten by the fine temperature
    of the sample just read. *)
Theorem pressure_failures
  (bus : I2CBus) (upd : bool) (self : BMP280) (dataT : list byte)
  (errno : Z) :
  is_None (t_fine self) || upd = true ->
  (bus (addr self) TEMP 3 = NoReply errno ->
   pressure bus upd self = (Raise (I2CError errno), self)) /\
  ((3 <= length dataT)%nat ->
   bus (addr self) TEMP 3 = Data dataT ->
   bus (addr self) PRESS 3 = NoReply errno ->
   pressure bus upd self =
   (Raise (I2CError errno),
    set_t_fine (Some (fine_temperature (raw20_val dataT) self)) self)).
Proof.
  intros Hc. split.
  - intros HT. rewrite (pressure_refresh bus upd self Hc). unfold bind.
    now rewrite temperature_cases, HT.
  - intros Hlen HT HP.
    rewrite (pressure_refresh bus upd self Hc). unfold bind.
    rewrite (temperature_run bus self dataT Hlen HT).
    rewrite (pressure_reuse bus _ (fine_temperature (raw20_val dataT) self))
      by reflexivity.
    cbn [addr set_t_fine]. now rewrite HP.
Qed.

Lemma pressure_failures_witness :
  let self := with_coeffs (decode datasheet_cal) (fresh false) in
  pressure deaf_press_bus true self =
  (Raise (I2CError 5),
   set_t_fine (Some (fine_temperature 519888 self)) self).
Proof.
  refine (proj2 (pressure_failures deaf_press_bus true
                   (with_coeffs (decode datasheet_cal) (fresh false))
                   [x7e; xed; x00] 5 _) _ _ _).
  - reflexivity.
  - cbn. lia.
  - reflexivity.
  - reflexivity.
Defined.

Lemma calibrate_keeps (bus : I2CBus) (a : Z) (t : option float) :
  preserves (keeps a t) (calibrate bus).
Proof.
  unfold calibrate.
  repeat first
    [ apply preserves_ret
    | apply preserves_lift
    | apply preserves_read_block
    | apply preserves_modify; intros s Hs; exact Hs
    | apply preserves_bind; [|intro] ].
Qed.

(** X5: [calibrate], on both classes and also when it raises half way,
    never touches [addr] or [t_fine]: a fine temperature computed with the
    previous coefficients survives a new calibration. *)
Theorem calibrate_keeps_t_fine (bus : I2CBus) (self : BMP280) (selfH : BME280) :
  (addr (snd (calibrate bus self)) = addr self /\
   t_fine (snd (calibrate bus self)) = t_fine self) /\
  (addr (base (snd (calibrateH bus selfH))) = addr (base selfH) /\
   t_fine (base (snd (calibrateH bus selfH))) = t_fine (base selfH)).
Proof.
  split.
  - exact (calibrate_keeps bus (addr self) (t_fine self) self
             (conj eq_refl eq_refl)).
  - assert (H : preserves (fun s => keeps (addr (base selfH))
                                      (t_fine (base selfH)) (base s))
                  (calibrateH bus)).
    { unfold calibrateH.
      assert (Hsup : forall A (m : M BMP280 A),
                 preserves (keeps (addr (base selfH)) (t_fine (base selfH))) m ->
                 preserves (fun s => keeps (addr (base selfH))
                                       (t_fine (base selfH)) (base s))
                   (super m)).
      { intros A m Hm. apply (preserves_super _ _ m Hm).
        - intros s Hs. exact Hs.
        - intros s b _ Hb. exact Hb. }
      apply preserves_bind; [apply Hsup, calibrate_keeps|intro].
      apply preserves_bind; [apply Hsup, preserves_read_block|intro].
      apply preserves_bind; [apply Hsup, preserves_read_block|intro].
      repeat first
        [ apply preserves_ret
        | apply preserves_lift
        | apply preserves_modify; intros s Hs; exact Hs
        | apply preserves_bind; [|intro] ]. }
    exact (H selfH (conj eq_refl eq_refl)).
Qed.

(** ** The humidity block *)

Lemma byte_val_of_small (v : Z) : 0 <= v < 256 -> byte_val (byte_of_Z v) = v.
Proof. intros Hv. rewrite byte_val_of_Z. now apply Z.mod_small. Qed.

Lemma s8_of_Z (v : Z) : -128 <= v < 128 -> s8 (byte_of_Z v) = v.
Proof.
  intros Hv. unfold s8. rewrite byte_val_of_Z.
  destruct (Z_lt_le_dec v 0) as [Hneg|Hpos].
  - replace (v mod 256) with (v + 256).
    + destruct (v + 256 <? 128) eqn:E; [apply Z.ltb_lt in E|]; lia.
    + symmetry. rewrite <- (Z.mod_add v 1 256) by lia.
      apply Z.mod_small. lia.
  - rewrite Z.mod_small by lia.
    destruct (v <? 128) eqn:E; [|apply Z.ltb_ge in E]; lia.
Qed.

Lemma decodeH_encodeHX (h : hcoeffs) :
  hcoeffs_in_range h -> decodeH [byte_of_Z (H1 h)] (encodeHX h) = h.
Proof.
  intros (R1 & R2 & R3 & R4 & R5 & R6).
  destruct h as [h1 h2 h3 h4 h5 h6]. cbn [H1 H2 H3 H4 H5 H6] in *.
  unfold decodeH, encodeHX. cbn [H1 H2 H3 H4 H5 H6].
  assert (E2 : s16le (le16 h2 ++ [byte_of_Z h3; byte_of_Z (h4 / 16);
                 byte_of_Z (h4 mod 16 + 16 * (h5 mod 16));
                 byte_of_Z (h5 / 16); byte_of_Z h6]) 0 = h2)
    by now apply le16_s16.
  rewrite E2. unfold le16. cbn [app nth].
  pose proof (Z.mod_pos_bound h4 16 ltac:(lia)) as M4.
  pose proof (Z.mod_pos_bound h5 16 ltac:(lia)) as M5.
  assert (D4 : 0 <= h4 / 16 < 256).
  { split; [apply Z.div_pos; lia | apply Z.div_lt_upper_bound; lia]. }
  assert (D5 : 0 <= h5 / 16 < 256).
  { split; [apply Z.div_pos; lia | apply Z.div_lt_upper_bound; lia]. }
  rewrite !byte_val_of_small by lia. rewrite s8_of_Z by lia.
  f_equal.
  - replace (h4 mod 16 + 16 * (h5 mod 16)) with (h4 mod 16 + (h5 mod 16) * 16)
      by lia.
    rewrite Z.mod_add by lia. rewrite Z.mod_mod by lia.
    pose proof (Z.div_mod h4 16 ltac:(lia)). lia.
  - replace (h4 mod 16 + 16 * (h5 mod 16)) with (h4 mod 16 + (h5 mod 16) * 16)
      by lia.
    rewrite Z.div_add by lia. rewrite (Z.div_small (h4 mod 16)) by lia.
    pose proof (Z.div_mod h5 16 ltac:(lia)). lia.
Qed.

(** X6: the layout of the humidity block.  For coefficients within the
    ranges the code can store, the seven bytes that hold H2 low byte first,
    H3, the high eight bits of H4, the byte shared by the low nibbles of H4
    and H5, the high eight bits of H5, and H6 load back, through
    [BME280.calibrate], as the original six values. *)
Theorem humidity_block_roundtrip
  (bus : I2CBus) (self : BME280) (data : list byte) (h : hcoeffs) :
  hcoeffs_in_range h ->
  (24 <= length data)%nat ->
  bus (addr (base self)) CALIBRATION 24 = Data data ->
  bus (addr (base self)) CALIBRATION_H1 1 = Data [byte_of_Z (H1 h)] ->
  bus (addr (base self)) CALIBRATION_HX 7 = Data (encodeHX h) ->
  length (encodeHX h) = 7%nat /\
  calibrateH bus self =
  (Ok tt, with_hcoeffs h (with_coeffs (decode data) (base self))).
Proof.
  intros Hh Hlen Hbus Hbus1 HbusX. split; [reflexivity|].
  rewrite (calibrateH_decode bus self data [byte_of_Z (H1 h)] (encodeHX h)
             Hlen ltac:(cbn; lia) ltac:(cbn; lia) Hbus Hbus1 HbusX).
  now rewrite decodeH_encodeHX.
Qed.

Lemma humidity_block_roundtrip_witness :
  calibrateH humid_bus (freshH false) =
  (Ok tt, with_hcoeffs (mkHcoeffs 75 366 0 317 50 30)
            (with_coeffs (decode datasheet_cal) (base (freshH false)))).
Proof.
  refine (proj2 (humidity_block_roundtrip humid_bus (freshH false)
                   datasheet_cal (mkHcoeffs 75 366 0 317 50 30) _ _ _ _ _)).
  - unfold hcoeffs_in_range, is_s16; cbn; lia.
  - cbn. lia.
  - reflexivity.
  - reflexivity.
  - reflexivity.
Defined.

(** ** Temperature is finite *)

Lemma scaled_digits_bound (m : positive) (e nd a : Z) :
  0 <= nd -> 0 <= a -> Zpos (digits2_pos m) + e <= a ->
  0 <= F64.scaled_digits m e nd <= 2 ^ (a + Zdigits2 (10 ^ nd)).
Proof.
  intros Hnd Ha Hm.
  assert (HP : 0 < 10 ^ nd) by (apply Z.pow_pos_nonneg; lia).
  pose proof (Zdigits2_lt_pow (10 ^ nd) ltac:(lia)) as HPd.
  pose proof (Zdigits2_pos (10 ^ nd) HP) as HPp.
  pose proof (Zdigits2_lt_pow (Zpos m) ltac:(lia)) as Hmd.
  cbn [Zdigits2] in Hmd.
  set (P := 10 ^ nd) in *. set (dP := Zdigits2 P) in *.
  set (dm := Zpos (digits2_pos m)) in *.
  assert (Hdm : 1 <= dm) by (unfold dm; lia).
  assert (HmP : Zpos m * P < 2 ^ (dm + dP)).
  { rewrite Z.pow_add_r by lia.
    assert (0 < 2 ^ dm) by (apply Z.pow_pos_nonneg; lia). nia. }
  unfold F64.scaled_digits. fold P.
  destruct (0 <=? e) eqn:E0.
  - apply Z.leb_le in E0.
    assert (Hp : 0 < 2 ^ e) by (apply Z.pow_pos_nonneg; lia).
    split; [nia|].
    apply Z.lt_le_incl.
    apply Z.lt_le_trans with (2 ^ (dm + dP) * 2 ^ e); [nia|].
    rewrite <- Z.pow_add_r by lia. apply Z.pow_le_mono_r; lia.
  - apply Z.leb_gt in E0.
    assert (Hp : 0 < 2 ^ (- e)) by (apply Z.pow_pos_nonneg; lia).
    apply round_half_even_div_le;
      [lia | lia | apply Z.pow_nonneg; lia |].
    rewrite <- Z.pow_add_r by lia.
    apply Z.lt_le_incl. eapply Z.lt_le_trans; [exact HmP|].
    apply Z.pow_le_mono_r; lia.
Qed.

(** [round(x, nd)] of a finite float is finite. *)
Lemma round_bound (a nd : Z) (x : float) :
  fbnd a x -> 0 <= nd -> 0 <= a <= 900 -> fbnd (a + 3) (F64.round x nd).
Proof.
  intros Hx Hnd Ha. destruct x as [s|s| |s m e]; try contradiction.
  - exact I.
  - destruct Hx as [_ Hm]. unfold F64.round.
    pose proof (scaled_digits_bound m e nd a Hnd ltac:(lia) Hm) as Hk.
    assert (HP : 0 < 10 ^ nd) by (apply Z.pow_pos_nonneg; lia).
    pose proof (Zdigits2_pos (10 ^ nd) HP) as HPp.
    destruct (F64.scaled_digits m e nd) as [|k|k]; [exact I| |lia].
    unfold SFdiv, F64.prec, F64.emax.
    pose proof (div_core_bound k (Z.to_pos (10 ^ nd)) 0 0) as Hcore.
    cbv zeta in Hcore.
    destruct (SFdiv_core_binary 53 1024 (Zpos k) 0
                (Zpos (Z.to_pos (10 ^ nd))) 0) as [[q e'] l].
    destruct Hcore as [Hq Hd].
    assert (Hdk : Zpos (digits2_pos k) <= a + Zdigits2 (10 ^ nd) + 1).
    { change (Zpos (digits2_pos k)) with (Zdigits2 (Zpos k)).
      apply Zdigits2_le_iff; [lia|lia|].
      rewrite Z.pow_add_r by lia. change (2 ^ 1) with 2.
      assert (0 < 2 ^ (a + Zdigits2 (10 ^ nd)))
        by (apply Z.pow_pos_nonneg; lia).
      lia. }
    assert (HdP : Zpos (digits2_pos (Z.to_pos (10 ^ nd))) = Zdigits2 (10 ^ nd)).
    { change (Zpos (digits2_pos (Z.to_pos (10 ^ nd))))
        with (Zdigits2 (Zpos (Z.to_pos (10 ^ nd)))).
      now rewrite Z2Pos.id by lia. }
    rewrite HdP in Hd.
    replace (a + 3) with (a + 2 + 1) by lia.
    apply binary_round_aux_bound; lia.
Qed.

Lemma fbnd_is_finite (k : Z) (x : float) : fbnd k x -> is_finite x = true.
Proof. destruct x; cbn; intuition. Qed.

Lemma celsius_bound (raw : Z) (self : BMP280) :
  0 <= raw < 2 ^ 20 -> bounded_base self -> fbnd 40 (celsius raw self).
Proof.
  intros Hraw (H1 & H2 & H3 & _).
  pose proof (fine_temperature_bound raw self Hraw H1 H2 H3) as Ht.
  unfold celsius.
  eapply fbnd_weaken.
  - apply (round_bound 30); [|lia|lia].
    eapply fbnd_weaken; [fbnd_expr|vm_compute; discriminate].
  - lia.
Qed.

(** X7: on a reachable object, a [temperature] call that returns gives a
    finite float, never NaN or an infinity, and leaves a finite
    [t_fine]. *)
Theorem temperature_finite
  (bus : I2CBus) (self : BME280) (T : float) :
  reachable self ->
  fst (super (temperature bus) self) = Ok T ->
  is_finite T = true /\
  exists t, t_fine (base (snd (super (temperature bus) self))) = Some t /\
            is_finite t = true.
Proof.
  intros Hreach HT.
  pose proof (reachable_bounded self Hreach) as [Hb _].
  rewrite super_run in *. cbn [fst snd base set_base] in *.
  rewrite temperature_cases in *.
  destruct (bus (addr (base self)) TEMP 3) as [data|errno]; [|discriminate].
  destruct (raw20 data) as [raw|e] eqn:Hraw; [|discriminate].
  cbn [fst snd t_fine set_t_fine] in *. injection HT as <-.
  pose proof (raw20_inv data raw Hraw) as Hr.
  split.
  - exact (fbnd_is_finite _ _ (celsius_bound raw (base self) Hr Hb)).
  - eexists. split; [reflexivity|].
    destruct Hb as (H1 & H2 & H3 & _).
    exact (fbnd_is_finite _ _
             (fine_temperature_bound raw (base self) Hr H1 H2 H3)).
Qed.

Lemma temperature_finite_witness :
  let self := with_hcoeffs (decodeH [x4b] [x6e; x01; x00; x13; x2d; x03; x1e])
                (with_coeffs (decode datasheet_cal) (fresh false)) in
  is_finite (F64.decimal 2508 2) = true /\
  exists t, t_fine (base (snd (super (temperature humid_bus) self))) = Some t /\
            is_finite t = true.
Proof.
  refine (temperature_finite humid_bus _ (F64.decimal 2508 2)
            (reach_init humid_bus false _ _) _).
  - reflexivity.
  - vm_compute. reflexivity.
Defined.

(** ** Configuration registers *)

Ltac run_regs := unfold bindR, retR, raiseR; cbv beta iota.

Lemma mode_code_range (mode : mode_arg) (c : Z) :
  mode_code mode = Some c -> c = 0 \/ c = 1 \/ c = 3.
Proof.
  destruct mode as [|n|s]; cbn.
  - intros [= <-]. auto.
  - destruct (n =? 0); [intros [= <-]; auto|].
    destruct (n =? 1); [intros [= <-]; auto|].
    destruct ((n =? 2) || (n =? 3)); [intros [= <-]; auto|discriminate].
  - destruct (String.eqb s "sleep"); [intros [= <-]; auto|].
    destruct (String.eqb s "forced"); [intros [= <-]; auto|].
    destruct (String.eqb s "normal"); [intros [= <-]; auto|discriminate].
Qed.

Lemma mode_chain (mode : mode_arg) (w : list write) :
  (if mode_is_None mode || mode_is_int mode 0 || mode_is_str mode "sleep"
   then retR SLEEP_MODE
   else if mode_is_int mode 1 || mode_is_str mode "forced"
   then retR FORCED_MODE
   else if mode_is_int mode 2 || mode_is_int mode 3
           || mode_is_str mode "normal"
   then retR NORMAL_MODE
   else raiseR (BMP280Error "Unknown device mode")) w =
  match mode_code mode with
  | Some c => (Done c, w)
  | None => (Fail (BMP280Error "Unknown device mode"), w)
  end.
Proof.
  destruct mode as [|n|s]; cbn.
  - reflexivity.
  - destruct (n =? 0) eqn:E0; [reflexivity|].
    destruct (n =? 1) eqn:E1; [reflexivity|].
    destruct (n =? 2) eqn:E2; [reflexivity|].
    destruct (n =? 3) eqn:E3; reflexivity.
  - destruct (String.eqb s "sleep"); [reflexivity|].
    destruct (String.eqb s "forced"); [reflexivity|].
    destruct (String.eqb s "normal"); reflexivity.
Qed.

Lemma oversampling_chain (msg : string) (v : Z) (w : list write) :
  (if v =? 0 then retR OVERSAMPLING_SKIPPED
   else if v =? 1 then retR OVERSAMPLING_1X
   else if v =? 2 then retR OVERSAMPLING_2X
   else if v =? 4 then retR OVERSAMPLING_4X
   else if v =? 8 then retR OVERSAMPLING_8X
   else if v =? 16 then retR OVERSAMPLING_16X
   else raiseR (BMP280Error msg)) w =
  if (v =? 0) || (v =? 1) || (v =? 2) || (v =? 4) || (v =? 8) || (v =? 16)
  then (Done (osrs v), w) else (Fail (BMP280Error msg), w).
Proof.
  unfold osrs.
  destruct (v =? 0) eqn:E0; [reflexivity|].
  destruct (v =? 1) eqn:E1; [apply Z.eqb_eq in E1; subst; reflexivity|].
  destruct (v =? 2) eqn:E2; [apply Z.eqb_eq in E2; subst; reflexivity|].
  destruct (v =? 4) eqn:E4; [apply Z.eqb_eq in E4; subst; reflexivity|].
  destruct (v =? 8) eqn:E8; [apply Z.eqb_eq in E8; subst; reflexivity|].
  destruct (v =? 16) eqn:E16; [apply Z.eqb_eq in E16; subst; reflexivity|].
  reflexivity.
Qed.

Lemma supported_iff (v : Z) :
  supported v <->
  (v =? 0) || (v =? 1) || (v =? 2) || (v =? 4) || (v =? 8) || (v =? 16) = true.
Proof.
  unfold supported. rewrite !orb_true_iff, !Z.eqb_eq. tauto.
Qed.

Lemma osrs_range (v : Z) : supported v -> 0 <= osrs v <= 5.
Proof.
  intros [->|[->|[->|[->|[->| ->]]]]]; vm_compute; split; discriminate.
Qed.

(** The bit fields of a control byte. *)
Lemma control_byte_fields (a b c : Z) :
  0 <= a <= 7 -> 0 <= b <= 7 -> 0 <= c <= 3 ->
  let data := Z.shiftl a 5 + Z.shiftl b 2 + c in
  0 <= data < 256 /\
  Z.shiftr data 5 = a /\ Z.land (Z.shiftr data 2) 7 = b /\ Z.land data 3 = c.
Proof.
  intros Ha Hb Hc data. unfold data.
  rewrite !Z.shiftl_mul_pow2, !Z.shiftr_div_pow2 by lia.
  change (2 ^ 5) with 32. change (2 ^ 2) with 4.
  assert (H7 : forall x, Z.land x 7 = x mod 8).
  { intros x. change 7 with (Z.ones 3). now rewrite Z.land_ones by lia. }
  assert (H3 : forall x, Z.land x 3 = x mod 4).
  { intros x. change 3 with (Z.ones 2). now rewrite Z.land_ones by lia. }
  rewrite H7, H3.
  repeat split; try lia.
  - symmetry. apply (Z.div_unique _ _ _ (b * 4 + c)); lia.
  - replace (a * 32 + b * 4 + c) with (c + (a * 8 + b) * 4) by lia.
    rewrite Z.div_add by lia. rewrite (Z.div_small c 4) by lia.
    replace (0 + (a * 8 + b)) with (b + a * 8) by lia.
    rewrite Z.mod_add by lia. apply Z.mod_small. lia.
  - replace (a * 32 + b * 4 + c) with (c + (a * 8 + b) * 4) by lia.
    rewrite Z.mod_add by lia. apply Z.mod_small. lia.
Qed.

Lemma set_acquisition_options_cases
  (dev : SMBus) (self : BMP280) (to po : Z) (mode : mode_arg)
  (w : list write) :
  Bmp.set_acquisition_options dev self to po mode w =
  if (to =? 0) || (to =? 1) || (to =? 2) || (to =? 4) || (to =? 8)
     || (to =? 16)
  then
    if (po =? 0) || (po =? 1) || (po =? 2) || (po =? 4) || (po =? 8)
       || (po =? 16)
    then
      match mode_code mode with
      | Some c =>
          write_byte_data dev (addr self) CTRL_MEAS
            (Z.shiftl (osrs to) 5 + Z.shiftl (osrs po) 2 + c) w
      | None => (Fail (BMP280Error "Unknown device mode"), w)
      end
    else (Fail (BMP280Error "Unsupported pressure oversampling"), w)
  else (Fail (BMP280Error "Unsupported temperature oversampling"), w).
Proof.
  unfold Bmp.set_acquisition_options. cbv zeta.
  unfold bindR at 1. rewrite oversampling_chain.
  destruct ((to =? 0) || (to =? 1) || (to =? 2) || (to =? 4) || (to =? 8)
            || (to =? 16)); [|reflexivity].
  unfold bindR at 1. rewrite oversampling_chain.
  destruct ((po =? 0) || (po =? 1) || (po =? 2) || (po =? 4) || (po =? 8)
            || (po =? 16)); [|reflexivity].
  unfold bindR at 1. rewrite mode_chain.
  destruct (mode_code mode) as [c|]; reflexivity.
Qed.

(** X8: [BMP280.set_acquisition_options] on supported oversampling
    factors (0, 1, 2, 4, 8, 16) and an accepted mode does one thing: it
    writes one byte to CTRL_MEAS.  The byte is below 256, its bits 7..5 are
    the code of the temperature factor, bits 4..2 the code of the pressure
    factor and bits 1..0 the mode, so the three settings can be read back
    from it. *)
Theorem set_acquisition_options_encodes
  (dev : SMBus) (self : BMP280) (to po : Z) (mode : mode_arg) (c : Z)
  (w : list write) :
  supported to -> supported po -> mode_code mode = Some c ->
  let data := Z.shiftl (osrs to) 5 + Z.shiftl (osrs po) 2 + c in
  Bmp.set_acquisition_options dev self to po mode w =
  write_byte_data dev (addr self) CTRL_MEAS data w /\
  0 <= data < 256 /\
  Z.shiftr data 5 = osrs to /\
  Z.land (Z.shiftr data 2) 7 = osrs po /\
  Z.land data 3 = c.
Proof.
  intros Hto Hpo Hmode data. split.
  - rewrite set_acquisition_options_cases.
    rewrite (proj1 (supported_iff to) Hto), (proj1 (supported_iff po) Hpo).
    now rewrite Hmode.
  - pose proof (osrs_range to Hto). pose proof (osrs_range po Hpo).
    pose proof (mode_code_range mode c Hmode).
    apply control_byte_fields; lia.
Qed.

Lemma set_acquisition_options_encodes_witness :
  Bmp.set_acquisition_options willing_dev (fresh false) 16 2 (ModeStr "normal")
    [] = (Done tt, [(I2C_ADDRESS, CTRL_MEAS, 0xab)]).
Proof.
  refine (proj1 (set_acquisition_options_encodes willing_dev (fresh false)
                   16 2 (ModeStr "normal") 3 [] _ _ _)).
  - unfold supported. tauto.
  - unfold supported. tauto.
  - reflexivity.
Defined.

(** X9: [BMP280.set_acquisition_options] rejects an unsupported
    argument with BMP280Error before anything is written; the temperature
    factor is checked first, then the pressure factor, then the mode. *)
Theorem set_acquisition_options_rejects
  (dev : SMBus) (self : BMP280) (to po : Z) (mode : mode_arg)
  (w : list write) :
  (~ supported to ->
   Bmp.set_acquisition_options dev self to po mode w =
   (Fail (BMP280Error "Unsupported temperature oversampling"), w)) /\
  (supported to -> ~ supported po ->
   Bmp.set_acquisition_options dev self to po mode w =
   (Fail (BMP280Error "Unsupported pressure oversampling"), w)) /\
  (supported to -> supported po -> mode_code mode = None ->
   Bmp.set_acquisition_options dev self to po mode w =
   (Fail (BMP280Error "Unknown device mode"), w)).
Proof.
  rewrite set_acquisition_options_cases.
  pose proof (supported_iff to) as Hto. pose proof (supported_iff po) as Hpo.
  destruct ((to =? 0) || (to =? 1) || (to =? 2) || (to =? 4) || (to =? 8)
            || (to =? 16)).
  - destruct ((po =? 0) || (po =? 1) || (po =? 2) || (po =? 4) || (po =? 8)
              || (po =? 16)).
    + split; [intros H; exfalso; apply H; now apply Hto|].
      split; [intros _ H; exfalso; apply H; now apply Hpo|].
      intros _ _ ->. reflexivity.
    + split; [intros H; exfalso; apply H; now apply Hto|].
      split; [reflexivity|].
      intros _ H. apply Hpo in H. discriminate.
  - split; [reflexivity|].
    split; intros H; apply Hto in H; discriminate.
Qed.

Lemma set_acquisition_options_rejects_witness :
  Bmp.set_acquisition_options willing_dev (fresh false) 3 7 ModeNone [] =
  (Fail (BMP280Error "Unsupported temperature oversampling"), []).
Proof.
  refine (proj1 (set_acquisition_options_rejects willing_dev (fresh false)
                   3 7 ModeNone []) _).
  unfold supported. lia.
Defined.

Lemma osrs_land (v : Z) : supported v -> Z.land (osrs v) 7 = osrs v.
Proof.
  intros [->|[->|[->|[->|[->| ->]]]]]; reflexivity.
Qed.

(** X10: [BME280.set_acquisition_options].  Without a humidity factor it
    is the inherited method.  An unsupported humidity factor is rejected
    before anything is written, whatever the other arguments.  A supported
    one is written to CTRL_HUM first: if the temperature factor is then
    rejected, the call raises with CTRL_HUM already written; if all is
    accepted, CTRL_HUM and CTRL_MEAS are written in this order. *)
Theorem set_acquisition_options_humidity
  (dev : SMBus) (self : BME280) (to po : Z) (mode : mode_arg)
  (w : list write) :
  Bme.set_acquisition_options dev self to po mode None w =
  Bmp.set_acquisition_options dev (base self) to po mode w /\
  (forall ho,
      ~ supported ho ->
      Bme.set_acquisition_options dev self to po mode (Some ho) w =
      (Fail (BMP280Error "Unsupported humidity oversampling"), w)) /\
  (forall ho,
      supported ho ->
      refuses dev (addr (base self)) CTRL_HUM (osrs ho) = None ->
      (~ supported to ->
       Bme.set_acquisition_options dev self to po mode (Some ho) w =
       (Fail (BMP280Error "Unsupported temperature oversampling"),
        w ++ [(addr (base self), CTRL_HUM, osrs ho)])) /\
      (forall c,
          supported to -> supported po -> mode_code mode = Some c ->
          let data := Z.shiftl (osrs to) 5 + Z.shiftl (osrs po) 2 + c in
          refuses dev (addr (base self)) CTRL_MEAS data = None ->
          Bme.set_acquisition_options dev self to po mode (Some ho) w =
          (Done tt,
           w ++ [(addr (base self), CTRL_HUM, osrs ho)]
             ++ [(addr (base self), CTRL_MEAS, data)]))).
Proof.
  split; [reflexivity|]. split.
  - intros ho Hho. unfold Bme.set_acquisition_options.
    unfold bindR at 1. unfold bindR at 1. rewrite oversampling_chain.
    pose proof (supported_iff ho) as Hiff.
    destruct ((ho =? 0) || (ho =? 1) || (ho =? 2) || (ho =? 4) || (ho =? 8)
              || (ho =? 16)); [|reflexivity].
    exfalso. apply Hho. now apply Hiff.
  - intros ho Hho Hack.
    assert (Hrun : Bme.set_acquisition_options dev self to po mode (Some ho) w =
                   Bmp.set_acquisition_options dev (base self) to po mode
                     (w ++ [(addr (base self), CTRL_HUM, osrs ho)])).
    { unfold Bme.set_acquisition_options.
      unfold bindR at 1. unfold bindR at 1. rewrite oversampling_chain.
      rewrite (proj1 (supported_iff ho) Hho).
      unfold Bme._ctrl_hum_set, write_byte_data. cbv zeta.
      rewrite (osrs_land ho Hho), Hack. reflexivity. }
    split.
    + intros Hto. rewrite Hrun, set_acquisition_options_cases.
      pose proof (supported_iff to) as Hiff.
      destruct ((to =? 0) || (to =? 1) || (to =? 2) || (to =? 4)
                || (to =? 8) || (to =? 16)); [|reflexivity].
      exfalso. apply Hto. now apply Hiff.
    + intros c Hto Hpo Hmode data Hack2.
      rewrite Hrun, set_acquisition_options_cases.
      rewrite (proj1 (supported_iff to) Hto), (proj1 (supported_iff po) Hpo).
      rewrite Hmode. unfold write_byte_data. fold data. rewrite Hack2.
      now rewrite <- app_assoc.
Qed.

Lemma set_acquisition_options_humidity_witness :
  Bme.set_acquisition_options willing_dev (freshH false) 3 1 ModeNone
    (Some 4) [] =
  (Fail (BMP280Error "Unsupported temperature oversampling"),
   [(I2C_ADDRESS, CTRL_HUM, 3)]) /\
  Bme.set_acquisition_options willing_dev (freshH false) 1 1 (ModeInt 1)
    (Some 4) [] =
  (Done tt, [(I2C_ADDRESS, CTRL_HUM, 3); (I2C_ADDRESS, CTRL_MEAS, 0x25)]).
Proof.
  split.
  - refine (proj1 (proj2 (proj2 (set_acquisition_options_humidity willing_dev
              (freshH false) 3 1 ModeNone [])) 4 _ _) _).
    + unfold supported. tauto.
    + reflexivity.
    + unfold supported. lia.
  - refine (proj2 (proj2 (proj2 (set_acquisition_options_humidity willing_dev
              (freshH false) 1 1 (ModeInt 1) [])) 4 _ _) 1 _ _ _ _).
    + unfold supported. tauto.
    + reflexivity.
    + unfold supported. tauto.
    + unfold supported. tauto.
    + reflexivity.
    + reflexivity.
Defined.

(** Walks one arm of a table of inactive times. *)
Ltac table_arm it v :=
  let E := fresh "E" in
  destruct (it =? v) eqn:E;
  [apply Z.eqb_eq in E; subst it;
   eexists; split; [reflexivity|];
   split; [try (intros _; reflexivity)
          |intros H; try (exfalso; apply H; vm_compute; tauto); eauto]
  |apply Z.eqb_neq in E].

(** With exactly three arguments the call runs the body of
    [_set_config_internal] on them. *)
Lemma call_set_config_internal_three
  (dev : SMBus) (self : BMP280) (t_sb fc : Z) (spi : bool) :
  call (Bmp._set_config_internal_method dev self)
       [VInt t_sb; VInt fc; VBool spi] =
  Bmp._set_config_internal dev self t_sb fc spi.
Proof. reflexivity. Qed.

(** X11: [set_config], on both classes, never writes the CONFIG register
    and never returns.  An inactive time that is not in the table raises
    BMP280Error; one that is in the table raises TypeError, because
    [_set_config_internal], which takes three arguments, is called with
    four. *)
Theorem set_config_never_writes
  (dev : SMBus) (self : BMP280) (selfH : BME280) (it fc : Z) (spi : bool)
  (w : list write) :
  (exists r, Bmp.set_config dev self it fc spi w = (Fail r, w) /\
             (standby_supported it -> r = Builtin TypeError) /\
             (~ standby_supported it ->
              r = BMP280Error "Unsupported inactive time")) /\
  (exists r, Bme.set_config dev selfH it fc spi w = (Fail r, w) /\
             (standby_supportedH it -> r = Builtin TypeError) /\
             (~ standby_supportedH it -> exists msg, r = BMP280Error msg)).
Proof.
  split.
  - unfold Bmp.set_config, standby_supported, call,
      Bmp._set_config_internal_method.
    cbv zeta. run_regs.
    table_arm it 0. table_arm it 1. cbn [orb].
    table_arm it 63. table_arm it 125. table_arm it 250. table_arm it 500.
    table_arm it 1000. table_arm it 2000. table_arm it 4000.
    eexists. split; [reflexivity|]. split; [|reflexivity].
    cbn [In]. intros H. exfalso. intuition congruence.
  - unfold Bme.set_config, standby_supportedH, call,
      Bmp._set_config_internal_method.
    cbv zeta. run_regs.
    table_arm it 0. table_arm it 1. cbn [orb].
    table_arm it 63. table_arm it 125. table_arm it 250. table_arm it 500.
    table_arm it 1000.
    table_arm it 2000. { cbn [In]. intros H. exfalso. intuition discriminate. }
    table_arm it 4000. { cbn [In]. intros H. exfalso. intuition discriminate. }
    table_arm it 10. table_arm it 20.
    eexists. split; [reflexivity|]. split; [|eauto].
    cbn [In]. intros H. exfalso. intuition congruence.
Qed.

Lemma set_config_never_writes_witness :
  exists r, Bmp.set_config willing_dev (fresh false) 500 4 false [] =
            (Fail r, []) /\ r = Builtin TypeError.
Proof.
  destruct (proj1 (set_config_never_writes willing_dev (fresh false)
                     (freshH false) 500 4 false [])) as (r & Hrun & Hin & _).
  exists r. split; [exact Hrun|]. apply Hin. vm_compute. tauto.
Defined.

(** X12: [BMP280._set_config_internal] with a supported filter constant
    (0, 1, 2, 4, 8, 16) and a standby code below 8 writes one byte to
    CONFIG, with the standby code in bits 7..5, the filter code in bits 4..2
    and the 3-wire flag in bit 0; another filter constant raises
    BMP280Error and nothing is written. *)
Theorem set_config_internal_encodes
  (dev : SMBus) (self : BMP280) (t_sb fc : Z) (spi : bool) (w : list write) :
  (supported fc -> 0 <= t_sb <= 7 ->
   let data := Z.shiftl t_sb 5 + Z.shiftl (filter_code fc) 2
               + (if spi then 1 else 0) in
   Bmp._set_config_internal dev self t_sb fc spi w =
   write_byte_data dev (addr self) CONFIG data w /\
   0 <= data < 256 /\
   Z.shiftr data 5 = t_sb /\
   Z.land (Z.shiftr data 2) 7 = filter_code fc /\
   Z.land data 3 = (if spi then 1 else 0)) /\
  (~ supported fc ->
   Bmp._set_config_internal dev self t_sb fc spi w =
   (Fail (BMP280Error "Unsupported filter constant"), w)).
Proof.
  split.
  - intros Hfc Ht data. split.
    + unfold Bmp._set_config_internal, Bmp._config_set. cbv zeta. run_regs.
      destruct Hfc as [->|[->|[->|[->|[->| ->]]]]]; reflexivity.
    + apply control_byte_fields; [lia| |destruct spi; lia].
      destruct Hfc as [->|[->|[->|[->|[->| ->]]]]]; vm_compute;
        split; discriminate.
  - intros Hfc. unfold Bmp._set_config_internal. cbv zeta. run_regs.
    unfold supported in Hfc.
    destruct (fc =? 0) eqn:E0; [apply Z.eqb_eq in E0; tauto|].
    destruct (fc =? 1) eqn:E1; [apply Z.eqb_eq in E1; tauto|].
    cbn [orb].
    destruct (fc =? 2) eqn:E2; [apply Z.eqb_eq in E2; tauto|].
    destruct (fc =? 4) eqn:E4; [apply Z.eqb_eq in E4; tauto|].
    destruct (fc =? 8) eqn:E8; [apply Z.eqb_eq in E8; tauto|].
    destruct (fc =? 16) eqn:E16; [apply Z.eqb_eq in E16; tauto|].
    reflexivity.
Qed.

Lemma set_config_internal_encodes_witness :
  Bmp._set_config_internal willing_dev (fresh false) 5 16 true [] =
  (Done tt, [(I2C_ADDRESS, CONFIG, 0xb1)]).
Proof.
  refine (proj1 (proj1 (set_config_internal_encodes willing_dev (fresh false)
                   5 16 true []) _ _)).
  - unfold supported. tauto.
  - lia.
Defined.

(** X13: the property [BME280.id] never returns the chip id: where
    [BMP280.id] returns the byte read from register 0xd0, [BME280.id] calls
    that int and raises TypeError; a bus failure is the same I2CError on
    both. *)
Theorem BME280_id_never_returns
  (dev : SMBus) (self : BME280) (w : list write) :
  match byte_at dev (addr (base self)) ID with
  | Value b =>
      Bmp.id dev (base self) w = (Done (byte_val b), w) /\
      Bme.id dev self w = (Fail (Builtin TypeError), w)
  | NoValue errno =>
      Bmp.id dev (base self) w = (Fail (Builtin (I2CError errno)), w) /\
      Bme.id dev self w = (Fail (Builtin (I2CError errno)), w)
  end.
Proof.
  unfold Bme.id, Bmp.id, read_byte_data, call. run_regs.
  destruct (byte_at dev (addr (base self)) ID); split; reflexivity.
Qed.

Lemma odd_testbit (x : Z) (n : Z) :
  0 <= n -> negb (Z.shiftr x n mod 2 =? 0) = Z.testbit x n.
Proof.
  intros Hn. rewrite <- (Z.add_0_l n) at 2. rewrite <- Z.shiftr_spec by lia.
  rewrite Z.bit0_odd, <- Z.negb_even.
  rewrite Zeven_mod. reflexivity.
Qed.

(** X14: [BMP280.status] returns bit 3 (measuring) and bit 0 (im_update)
    of the status register, and writes nothing. *)
Theorem status_bits (dev : SMBus) (self : BMP280) (w : list write) :
  match byte_at dev (addr self) STATUS with
  | Value b =>
      Bmp.status dev self w =
      (Done (Z.testbit (byte_val b) 3, Z.testbit (byte_val b) 0), w)
  | NoValue errno =>
      Bmp.status dev self w = (Fail (Builtin (I2CError errno)), w)
  end.
Proof.
  unfold Bmp.status, read_byte_data. run_regs.
  destruct (byte_at dev (addr self) STATUS) as [b|errno]; [|reflexivity].
  rewrite (odd_testbit (byte_val b) 3) by lia.
  rewrite <- (odd_testbit (byte_val b) 0) by lia.
  rewrite Z.shiftr_0_r. reflexivity.
Qed.

(** ** Byte order *)

Lemma lor_shiftl_byte (a b : Z) :
  0 <= b < 256 -> Z.lor (Z.shiftl a 8) b = a * 256 + b.
Proof.
  intros Hb. rewrite Z.shiftl_mul_pow2 by lia. change (2 ^ 8) with 256.
  rewrite <- Z.lxor_lor, <- Z.add_nocarry_lxor; try reflexivity.
  all: apply Z.bits_inj'; intros n Hn; rewrite Z.land_spec, Z.bits_0;
    destruct (Z_lt_le_dec n 8) as [Hlt|Hge].
  all: try (replace (a * 256) with (a * 2 ^ 8) by reflexivity;
            rewrite Z.mul_pow2_bits_low by lia; reflexivity).
  all: rewrite (Z.bits_above_log2 b n); [apply andb_false_r|lia|].
  all: destruct (Z.eq_dec b 0) as [->|Hne]; [cbn; lia|];
    apply Z.lt_le_trans with 8; [|lia];
    apply Z.log2_lt_pow2; lia.
Qed.

Lemma land_ff (x : Z) : Z.land x 0xff = x mod 256.
Proof. change 0xff with (Z.ones 8). now rewrite Z.land_ones by lia. Qed.

(** X15: [I2CBus.reverseByteOrder] on any int returns a 16-bit word: the
    low byte of the argument in bits 15..8 and its second byte in bits 7..0.
    Applied twice it gives the argument modulo 65536, so it is an involution
    on 16-bit words. *)
Theorem reverseByteOrder_swaps (data : Z) :
  reverseByteOrder data = 256 * (data mod 256) + (data / 256) mod 256 /\
  0 <= reverseByteOrder data < 65536 /\
  reverseByteOrder (reverseByteOrder data) = data mod 65536.
Proof.
  assert (Hval : forall d,
             reverseByteOrder d = 256 * (d mod 256) + (d / 256) mod 256).
  { intros d. unfold reverseByteOrder. cbn [seq fold_left fst].
    rewrite !land_ff, Z.shiftr_div_pow2 by lia. change (2 ^ 8) with 256.
    pose proof (Z.mod_pos_bound d 256 ltac:(lia)).
    pose proof (Z.mod_pos_bound (d / 256) 256 ltac:(lia)).
    rewrite !lor_shiftl_byte by lia. lia. }
  pose proof (Z.mod_pos_bound data 256 ltac:(lia)) as H0.
  pose proof (Z.mod_pos_bound (data / 256) 256 ltac:(lia)) as H1.
  split; [apply Hval|]. split; [rewrite Hval; lia|].
  rewrite (Hval (reverseByteOrder data)), (Hval data).
  set (lo := data mod 256) in *. set (hi := (data / 256) mod 256) in *.
  replace ((256 * lo + hi) mod 256) with hi.
  2:{ replace (256 * lo + hi) with (hi + lo * 256) by lia.
      rewrite Z.mod_add by lia. symmetry. apply Z.mod_small. lia. }
  replace ((256 * lo + hi) / 256) with lo.
  2:{ apply (Z.div_unique _ _ _ hi); lia. }
  rewrite (Z.mod_small lo) by lia.
  change 65536 with (256 * 256). rewrite Z.rem_mul_r by lia.
  fold lo. fold hi. lia.
Qed.


(** ** The pressure of a device whose P1 is zero *)

Lemma calibrate_bounded_P (bus : I2CBus) :
  preserves bounded_P (calibrate bus).
Proof.
  unfold calibrate.
  repeat first
    [ apply preserves_ret
    | apply preserves_lift
    | apply preserves_read_block
    | apply preserves_modify; intros s [H2 H3]; split; cbn;
      first [exact H2 | exact H3 | apply fbnd_c_short]
    | apply preserves_bind; [|intro] ].
Qed.

Lemma only_t_fine_changed_P (a b : BMP280) :
  only_t_fine_changed a b -> bounded_P a -> bounded_P b.
Proof.
  unfold only_t_fine_changed, bounded_P. intros -> H. exact H.
Qed.

Lemma reachable_bounded_P (self : BME280) :
  reachable self -> bounded_P (base self).
Proof.
  induction 1 as [bus alt self Hinit|bus self _ IH|bus self _ IH
                 |bus upd self _ IH|bus upd self _ IH].
  - destruct (BME280_init_inv bus alt self Hinit) as (d & d1 & dx & ->).
    split; cbn; apply fbnd_Zf16;
      [pose proof (s16le_range d 8)|pose proof (s16le_range d 10)]; lia.
  - assert (H : preserves (fun s => bounded_P (base s)) (calibrateH bus)).
    { unfold calibrateH.
      assert (Hsup : forall A (m : M BMP280 A),
                 preserves bounded_P m ->
                 preserves (fun s => bounded_P (base s)) (super m)).
      { intros A m Hm. apply (preserves_super _ _ m Hm).
        - intros s Hs. exact Hs.
        - intros s b _ Hb. exact Hb. }
      apply preserves_bind; [apply Hsup, calibrate_bounded_P|intro].
      apply preserves_bind; [apply Hsup, preserves_read_block|intro].
      apply preserves_bind; [apply Hsup, preserves_read_block|intro].
      repeat first
        [ apply preserves_ret
        | apply preserves_lift
        | apply preserves_modify; intros s Hs; exact Hs
        | apply preserves_bind; [|intro] ]. }
    now apply H.
  - rewrite super_run. cbn [snd base set_base].
    exact (only_t_fine_changed_P _ _ (temperature_frame bus (base self)) IH).
  - rewrite super_run. cbn [snd base set_base].
    exact (only_t_fine_changed_P _ _ (pressure_frame bus upd (base self)) IH).
  - exact (only_t_fine_changed_P _ _ (proj2 (humidity_frame bus upd self)) IH).
Qed.

Lemma denominator_zero (t : float) (self : BMP280) :
  fbnd 37 t -> bounded_P self -> dig_P1 self = Zf 0 ->
  F64.eqb (pressure_denominator t self) (Zf 0) = true.
Proof.
  intros Ht [H2 H3] H1. unfold pressure_denominator. cbv zeta. rewrite H1.
  match goal with
  | |- F64.eqb (F64.mul ?x _) _ = true =>
      assert (Hx : fbnd 200 x)
        by (eapply fbnd_weaken; [fbnd_expr|vm_compute; discriminate]);
      destruct x as [s|s| |s m e]; try contradiction
  end.
  - destruct s; reflexivity.
  - destruct s; reflexivity.
Qed.

(** X16: an object made by the constructor and used through [calibrate],
    [temperature], [pressure] and [humidity] whose coefficient P1 is zero
    reads 0.0 Pa whenever the temperature and pressure registers answer
    with three bytes or more, whatever the samples and the other
    coefficients are: the denominator is a zero, of either sign, and the
    guard [var1 == 0.0] takes it. *)
Theorem pressure_zero_when_P1_zero
  (bus : I2CBus) (upd : bool) (self : BME280) (dataT dataP : list byte) :
  reachable self ->
  dig_P1 (base self) = Zf 0 ->
  (3 <= length dataT)%nat -> (3 <= length dataP)%nat ->
  bus (addr (base self)) TEMP 3 = Data dataT ->
  bus (addr (base self)) PRESS 3 = Data dataP ->
  fst (super (pressure bus upd) self) = Ok (Zf 0).
Proof.
  intros Hreach HP1 HlT HlP HT HP.
  pose proof (reachable_bounded self Hreach) as [Hb _].
  pose proof (reachable_bounded_P self Hreach) as HbP.
  rewrite super_run. cbn [fst].
  destruct (refresh_or_reuse (t_fine (base self)) upd) as [Hc|[-> [t Ht]]].
  - rewrite (pressure_run_refresh bus upd (base self) dataT dataP
               HlT HlP HT HP Hc).
    cbn [fst]. unfold pressure_result.
    rewrite denominator_zero; [reflexivity| |exact HbP|exact HP1].
    destruct Hb as (H1 & H2 & H3 & _).
    apply fine_temperature_bound; try assumption. apply raw20_val_range.
  - rewrite (pressure_run_reuse bus (base self) dataP t HlP HP Ht).
    cbn [fst]. unfold pressure_result.
    rewrite denominator_zero; [reflexivity| |exact HbP|exact HP1].
    destruct Hb as (_ & _ & _ & Hfine). now apply Hfine.
Qed.

Lemma pressure_zero_when_P1_zero_witness :
  fst (super (pressure p1_zero_busH false)
         (with_hcoeffs (decodeH [x4b] [x6e; x01; x00; x13; x2d; x03; x1e])
            (with_coeffs (decode p1_zero_cal) (fresh false)))) = Ok (Zf 0).
Proof.
  refine (pressure_zero_when_P1_zero p1_zero_busH false _
            [x7e; xed; x00] [x65; x5a; xc0]
            (reach_init p1_zero_busH false _ _) _ _ _ _ _).
  - vm_compute. reflexivity.
  - vm_compute. reflexivity.
  - cbn. lia.
  - cbn. lia.
  - reflexivity.
  - reflexivity.
Defined.

(** ** Failures of the constructor and of the measurements *)

(** X17: the constructors pass on the I2CError of the first calibration
    read that the device refuses.  When the 24-byte block is refused both
    [BMP280(...)] and [BME280(...)] raise it; when that block answers,
    [BME280(...)] raises the error of the H1 read, and when H1 answers too,
    the error of the read of H2 to H6.  No object is made. *)
Theorem init_propagates_bus_error
  (bus : I2CBus) (alt : bool) (errno : Z) (data dataH1 : list byte) :
  (bus (addr (fresh alt)) CALIBRATION 24 = NoReply errno ->
   BMP280_init bus alt = Raise (I2CError errno) /\
   BME280_init bus alt = Raise (I2CError errno)) /\
  ((24 <= length data)%nat ->
   bus (addr (fresh alt)) CALIBRATION 24 = Data data ->
   (bus (addr (fresh alt)) CALIBRATION_H1 1 = NoReply errno ->
    BME280_init bus alt = Raise (I2CError errno)) /\
   (bus (addr (fresh alt)) CALIBRATION_H1 1 = Data dataH1 ->
    bus (addr (fresh alt)) CALIBRATION_HX 7 = NoReply errno ->
    BME280_init bus alt = Raise (I2CError errno))).
Proof.
  assert (Hinit : forall e, fst (calibrateH bus (freshH alt)) = Raise e ->
                            BME280_init bus alt = Raise e).
  { intros e He. unfold BME280_init.
    destruct (calibrateH bus (freshH alt)) as [[u|e'] s]; cbn in He;
      congruence. }
  split.
  - intros Hbus. split.
    + unfold BMP280_init. now rewrite (calibrate_bus_error bus _ errno Hbus).
    + apply Hinit. exact (calibrateH_bus_error bus (freshH alt) errno Hbus).
  - intros Hlen Hbus. split.
    + intros Hbus1. apply Hinit.
      exact (calibrateH_bus_error_H1 bus (freshH alt) data errno
               Hlen Hbus Hbus1).
    + intros Hbus1 HbusX. apply Hinit.
      exact (calibrateH_bus_error_HX bus (freshH alt) data dataH1 errno
               Hlen Hbus Hbus1 HbusX).
Qed.

Lemma init_propagates_bus_error_witness :
  BME280_init deaf_press_bus false = Raise (I2CError 5).
Proof.
  refine (proj1 (proj2 (init_propagates_bus_error deaf_press_bus false 5
                          datasheet_cal []) _ _) _).
  - cbn. lia.
  - reflexivity.
  - reflexivity.
Defined.

Lemma pressure_reuse_raises (bus : I2CBus) (self : BMP280) (t : float)
  (e : exn) :
  t_fine self = Some t ->
  fst (pressure bus false self) = Raise e -> bus_error e.
Proof.
  intros Ht. rewrite (pressure_reuse bus self t Ht).
  destruct (bus (addr self) PRESS 3) as [data|errno].
  - destruct (raw20 data) as [raw|e'] eqn:Hraw; cbn [fst]; [discriminate|].
    intros [= <-]. left. exact (raw20_raises data e' Hraw).
  - cbn [fst]. intros [= <-]. right. now exists errno.
Qed.

Lemma humidity_reuse_raises (bus : I2CBus) (self : BME280) (t : float)
  (e : exn) :
  t_fine (base self) = Some t ->
  fst (humidity bus false self) = Raise e -> bus_error e.
Proof.
  intros Ht. rewrite (humidity_reuse bus self t Ht).
  destruct (bus (addr (base self)) HUM 2) as [data|errno].
  - destruct (item2 data 0 1 _) as [raw|e'] eqn:Hraw; cbn [fst];
      [discriminate|].
    intros [= <-]. left. exact (item2_raises data 0 1 _ e' Hraw).
  - cbn [fst]. intros [= <-]. right. now exists errno.
Qed.

(** X18: whatever the device answers and whatever state the object is in,
    an exception raised by [temperature], [pressure] or [humidity] is the
    I2CError of a refused read or the IndexError of a block that is too
    short: the division in [pressure] never raises ZeroDivisionError and
    [t_fine] is never used while it is None. *)
Theorem only_bus_errors
  (bus : I2CBus) (upd : bool) (self : BMP280) (selfH : BME280) (e : exn) :
  (fst (temperature bus self) = Raise e -> bus_error e) /\
  (fst (pressure bus upd self) = Raise e -> bus_error e) /\
  (fst (humidity bus upd selfH) = Raise e -> bus_error e).
Proof.
  split; [intros H; exact (proj2 (temperature_raises bus self e H))|].
  split.
  - destruct (refresh_or_reuse (t_fine self) upd) as [Hc|[-> [t Ht]]].
    + rewrite (pressure_refresh bus upd self Hc). unfold bind.
      pose proof (temperature_sets_t_fine bus self) as Hset.
      pose proof (temperature_raises bus self e) as Hr.
      destruct (temperature bus self) as [[T|e'] s']; cbn [fst snd] in *.
      * destruct (Hset T eq_refl) as [t Ht].
        now apply pressure_reuse_raises with t.
      * intros [= ->]. exact (proj2 (Hr eq_refl)).
    + now apply pressure_reuse_raises with t.
  - destruct (refresh_or_reuse (t_fine (base selfH)) upd) as [Hc|[-> [t Ht]]].
    + rewrite (humidity_refresh bus upd selfH Hc). unfold bind.
      rewrite super_run.
      pose proof (temperature_sets_t_fine bus (base selfH)) as Hset.
      pose proof (temperature_raises bus (base selfH) e) as Hr.
      destruct (temperature bus (base selfH)) as [[T|e'] s'];
        cbn [fst snd] in *.
      * destruct (Hset T eq_refl) as [t Ht].
        now apply (humidity_reuse_raises bus (set_base s' selfH) t).
      * intros [= ->]. exact (proj2 (Hr eq_refl)).
    + now apply humidity_reuse_raises with t.
Qed.

Lemma only_bus_errors_witness :
  bus_error (I2CError 5).
Proof.
  refine (proj1 (proj2 (only_bus_errors deaf_press_bus true
                          (with_coeffs (decode datasheet_cal) (fresh false))
                          (freshH false) (I2CError 5))) _).
  vm_compute. reflexivity.
Defined.
